(** * DateUtility: a shallow embedding of [script.py] and its properties

    The Python class [DateUtility] works on [datetime.datetime] values,
    [datetime.timedelta] durations and a dictionary of holidays keyed by
    timezone name and then by day.  The script builds naive datetimes, and
    the methods are transcribed first on these ([datetime]); [convert_dt]
    returns aware ones, and the methods are transcribed again on datetime
    objects of either kind ([pydatetime], module [Dynamic]), where a naive
    and an aware datetime cannot be subtracted or ordered.  The embedding
    follows the reference implementation of the [datetime] module for the
    operations the script uses (ordinals, the constructor's range checks,
    comparison, addition and subtraction, [strptime] with the format
    [%Y%m%d]), and the script's own methods are transcribed one by one on
    top of it.

    - A call returns a [result]: a value, or the exception it raised.
    - The two [while] loops take a [fuel] argument, the number of iterations
      they may run; the properties give the fuel that is enough.
    - [load_holidays] takes the list of lines that [file.readlines()]
      returned; characters are 8-bit codes.
    - The timezone database of [pytz] is a parameter of [convert_dt]. *)

From Stdlib Require Import ZArith Lia List Ascii String Bool.
From stdpp Require Import base decidable countable gmap strings list.

Local Open Scope Z_scope.

(** ** Exceptions and results *)

(** The exceptions the modelled code can raise. *)
Inductive exn : Type :=
| OverflowError
| ValueError
| UnknownTimeZoneError
| TypeError.

(** The outcome of a call: a value, or a raised exception. *)
Inductive result (A : Type) : Type :=
| Ok (a : A)
| Err (e : exn).

Arguments Ok {A} a.
Arguments Err {A} e.

#[global] Instance result_ret : MRet result := fun _ a => Ok a.

#[global] Instance result_bind : MBind result := fun _ _ k r =>
  match r with
  | Ok a => k a
  | Err e => Err e
  end.

(** ** The proleptic Gregorian calendar of the [datetime] module *)

Module Calendar.

Definition MINYEAR : Z := 1.
Definition MAXYEAR : Z := 9999.
Definition _MAXORDINAL : Z := 3652059.

Definition _DAYS_IN_MONTH : list Z :=
  [-1; 31; 28; 31; 30; 31; 30; 31; 31; 30; 31; 30; 31].

Definition _DAYS_BEFORE_MONTH : list Z :=
  [-1; 0; 31; 59; 90; 120; 151; 181; 212; 243; 273; 304; 334].

(** Indexing of the two month tables. *)
Definition tbl (t : list Z) (i : Z) : Z := nth (Z.to_nat i) t 0.

Definition _is_leap (year : Z) : bool :=
  (year mod 4 =? 0) && (negb (year mod 100 =? 0) || (year mod 400 =? 0)).

Definition _days_before_year (year : Z) : Z :=
  let y := year - 1 in
  y * 365 + y / 4 - y / 100 + y / 400.

Definition _days_in_month (year month : Z) : Z :=
  if (month =? 2) && _is_leap year then 29 else tbl _DAYS_IN_MONTH month.

Definition _days_before_month (year month : Z) : Z :=
  tbl _DAYS_BEFORE_MONTH month
  + (if (2 <? month) && _is_leap year then 1 else 0).

Definition _ymd2ord (year month day : Z) : Z :=
  _days_before_year year + _days_before_month year month + day.

Definition _DI400Y : Z := Eval cbv in _days_before_year 401.
Definition _DI100Y : Z := Eval cbv in _days_before_year 101.
Definition _DI4Y : Z := Eval cbv in _days_before_year 5.

Definition _ord2ymd (n : Z) : Z * Z * Z :=
  let n := n - 1 in
  let n400 := n / _DI400Y in
  let n := n mod _DI400Y in
  let year := n400 * 400 + 1 in
  let n100 := n / _DI100Y in
  let n := n mod _DI100Y in
  let n4 := n / _DI4Y in
  let n := n mod _DI4Y in
  let n1 := n / 365 in
  let n := n mod 365 in
  let year := year + (n100 * 100 + n4 * 4 + n1) in
  if (n1 =? 4) || (n100 =? 4) then (year - 1, 12, 31)
  else
    let leapyear := (n1 =? 3) && (negb (n4 =? 24) || (n100 =? 3)) in
    let month := Z.shiftr (n + 50) 5 in
    let preceding :=
      tbl _DAYS_BEFORE_MONTH month
      + (if (2 <? month) && leapyear then 1 else 0) in
    if n <? preceding then
      let month := month - 1 in
      let preceding :=
        preceding
        - (tbl _DAYS_IN_MONTH month
           + (if (month =? 2) && leapyear then 1 else 0)) in
      (year, month, n - preceding + 1)
    else (year, month, n - preceding + 1).

(** [_check_date_fields]: the constructor of [date] accepts exactly these. *)
Definition check_date_fields (year month day : Z) : bool :=
  (MINYEAR <=? year) && (year <=? MAXYEAR)
  && (1 <=? month) && (month <=? 12)
  && (1 <=? day) && (day <=? _days_in_month year month).

(** [_check_time_fields] *)
Definition check_time_fields (hour minute second microsecond : Z) : bool :=
  (0 <=? hour) && (hour <=? 23)
  && (0 <=? minute) && (minute <=? 59)
  && (0 <=? second) && (second <=? 59)
  && (0 <=? microsecond) && (microsecond <=? 999999).

End Calendar.

Import Calendar.

(** ** [datetime.date], [datetime.datetime] and [datetime.timedelta] *)

Record date : Type := mkdate {
  date_year : Z;
  date_month : Z;
  date_day : Z
}.

(** The fields of a [datetime].  On their own they are a naive datetime (no
    [tzinfo]), as the script builds them; with the offset of a [tzinfo] they
    are a [pydatetime], further down. *)
Record datetime : Type := mkdatetime {
  year : Z;
  month : Z;
  day : Z;
  hour : Z;
  minute : Z;
  second : Z;
  microsecond : Z
}.

(** A normalised duration: [0 <= seconds < 86400] and
    [0 <= microseconds < 1000000]; only [days] carries the sign. *)
Record timedelta : Type := mktimedelta {
  days : Z;
  seconds : Z;
  microseconds : Z
}.

(** The values the constructor [datetime(...)] accepts. *)
Definition valid_datetime (d : datetime) : bool :=
  check_date_fields (year d) (month d) (day d)
  && check_time_fields (hour d) (minute d) (second d) (microsecond d).

(** [timedelta.__new__] on integer arguments: normalise, then check the
    range of [days]. *)
Definition timedelta_new (days seconds microseconds : Z) : result timedelta :=
  let d := days in
  let days := seconds / 86400 in
  let seconds := seconds mod 86400 in
  let d := d + days in
  let s := seconds in
  let seconds := microseconds / 1000000 in
  let microseconds := microseconds mod 1000000 in
  let days := seconds / 86400 in
  let seconds := seconds mod 86400 in
  let d := d + days in
  let s := s + seconds in
  let seconds := microseconds / 1000000 in
  let us := microseconds mod 1000000 in
  let s := s + seconds in
  let days := s / 86400 in
  let s := s mod 86400 in
  let d := d + days in
  if 999999999 <? Z.abs d then Err OverflowError
  else Ok (mktimedelta d s us).

(** [timedelta.__neg__] and [timedelta.__add__] *)
Definition timedelta_neg (t : timedelta) : result timedelta :=
  timedelta_new (- days t) (- seconds t) (- microseconds t).

Definition timedelta_add (a b : timedelta) : result timedelta :=
  timedelta_new (days a + days b) (seconds a + seconds b)
    (microseconds a + microseconds b).

(** [datetime.toordinal], [datetime.weekday] (Monday is 0) and
    [datetime.date] *)
Definition toordinal (d : datetime) : Z := _ymd2ord (year d) (month d) (day d).

Definition weekday (d : datetime) : Z := (toordinal d + 6) mod 7.

Definition datetime_date (d : datetime) : date :=
  mkdate (year d) (month d) (day d).

(** [datetime._cmp]: the seven fields compared as a tuple. *)
Definition cmp_then (c1 c2 : comparison) : comparison :=
  match c1 with
  | Eq => c2
  | _ => c1
  end.

Definition _cmp (a b : datetime) : comparison :=
  cmp_then (year a ?= year b)
  (cmp_then (month a ?= month b)
  (cmp_then (day a ?= day b)
  (cmp_then (hour a ?= hour b)
  (cmp_then (minute a ?= minute b)
  (cmp_then (second a ?= second b)
            (microsecond a ?= microsecond b)))))).

(** [a <= b] and [a > b] on datetimes *)
Definition datetime_le (a b : datetime) : bool :=
  match _cmp a b with
  | Gt => false
  | _ => true
  end.

Definition datetime_gt (a b : datetime) : bool :=
  match _cmp a b with
  | Gt => true
  | _ => false
  end.

Definition tod_seconds (d : datetime) : Z :=
  second d + minute d * 60 + hour d * 3600.

(** [datetime.__add__]: datetime + timedelta *)
Definition datetime_add (d : datetime) (other : timedelta) : result datetime :=
  delta ← timedelta_new (toordinal d) (tod_seconds d) (microsecond d);
  delta ← timedelta_add delta other;
  let hour := seconds delta / 3600 in
  let rem := seconds delta mod 3600 in
  let minute := rem / 60 in
  let second := rem mod 60 in
  if (0 <? days delta) && (days delta <=? _MAXORDINAL) then
    let '(y, m, dd) := _ord2ymd (days delta) in
    Ok (mkdatetime y m dd hour minute second (microseconds delta))
  else Err OverflowError.

(** [datetime.__sub__] with a timedelta on the right: [self + -other] *)
Definition datetime_sub_timedelta (d : datetime) (other : timedelta)
  : result datetime :=
  other ← timedelta_neg other;
  datetime_add d other.

(** [datetime.__sub__] with a naive datetime on the right *)
Definition datetime_sub (a b : datetime) : result timedelta :=
  timedelta_new (toordinal a - toordinal b)
    (tod_seconds a - tod_seconds b)
    (microsecond a - microsecond b).

(** ** Dictionary keys

    The holiday dictionaries are keyed by Python objects.  A [date] and a
    [datetime] never compare equal (and a [datetime] is never equal to a
    [date] key in a dictionary look-up), and a naive datetime never equals
    an aware one; two aware datetimes are equal when they are the same
    instant, so an aware key is its instant (microseconds of UTC time). *)
Inductive pykey : Type :=
| KDate (d : date)
| KDatetime (d : datetime)
| KAware (instant : Z).

#[global] Instance date_eq_dec : EqDecision date.
Proof. solve_decision. Defined.

#[global] Instance datetime_eq_dec : EqDecision datetime.
Proof. solve_decision. Defined.

#[global] Instance pykey_eq_dec : EqDecision pykey.
Proof. solve_decision. Defined.

#[global] Instance date_countable : Countable date :=
  inj_countable'
    (fun d => (date_year d, date_month d, date_day d))
    (fun t => let '(y, m, d) := t in mkdate y m d)
    (fun d => match d with mkdate _ _ _ => eq_refl end).

#[global] Instance datetime_countable : Countable datetime :=
  inj_countable'
    (fun d => (year d, month d, day d, hour d, minute d, second d,
               microsecond d))
    (fun t => let '(y, m, d, h, mi, s, us) := t in mkdatetime y m d h mi s us)
    (fun d => match d with mkdatetime _ _ _ _ _ _ _ => eq_refl end).

#[global] Instance pykey_countable : Countable pykey :=
  inj_countable'
    (fun k => match k with
              | KDate d => inl d
              | KDatetime d => inr (inl d)
              | KAware i => inr (inr i)
              end)
    (fun s => match s with
              | inl d => KDate d
              | inr (inl d) => KDatetime d
              | inr (inr i) => KAware i
              end)
    (fun k => match k with
              | KDate _ => eq_refl
              | KDatetime _ => eq_refl
              | KAware _ => eq_refl
              end).

(** [self.holidays]: timezone name, then day, then the holiday's name. *)
Abbreviation calendar := (gmap string (gmap pykey string)).

(** ** Strings: [str.strip], [str.split(', ')] and [strptime(_, "%Y%m%d")]

    Characters are 8-bit codes (the code points below 256). *)

Module Str.

Definition code (c : ascii) : Z := Z.of_N (N_of_ascii c).

(** [str.isspace] on one character *)
Definition is_space (c : ascii) : bool :=
  let n := code c in
  ((9 <=? n) && (n <=? 13)) || ((28 <=? n) && (n <=? 32))
  || (n =? 133) || (n =? 160).

Fixpoint lstrip (s : string) : string :=
  match s with
  | EmptyString => EmptyString
  | String c rest => if is_space c then lstrip rest else s
  end.

Fixpoint rev_onto (s acc : string) : string :=
  match s with
  | EmptyString => acc
  | String c rest => rev_onto rest (String c acc)
  end.

Definition rev (s : string) : string := rev_onto s EmptyString.

(** [s.strip()] *)
Definition strip (s : string) : string := rev (lstrip (rev (lstrip s))).

(** [s.split(', ')]: cut at every occurrence of comma-space, scanning from
    the left; [cur] is the field being read, reversed. *)
Fixpoint split_from (cur s : string) : list string :=
  match s with
  | EmptyString => [rev cur]
  | String c rest =>
      match rest with
      | String c' rest' =>
          if (code c =? 44) && (code c' =? 32)
          then rev cur :: split_from EmptyString rest'
          else split_from (String c cur) rest
      | EmptyString => split_from (String c cur) rest
      end
  end.

Definition split (s : string) : list string := split_from EmptyString s.

(** The value of a decimal digit, if the character is one ([\d]). *)
Definition digit (c : ascii) : option Z :=
  let n := code c in
  if (48 <=? n) && (n <=? 57) then Some (n - 48) else None.

(** A digit in the range [lo-hi] of a character class. *)
Definition digit_in (lo hi : Z) (c : ascii) : option Z :=
  match digit c with
  | Some v => if (lo <=? v) && (v <=? hi) then Some v else None
  | None => None
  end.

(** One alternative of a group: it reads one or two characters and yields the
    characters read as a number, with the rest of the input. *)
Definition alt2 (lo1 hi1 lo2 hi2 : Z) (s : string) : list (Z * string) :=
  match s with
  | String c1 (String c2 rest) =>
      match digit_in lo1 hi1 c1, digit_in lo2 hi2 c2 with
      | Some v1, Some v2 => [(10 * v1 + v2, rest)]
      | _, _ => []
      end
  | _ => []
  end.

Definition alt1 (lo hi : Z) (s : string) : list (Z * string) :=
  match s with
  | String c rest =>
      match digit_in lo hi c with
      | Some v => [(v, rest)]
      | None => []
      end
  | EmptyString => []
  end.

(** The alternative [ [1-9]] of the day group: a space, then a digit. *)
Definition alt_space (s : string) : list (Z * string) :=
  match s with
  | String c1 (String c2 rest) =>
      if code c1 =? 32 then
        match digit_in 1 9 c2 with
        | Some v => [(v, rest)]
        | None => []
        end
      else []
  | _ => []
  end.

(** [%Y] is [(?P<Y>\d\d\d\d)]. *)
Definition group_Y (s : string) : list (Z * string) :=
  match s with
  | String c1 (String c2 (String c3 (String c4 rest))) =>
      match digit c1, digit c2, digit c3, digit c4 with
      | Some v1, Some v2, Some v3, Some v4 =>
          [(1000 * v1 + 100 * v2 + 10 * v3 + v4, rest)]
      | _, _, _, _ => []
      end
  | _ => []
  end.

(** [%m] is [(?P<m>1[0-2]|0[1-9]|[1-9])]: the ways to read a month, in
    the order the matcher tries them. *)
Definition group_m (s : string) : list (Z * string) :=
  alt2 1 1 0 2 s ++ alt2 0 0 1 9 s ++ alt1 1 9 s.

(** [%d] is [(?P<d>3[0-1]|[1-2]\d|0[1-9]|[1-9]| [1-9])]. *)
Definition group_d (s : string) : list (Z * string) :=
  alt2 3 3 0 1 s ++ alt2 1 2 0 9 s ++ alt2 0 0 1 9 s ++ alt1 1 9 s
  ++ alt_space s.

(** The match of the whole pattern at the start of the input: the first
    combination of alternatives, in backtracking order, that matches. *)
Definition match_Ymd (s : string) : option (Z * Z * Z * string) :=
  head
    ('(y, s1) ← group_Y s;
     '(m, s2) ← group_m s1;
     '(d, s3) ← group_d s2;
     [(y, m, d, s3)]).

End Str.

(** [datetime.datetime.strptime(date_string, "%Y%m%d")]: the pattern must
    match at the start of the string, nothing may remain after the match,
    and the fields must form a date. *)
Definition strptime_Ymd (date_string : string) : result datetime :=
  match Str.match_Ymd date_string with
  | None => Err ValueError
  | Some (y, m, d, rest) =>
      match rest with
      | EmptyString =>
          if check_date_fields y m d then Ok (mkdatetime y m d 0 0 0 0)
          else Err ValueError
      | String _ _ => Err ValueError
      end
  end.

(** ** The class [DateUtility] *)

Module DateUtility.

(** [key in d] for a dictionary *)
Definition contains {K V : Type} `{Countable K} (d : gmap K V) (key : K) : bool :=
  bool_decide (is_Some (d !! key)).

(** The body of the [for line in lines] loop of [load_holidays], run over
    the lines that remain, with the dictionary built so far. *)
Fixpoint load_lines (lines : list string) (holidays : calendar)
  : result calendar :=
  match lines with
  | [] => Ok holidays
  | line :: lines =>
      match Str.split (Str.strip line) with
      | [timezone; date_str; holiday] =>
          dt ← strptime_Ymd date_str;
          let date := datetime_date dt in
          let holidays :=
            if negb (contains holidays timezone)
            then <[timezone := ∅]> holidays
            else holidays in
          load_lines lines
            (alter (insert (KDate date) holiday) timezone holidays)
      | _ => Err ValueError
      end
  end.

(** [load_holidays]; [lines] is what [file.readlines()] returned. *)
Definition load_holidays (lines : list string) : result calendar :=
  load_lines (tail lines) ∅.

Section Convert.

(** The [pytz] database: [pytz_timezone name] is [None] when
    [pytz.timezone(name)] raises [UnknownTimeZoneError]. *)
Variable tzinfo : Type.
Variable aware_datetime : Type.
Variable pytz_timezone : string -> option tzinfo.
Variable localize : tzinfo -> datetime -> result aware_datetime.
Variable astimezone : aware_datetime -> tzinfo -> result aware_datetime.

Definition timezone_lookup (name : string) : result tzinfo :=
  match pytz_timezone name with
  | Some tz => Ok tz
  | None => Err UnknownTimeZoneError
  end.

Definition convert_dt (from_date : datetime) (from_date_TZ to_date_TZ : string)
  : result aware_datetime :=
  from_timezone ← timezone_lookup from_date_TZ;
  to_timezone ← timezone_lookup to_date_TZ;
  from_date ← localize from_timezone from_date;
  astimezone from_date to_timezone.

End Convert.

Definition add_dt (from_date : datetime) (number_of_days : Z)
  : result datetime :=
  delta ← timedelta_new number_of_days 0 0;
  datetime_add from_date delta.

Definition sub_dt (from_date : datetime) (number_of_days : Z)
  : result datetime :=
  delta ← timedelta_new number_of_days 0 0;
  datetime_sub_timedelta from_date delta.

Definition get_days (from_date to_date : datetime) : result Z :=
  delta ← datetime_sub to_date from_date;
  Ok (days delta).

(** The [while] loop of [count_weekends], with the current values of
    [current_date] and [weekends].  The loop is run for at most [fuel]
    iterations: [None] means that these were not enough to leave it,
    [Some (Err e)] that the step [current_date += timedelta(days=1)]
    raised [e]. *)
Fixpoint count_weekends_loop (fuel : nat) (current_date to_date : datetime)
  (weekends : Z) : option (result Z) :=
  match fuel with
  | O => None
  | S fuel =>
      if datetime_le current_date to_date then
        let weekends :=
          if 5 <=? weekday current_date then weekends + 1 else weekends in
        match delta ← timedelta_new 1 0 0; datetime_add current_date delta with
        | Ok current_date =>
            count_weekends_loop fuel current_date to_date weekends
        | Err e => Some (Err e)
        end
      else Some (Ok weekends)
  end.

Definition count_weekends (fuel : nat) (from_date to_date : datetime)
  : option (result Z) :=
  count_weekends_loop fuel from_date to_date 0.

Definition get_days_exclude_we (fuel : nat) (from_date to_date : datetime)
  : option (result Z) :=
  match datetime_sub to_date from_date with
  | Err e => Some (Err e)
  | Ok delta =>
      match count_weekends fuel from_date to_date with
      | Some (Ok weekends) => Some (Ok (days delta - weekends))
      | other => other
      end
  end.

(** [datetime.utcfromtimestamp(0)] *)
Definition epoch : datetime := mkdatetime 1970 1 1 0 0 0 0.

Definition get_days_since_epoch (from_date : datetime) : result Z :=
  delta ← datetime_sub from_date epoch;
  Ok (days delta).

Definition is_holiday (holidays : calendar) (date : pykey) (timezone : string)
  : bool :=
  if contains holidays timezone
     && match holidays !! timezone with
        | Some of_timezone => contains of_timezone date
        | None => false
        end
  then true
  else false.

(** The [while] loop of [get_business_days]. *)
Fixpoint get_business_days_loop (holidays : calendar) (fuel : nat)
  (current_date to_date : datetime) (business_days : Z)
  : option (result Z) :=
  match fuel with
  | O => None
  | S fuel =>
      if datetime_le current_date to_date then
        let business_days :=
          if (weekday current_date <? 5)
             && negb (is_holiday holidays (KDatetime current_date)
                        "US/Eastern")
          then business_days + 1
          else business_days in
        match delta ← timedelta_new 1 0 0; datetime_add current_date delta with
        | Ok current_date =>
            get_business_days_loop holidays fuel current_date to_date
              business_days
        | Err e => Some (Err e)
        end
      else Some (Ok business_days)
  end.

Definition get_business_days (holidays : calendar) (fuel : nat)
  (from_date to_date : datetime) : option (result Z) :=
  get_business_days_loop holidays fuel from_date to_date 0.

End DateUtility.

Import DateUtility.

(** ** Quantities the statements are phrased in *)

Definition US_PER_DAY : Z := 86400000000.

(** Microseconds since midnight, and since the start of ordinal day 0. *)
Definition tod_us (d : datetime) : Z :=
  tod_seconds d * 1000000 + microsecond d.

Definition total_us (d : datetime) : Z := toordinal d * US_PER_DAY + tod_us d.

(** The duration [to - from] in whole days, rounded towards minus infinity,
    and the same duration with the part of a day discarded towards zero. *)
Definition floor_days (from_date to_date : datetime) : Z :=
  (total_us to_date - total_us from_date) / US_PER_DAY.

Definition trunc_days (from_date to_date : datetime) : Z :=
  (total_us to_date - total_us from_date) ÷ US_PER_DAY.

(** The same time of day, [k] calendar days later. *)
Definition plus_days (d : datetime) (k : Z) : datetime :=
  let '(y, m, dd) := _ord2ymd (toordinal d + k) in
  mkdatetime y m dd (hour d) (minute d) (second d) (microsecond d).

(** The days of the inclusive range: [from], [from] plus one day, and so on
    while not after [to]. *)
Definition day_range (from_date to_date : datetime) : list datetime :=
  map (fun k => plus_days from_date (Z.of_nat k))
    (seq 0 (Z.to_nat (floor_days from_date to_date + 1))).

Definition count_days (p : datetime -> bool) (l : list datetime) : Z :=
  Z.of_nat (length (List.filter p l)).

Definition is_weekend (d : datetime) : bool := 5 <=? weekday d.

Definition is_weekday (d : datetime) : bool := weekday d <? 5.

(** The test of the loop of [get_business_days] on the day it has reached,
    with the timezone it passes to [is_holiday] as a parameter: the look-up
    is made with the datetime itself. *)
Definition is_business_day (holidays : calendar) (timezone : string)
  (d : datetime) : bool :=
  (weekday d <? 5) && negb (is_holiday holidays (KDatetime d) timezone).

(** Following the specification: a business day in [timezone] is a day from
    Monday to Friday whose calendar date is not a holiday there, and
    [businessDays(from, to, timezone)] counts the business days of the
    inclusive range. *)
Definition spec_business_day (holidays : calendar) (timezone : string)
  (d : datetime) : bool :=
  (weekday d <? 5)
  && negb (is_holiday holidays (KDate (datetime_date d)) timezone).

Definition businessDays (holidays : calendar) (from_date to_date : datetime)
  (timezone : string) : Z :=
  count_days (spec_business_day holidays timezone)
    (day_range from_date to_date).

(** A day from Monday to Friday whose calendar date is a holiday in
    [timezone]. *)
Definition weekday_holiday (holidays : calendar) (timezone : string)
  (d : datetime) : bool :=
  (weekday d <? 5) && is_holiday holidays (KDate (datetime_date d)) timezone.

(** The last day of the calendar, [datetime.max] at midnight. *)
Definition last_day : datetime := mkdatetime 9999 12 31 0 0 0 0.

(** The loops step from [current_date] to the day after it; that day must
    exist for every day of the range. *)
Definition range_fits (from_date to_date : datetime) : Prop :=
  floor_days from_date to_date < 0
  \/ toordinal from_date + floor_days from_date to_date < _MAXORDINAL.

(** The two [while] loops share their shape: count the days that satisfy
    [p], stepping one day at a time ([add_dt current_date 1] is the step
    [current_date + timedelta(days=1)]). *)
Fixpoint day_loop (p : datetime -> bool) (fuel : nat)
  (current_date to_date : datetime) (count : Z) : option (result Z) :=
  match fuel with
  | O => None
  | S fuel =>
      if datetime_le current_date to_date then
        let count := if p current_date then count + 1 else count in
        match add_dt current_date 1 with
        | Ok current_date => day_loop p fuel current_date to_date count
        | Err e => Some (Err e)
        end
      else Some (Ok count)
  end.

(** A line the loop body cannot process: it does not unpack into three
    fields, or [strptime] rejects its second field. *)
Definition rejected (line : string) : Prop :=
  match Str.split (Str.strip line) with
  | [_; date_str; _] => forall dt, strptime_Ymd date_str <> Ok dt
  | _ => True
  end.

(** Every day key of the dictionary is a [date]. *)
Definition date_keyed (holidays : calendar) : Prop :=
  forall timezone of_timezone key,
    holidays !! timezone = Some of_timezone ->
    is_Some (of_timezone !! key) ->
    exists d, key = KDate d.

(** A line the loop body processes: three fields, the second a date. *)
Definition accepted (line : string) : bool :=
  match Str.split (Str.strip line) with
  | [_; date_str; _] =>
      match strptime_Ymd date_str with
      | Ok _ => true
      | Err _ => false
      end
  | _ => false
  end.

(** ** Auxiliary quantities of the calendar proofs *)

Definition days_in_year (y : Z) : Z := if _is_leap y then 366 else 365.

(** The month and day computed by [_ord2ymd] from the zero-based day of the
    year, once the year and its leap flag are known. *)
Definition month_day (leapyear : bool) (n : Z) : Z * Z :=
  let month := Z.shiftr (n + 50) 5 in
  let preceding :=
    tbl _DAYS_BEFORE_MONTH month
    + (if (2 <? month) && leapyear then 1 else 0) in
  if n <? preceding then
    let month := month - 1 in
    let preceding :=
      preceding
      - (tbl _DAYS_IN_MONTH month
         + (if (month =? 2) && leapyear then 1 else 0)) in
    (month, n - preceding + 1)
  else (month, n - preceding + 1).

(** ** The run at the end of the script *)

Definition demo_from : datetime := mkdatetime 2022 12 22 0 0 0 0.
Definition demo_to : datetime := mkdatetime 2023 1 2 0 0 0 0.

Definition demo_lines : list string :=
  ["TimeZone, Date, Holiday
";
   "US/Eastern, 20221225, Christmas
";
   "US/Eastern, 20230101, New Year
"]%string.

(** ** Values used in the examples *)

(** [add_dt] followed by [sub_dt] of the same number of days. *)
Definition round_trip (d : datetime) (n : Z) : result datetime :=
  shifted ← add_dt d n;
  sub_dt shifted n.

Definition demo_noon : datetime := mkdatetime 2022 12 22 12 0 0 0.

Definition boxing_day : datetime := mkdatetime 2022 12 26 0 0 0 0.

(** A dictionary with one entry, filed under "UTC" and keyed by a datetime. *)
Definition utc_calendar : calendar :=
  {[ "UTC"%string := {[ KDatetime boxing_day := "Boxing Day"%string ]} ]}.

(** A holiday file with one holiday, Monday 26 December 2022, filed under
    "US/Eastern". *)
Definition boxing_day_lines : list string :=
  ["TimeZone, Date, Holiday
";
   "US/Eastern, 20221226, Boxing Day
"]%string.

(** A holiday file whose date field has seven characters. *)
Definition short_date_lines : list string :=
  ["TimeZone, Date, Holiday
";
   "US/Eastern, 2022125, Short
"]%string.

(** A timezone database that knows "UTC" only; a datetime localized in UTC
    and converted to UTC is unchanged. *)
Definition utc_only (name : string) : option unit :=
  if String.eqb name "UTC" then Some tt else None.

Definition utc_localize (tz : unit) (d : datetime) : result datetime := Ok d.

Definition utc_astimezone (d : datetime) (tz : unit) : result datetime := Ok d.

(** ** The entries of a holiday file *)

(** What a line contributes when the loop body of [load_holidays] processes
    it: the timezone, the day and the name of the holiday. *)
Definition line_entry (line : string) : option (string * date * string) :=
  match Str.split (Str.strip line) with
  | [timezone; date_str; holiday] =>
      match strptime_Ymd date_str with
      | Ok dt => Some (timezone, datetime_date dt, holiday)
      | Err _ => None
      end
  | _ => None
  end.

(** The three statements that file an entry: create the dictionary of the
    timezone if it is missing, then store the name under the day. *)
Definition add_entry (holidays : calendar) (timezone : string) (day : date)
  (holiday : string) : calendar :=
  let holidays :=
    if negb (contains holidays timezone)
    then <[timezone := ∅]> holidays
    else holidays in
  alter (insert (KDate day) holiday) timezone holidays.

(** [holidays[timezone][key]], when both keys are present. *)
Definition holiday_name (holidays : calendar) (timezone : string)
  (key : pykey) : option string :=
  of_timezone ← holidays !! timezone;
  of_timezone !! key.

(** A line of white space only (or an empty one). *)
Fixpoint all_space (line : string) : bool :=
  match line with
  | EmptyString => true
  | String c rest => Str.is_space c && all_space rest
  end.

(** ** Dates written with eight digits *)

(** The character of a decimal digit. *)
Definition digit_char (v : Z) : ascii := ascii_of_N (Z.to_N (48 + v)).

(** [n] written with two digits, in front of [rest]. *)
Definition two_digits (n : Z) (rest : string) : string :=
  String (digit_char (n / 10)) (String (digit_char (n mod 10)) rest).

(** A date written as [YYYYMMDD], zero padded. *)
Definition format_Ymd (y m d : Z) : string :=
  two_digits (y / 100)
    (two_digits (y mod 100) (two_digits m (two_digits d EmptyString))).

(** ** Datetime objects, naive or aware *)

(** A datetime object as a method may receive it: its fields, and the UTC
    offset that its [tzinfo] gives ([None] for a naive datetime).  The
    script builds naive datetimes; [convert_dt] returns aware ones.  A
    [tzinfo] stands for its offset: two aware datetimes with the same offset
    are compared and subtracted field by field. *)
Record pydatetime : Type := mkpy {
  fields : datetime;
  utcoffset : option timedelta
}.

Definition naive (d : datetime) : pydatetime := mkpy d None.

#[global] Instance timedelta_eq_dec : EqDecision timedelta.
Proof. solve_decision. Defined.

(** A duration in microseconds. *)
Definition td_us (t : timedelta) : Z :=
  (days t * 86400 + seconds t) * 1000000 + microseconds t.

(** The offsets a [tzinfo] may return: normalised durations strictly
    between minus one day and one day. *)
Definition valid_offset (t : timedelta) : bool :=
  (0 <=? seconds t) && (seconds t <? 86400)
  && (0 <=? microseconds t) && (microseconds t <? 1000000)
  && (- US_PER_DAY <? td_us t) && (td_us t <? US_PER_DAY).

Definition valid_pydatetime (a : pydatetime) : bool :=
  valid_datetime (fields a)
  && match utcoffset a with
     | None => true
     | Some offset => valid_offset offset
     end.

(** [timedelta.__bool__] *)
Definition timedelta_bool (t : timedelta) : bool :=
  negb (days t =? 0) || negb (seconds t =? 0) || negb (microseconds t =? 0).

(** [timedelta.__sub__] *)
Definition timedelta_sub (a b : timedelta) : result timedelta :=
  timedelta_new (days a - days b) (seconds a - seconds b)
    (microseconds a - microseconds b).

(** [datetime.__sub__] with a datetime on the right: the difference of the
    fields, and [base + otoff - myoff] when the offsets differ; a naive and
    an aware datetime cannot be subtracted. *)
Definition py_sub (a b : pydatetime) : result timedelta :=
  base ← datetime_sub (fields a) (fields b);
  match utcoffset a, utcoffset b with
  | None, None => Ok base
  | Some myoff, Some otoff =>
      if decide (myoff = otoff) then Ok base
      else
        sum ← timedelta_add base otoff;
        timedelta_sub sum myoff
  | _, _ => Err TypeError
  end.

(** [datetime._cmp] as the ordering operators call it: on the fields when
    the offsets agree, on the sign of the difference otherwise; a naive and
    an aware datetime cannot be ordered. *)
Definition py_cmp (a b : pydatetime) : result comparison :=
  match utcoffset a, utcoffset b with
  | None, None => Ok (_cmp (fields a) (fields b))
  | Some myoff, Some otoff =>
      if decide (myoff = otoff) then Ok (_cmp (fields a) (fields b))
      else
        diff ← py_sub a b;
        Ok (if days diff <? 0 then Lt
            else if timedelta_bool diff then Gt else Eq)
  | _, _ => Err TypeError
  end.

(** [a <= b] *)
Definition py_le (a b : pydatetime) : result bool :=
  c ← py_cmp a b;
  Ok (match c with
      | Gt => false
      | _ => true
      end).

(** [datetime.__add__]: the fields move, the [tzinfo] stays. *)
Definition py_add (a : pydatetime) (other : timedelta) : result pydatetime :=
  d ← datetime_add (fields a) other;
  Ok (mkpy d (utcoffset a)).

(** The instant of an aware datetime (a naive one counts as it stands). *)
Definition instant (a : pydatetime) : Z :=
  total_us (fields a)
  - match utcoffset a with
    | Some offset => td_us offset
    | None => 0
    end.

(** The key a datetime object is in a dictionary. *)
Definition py_key (a : pydatetime) : pykey :=
  match utcoffset a with
  | None => KDatetime (fields a)
  | Some _ => KAware (instant a)
  end.

(** Both naive, or both aware. *)
Definition same_kind (a b : pydatetime) : bool :=
  match utcoffset a, utcoffset b with
  | None, None => true
  | Some _, Some _ => true
  | _, _ => false
  end.

(** The methods of the class on datetime objects of either kind. *)
Module Dynamic.

Definition add_dt (from_date : pydatetime) (number_of_days : Z)
  : result pydatetime :=
  delta ← timedelta_new number_of_days 0 0;
  py_add from_date delta.

Definition sub_dt (from_date : pydatetime) (number_of_days : Z)
  : result pydatetime :=
  delta ← timedelta_new number_of_days 0 0;
  delta ← timedelta_neg delta;
  py_add from_date delta.

Definition get_days (from_date to_date : pydatetime) : result Z :=
  delta ← py_sub to_date from_date;
  Ok (days delta).

Fixpoint count_weekends_loop (fuel : nat) (current_date to_date : pydatetime)
  (weekends : Z) : option (result Z) :=
  match fuel with
  | O => None
  | S fuel =>
      match py_le current_date to_date with
      | Err e => Some (Err e)
      | Ok false => Some (Ok weekends)
      | Ok true =>
          let weekends :=
            if 5 <=? weekday (fields current_date) then weekends + 1
            else weekends in
          match delta ← timedelta_new 1 0 0; py_add current_date delta with
          | Ok current_date =>
              count_weekends_loop fuel current_date to_date weekends
          | Err e => Some (Err e)
          end
      end
  end.

Definition count_weekends (fuel : nat) (from_date to_date : pydatetime)
  : option (result Z) :=
  count_weekends_loop fuel from_date to_date 0.

Definition get_days_exclude_we (fuel : nat) (from_date to_date : pydatetime)
  : option (result Z) :=
  match py_sub to_date from_date with
  | Err e => Some (Err e)
  | Ok delta =>
      match count_weekends fuel from_date to_date with
      | Some (Ok weekends) => Some (Ok (days delta - weekends))
      | other => other
      end
  end.

Definition get_days_since_epoch (from_date : pydatetime) : result Z :=
  delta ← py_sub from_date (naive epoch);
  Ok (days delta).

Fixpoint get_business_days_loop (holidays : calendar) (fuel : nat)
  (current_date to_date : pydatetime) (business_days : Z)
  : option (result Z) :=
  match fuel with
  | O => None
  | S fuel =>
      match py_le current_date to_date with
      | Err e => Some (Err e)
      | Ok false => Some (Ok business_days)
      | Ok true =>
          let business_days :=
            if (weekday (fields current_date) <? 5)
               && negb (is_holiday holidays (py_key current_date)
                          "US/Eastern")
            then business_days + 1
            else business_days in
          match delta ← timedelta_new 1 0 0; py_add current_date delta with
          | Ok current_date =>
              get_business_days_loop holidays fuel current_date to_date
                business_days
          | Err e => Some (Err e)
          end
      end
  end.

Definition get_business_days (holidays : calendar) (fuel : nat)
  (from_date to_date : pydatetime) : option (result Z) :=
  get_business_days_loop holidays fuel from_date to_date 0.

End Dynamic.

(** The whole days from one instant to the other, the days a loop visits
    and the condition that each of them has a next day. *)
Definition py_floor_days (a b : pydatetime) : Z :=
  (instant b - instant a) / US_PER_DAY.

Definition py_day_range (a b : pydatetime) : list pydatetime :=
  map (fun k => mkpy (plus_days (fields a) (Z.of_nat k)) (utcoffset a))
    (seq 0 (Z.to_nat (py_floor_days a b + 1))).

Definition py_range_fits (a b : pydatetime) : Prop :=
  py_floor_days a b < 0
  \/ toordinal (fields a) + py_floor_days a b < _MAXORDINAL.

(** The range is not reversed and its last day has no next day. *)
Definition reaches_last_day (a b : pydatetime) : Prop :=
  0 <= py_floor_days a b
  /\ _MAXORDINAL <= toordinal (fields a) + py_floor_days a b.

Definition py_count (p : pydatetime -> bool) (l : list pydatetime) : Z :=
  Z.of_nat (length (List.filter p l)).

(** The shape the two loops share. *)
Fixpoint py_day_loop (p : pydatetime -> bool) (fuel : nat)
  (current_date to_date : pydatetime) (count : Z) : option (result Z) :=
  match fuel with
  | O => None
  | S fuel =>
      match py_le current_date to_date with
      | Err e => Some (Err e)
      | Ok false => Some (Ok count)
      | Ok true =>
          let count := if p current_date then count + 1 else count in
          match Dynamic.add_dt current_date 1 with
          | Ok current_date => py_day_loop p fuel current_date to_date count
          | Err e => Some (Err e)
          end
      end
  end.

(** A duration of [x] microseconds, normalised. *)
Definition timedelta_of_us (x : Z) : timedelta :=
  mktimedelta (x / US_PER_DAY) (x mod US_PER_DAY / 1000000) (x mod 1000000).

(** An aware datetime: 19:00 on 21 December 2022, five hours behind UTC. *)
Definition demo_aware : pydatetime :=
  mkpy (mkdatetime 2022 12 21 19 0 0 0) (Some (mktimedelta (-1) 68400 0)).

(** * Properties *)

(** ** The demo run, evaluated *)

Example demo_add_dt : add_dt demo_from 11 = Ok demo_to.
Proof. reflexivity. Qed.

Example demo_sub_dt : sub_dt demo_from 33 = Ok (mkdatetime 2022 11 19 0 0 0 0).
Proof. reflexivity. Qed.

Example demo_get_days : get_days demo_from demo_to = Ok 11.
Proof. reflexivity. Qed.

Example demo_count_weekends : count_weekends 20 demo_from demo_to = Some (Ok 4).
Proof. reflexivity. Qed.

Example demo_get_days_exclude_we :
  get_days_exclude_we 20 demo_from demo_to = Some (Ok 7).
Proof. reflexivity. Qed.

Example demo_get_days_since_epoch : get_days_since_epoch demo_from = Ok 19348.
Proof. reflexivity. Qed.

Example demo_load_holidays :
  (holidays ← load_holidays demo_lines;
   Ok (is_holiday holidays (KDate (mkdate 2022 12 25)) "US/Eastern",
       is_holiday holidays (KDate (mkdate 2022 12 26)) "US/Eastern",
       is_holiday holidays (KDate (mkdate 2022 12 25)) "UTC"))
  = Ok (true, false, false).
Proof. vm_compute. reflexivity. Qed.

(** ** The library functions on small inputs *)

Example ymd2ord_demo : _ymd2ord 2022 12 22 = 738511.
Proof. reflexivity. Qed.

Example ord2ymd_max : _ord2ymd _MAXORDINAL = (9999, 12, 31).
Proof. reflexivity. Qed.

Example weekday_demo :
  weekday demo_from = 3 /\ weekday boxing_day = 0 /\ weekday last_day = 4.
Proof. repeat split. Qed.

Example split_demo :
  Str.split "a, b, c, d" = ["a"; "b"; "c"; "d"]%string
  /\ Str.split ",, " = [","; ""]%string
  /\ Str.split "" = [""]%string.
Proof. repeat split. Qed.

Example strptime_one_digit_fields :
  strptime_Ymd "2022125" = Ok (mkdatetime 2022 12 5 0 0 0 0)
  /\ strptime_Ymd "202211" = Ok (mkdatetime 2022 1 1 0 0 0 0)
  /\ strptime_Ymd "2022130" = Ok (mkdatetime 2022 1 30 0 0 0 0)
  /\ strptime_Ymd "202212 5" = Ok (mkdatetime 2022 12 5 0 0 0 0).
Proof. repeat split. Qed.

Example strptime_rejects :
  strptime_Ymd "20221301" = Err ValueError
  /\ strptime_Ymd "20220230" = Err ValueError
  /\ strptime_Ymd "00000101" = Err ValueError
  /\ strptime_Ymd " 20221225" = Err ValueError
  /\ strptime_Ymd "20221" = Err ValueError.
Proof. repeat split. Qed.

(** ** The calendar: ordinals and dates *)

Lemma is_leap_spec y a b c e :
  y - 1 = 400 * a + 100 * b + 4 * c + e ->
  0 <= b < 4 -> 0 <= c < 25 -> 0 <= e < 4 ->
  _is_leap y = (e =? 3) && (negb (c =? 24) || (b =? 3)).
Proof.
  intros Hy Hb Hc He. unfold _is_leap.
  assert (H4 : y mod 4 = (e + 1) mod 4).
  { replace y with ((e + 1) + (100 * a + 25 * b + c) * 4) by lia.
    apply Z.mod_add. lia. }
  assert (H100 : y mod 100 = (4 * c + e + 1) mod 100).
  { replace y with ((4 * c + e + 1) + (4 * a + b) * 100) by lia.
    apply Z.mod_add. lia. }
  assert (H400 : y mod 400 = (100 * b + 4 * c + e + 1) mod 400).
  { replace y with ((100 * b + 4 * c + e + 1) + a * 400) by lia.
    apply Z.mod_add. lia. }
  rewrite H4, H100, H400. clear H4 H100 H400 Hy.
  destruct (Z.eqb_spec e 3) as [->|Hne].
  - change ((3 + 1) mod 4 =? 0) with true. cbn [andb].
    destruct (Z.eqb_spec c 24) as [->|Hc24].
    + change ((4 * 24 + 3 + 1) mod 100 =? 0) with true. cbn [negb orb].
      assert (b = 0 \/ b = 1 \/ b = 2 \/ b = 3) as [->|[->|[->| ->]]] by lia;
        reflexivity.
    + rewrite (Z.mod_small (4 * c + 3 + 1) 100) by lia.
      destruct (Z.eqb_spec (4 * c + 3 + 1) 0); [lia|]. reflexivity.
  - rewrite (Z.mod_small (e + 1) 4) by lia.
    destruct (Z.eqb_spec (e + 1) 0); [lia|]. reflexivity.
Qed.

Lemma days_before_year_spec y a b c e :
  y - 1 = 400 * a + 100 * b + 4 * c + e ->
  0 <= b < 4 -> 0 <= c < 25 -> 0 <= e < 4 ->
  _days_before_year y = 146097 * a + 36524 * b + 1461 * c + 365 * e.
Proof.
  intros Hy Hb Hc He. unfold _days_before_year. cbv zeta. rewrite Hy.
  assert (H4 : (400 * a + 100 * b + 4 * c + e) / 4 = 100 * a + 25 * b + c).
  { symmetry. apply (Z.div_unique _ _ _ e); lia. }
  assert (H100 : (400 * a + 100 * b + 4 * c + e) / 100 = 4 * a + b).
  { symmetry. apply (Z.div_unique _ _ _ (4 * c + e)); lia. }
  assert (H400 : (400 * a + 100 * b + 4 * c + e) / 400 = a).
  { symmetry. apply (Z.div_unique _ _ _ (100 * b + 4 * c + e)); lia. }
  lia.
Qed.

Lemma year_decompose y :
  exists a b c e, y - 1 = 400 * a + 100 * b + 4 * c + e /\
    0 <= b < 4 /\ 0 <= c < 25 /\ 0 <= e < 4.
Proof.
  exists ((y - 1) / 400), ((y - 1) mod 400 / 100),
    ((y - 1) mod 400 mod 100 / 4), ((y - 1) mod 400 mod 100 mod 4).
  pose proof (Z.div_mod (y - 1) 400 ltac:(lia)).
  pose proof (Z.mod_pos_bound (y - 1) 400 ltac:(lia)).
  pose proof (Z.div_mod ((y - 1) mod 400) 100 ltac:(lia)).
  pose proof (Z.mod_pos_bound ((y - 1) mod 400) 100 ltac:(lia)).
  pose proof (Z.div_mod ((y - 1) mod 400 mod 100) 4 ltac:(lia)).
  pose proof (Z.mod_pos_bound ((y - 1) mod 400 mod 100) 4 ltac:(lia)).
  repeat split; try lia.
Qed.

Lemma div_mul_add q d r : 0 <= r < d -> (d * q + r) / d = q.
Proof. intros H. symmetry. apply (Z.div_unique _ _ _ r); lia. Qed.

Lemma mod_mul_add q d r : 0 <= r < d -> (d * q + r) mod d = r.
Proof. intros H. symmetry. apply (Z.mod_unique _ _ q); lia. Qed.

Lemma ord2ymd_last_leap_day y :
  _is_leap y = true -> _ord2ymd (_days_before_year y + 366) = (y, 12, 31).
Proof.
  intros Hl.
  destruct (year_decompose y) as (a & b & c & e & Hy & Hb & Hc & He).
  rewrite (is_leap_spec y a b c e Hy Hb Hc He) in Hl.
  rewrite (days_before_year_spec y a b c e Hy Hb Hc He).
  apply andb_true_iff in Hl as [He3 Hcb]. apply Z.eqb_eq in He3. subst e.
  unfold _ord2ymd, _DI400Y, _DI100Y, _DI4Y. cbv zeta.
  replace (146097 * a + 36524 * b + 1461 * c + 365 * 3 + 366 - 1)
    with (146097 * a + (36524 * b + (1461 * c + (365 * 4 + 0)))) by lia.
  rewrite div_mul_add, mod_mul_add by lia.
  destruct (Z.eqb_spec c 24) as [Hc24e|Hc24]; [subst c|].
  - simpl in Hcb. apply Z.eqb_eq in Hcb. subst b.
    change (36524 * 3 + (1461 * 24 + (365 * 4 + 0))) with (36524 * 4 + 0).
    rewrite div_mul_add, mod_mul_add by lia.
    change (4 =? 4) with true. rewrite orb_true_r.
    rewrite !Zmod_0_l, !Zdiv_0_l. f_equal. f_equal. lia.
  - rewrite div_mul_add, mod_mul_add by lia.
    rewrite div_mul_add, mod_mul_add by lia.
    rewrite div_mul_add by lia. change (4 =? 4) with true.
    cbn [orb]. f_equal. f_equal. lia.
Qed.

Lemma ord2ymd_in_year y k :
  0 <= k < 365 ->
  _ord2ymd (_days_before_year y + k + 1)
  = (y, fst (month_day (_is_leap y) k), snd (month_day (_is_leap y) k)).
Proof.
  intros Hk.
  destruct (year_decompose y) as (a & b & c & e & Hy & Hb & Hc & He).
  rewrite (is_leap_spec y a b c e Hy Hb Hc He).
  rewrite (days_before_year_spec y a b c e Hy Hb Hc He).
  unfold _ord2ymd, _DI400Y, _DI100Y, _DI4Y. cbv zeta.
  replace (146097 * a + 36524 * b + 1461 * c + 365 * e + k + 1 - 1)
    with (146097 * a + (36524 * b + (1461 * c + (365 * e + k)))) by lia.
  rewrite div_mul_add, mod_mul_add by lia.
  rewrite div_mul_add, mod_mul_add by lia.
  rewrite div_mul_add, mod_mul_add by lia.
  rewrite div_mul_add, mod_mul_add by lia.
  destruct (Z.eqb_spec e 4); [lia|]. destruct (Z.eqb_spec b 4); [lia|].
  cbn [orb].
  replace (a * 400 + 1 + (b * 100 + c * 4 + e)) with y by lia.
  unfold month_day. cbv zeta.
  destruct (k <? _); reflexivity.
Qed.

Lemma month_cases m : 1 <= m <= 12 ->
  m = 1 \/ m = 2 \/ m = 3 \/ m = 4 \/ m = 5 \/ m = 6 \/
  m = 7 \/ m = 8 \/ m = 9 \/ m = 10 \/ m = 11 \/ m = 12.
Proof. lia. Qed.

Ltac each_month m H :=
  destruct (month_cases m H) as
    [->|[->|[->|[->|[->|[->|[->|[->|[->|[->|[->| ->]]]]]]]]]]].

Ltac is_Z_value v :=
  lazymatch v with
  | Z0 => idtac
  | Zpos _ => idtac
  | Zneg _ => idtac
  end.

Ltac is_bool_value v :=
  lazymatch v with
  | true => idtac
  | false => idtac
  end.

(** Evaluate table look-ups and comparisons whose arguments are numerals. *)
Ltac calc_step :=
  match goal with
  | |- context [tbl ?t ?c] =>
      let v := eval vm_compute in (tbl t c) in
      is_Z_value v; change (tbl t c) with v
  | H : context [tbl ?t ?c] |- _ =>
      let v := eval vm_compute in (tbl t c) in
      is_Z_value v; change (tbl t c) with v in H
  | |- context [Z.ltb ?a ?b] =>
      let v := eval vm_compute in (Z.ltb a b) in
      is_bool_value v; change (Z.ltb a b) with v
  | H : context [Z.ltb ?a ?b] |- _ =>
      let v := eval vm_compute in (Z.ltb a b) in
      is_bool_value v; change (Z.ltb a b) with v in H
  | |- context [Z.eqb ?a ?b] =>
      let v := eval vm_compute in (Z.eqb a b) in
      is_bool_value v; change (Z.eqb a b) with v
  | H : context [Z.eqb ?a ?b] |- _ =>
      let v := eval vm_compute in (Z.eqb a b) in
      is_bool_value v; change (Z.eqb a b) with v in H
  end.

Ltac calc := repeat calc_step; cbn [andb orb negb] in *; cbv iota in *.

Lemma month_day_spec (l : bool) m d :
  1 <= m <= 12 ->
  1 <= d <= (if (m =? 2) && l then 29 else tbl _DAYS_IN_MONTH m) ->
  month_day l
    (tbl _DAYS_BEFORE_MONTH m + (if (2 <? m) && l then 1 else 0) + d - 1)
  = (m, d).
Proof.
  intros Hm Hd. unfold month_day. cbv zeta.
  rewrite Z.shiftr_div_pow2 by lia. change (2 ^ 5) with 32.
  match goal with
  | |- context [?n / 32] =>
      generalize (Z.div_mod n 32 ltac:(lia));
      generalize (Z.mod_pos_bound n 32 ltac:(lia));
      generalize (n mod 32); generalize (n / 32)
  end.
  intros q r Hr Hq.
  each_month m Hm; destruct l; calc;
    (assert (Hc : q = 1 \/ q = 2 \/ q = 3 \/ q = 4 \/ q = 5 \/ q = 6 \/
                 q = 7 \/ q = 8 \/ q = 9 \/ q = 10 \/ q = 11 \/ q = 12)
       by lia;
     destruct Hc as [->|[->|[->|[->|[->|[->|[->|[->|[->|[->|[->| ->]]]]]]]]]]]);
    try lia; calc;
    repeat match goal with
           | |- context [?a <? ?b] => destruct (Z.ltb_spec a b); try lia
           end;
    try (f_equal; lia).
Qed.

Lemma day_of_year_bounds y m d :
  1 <= m <= 12 -> 1 <= d <= _days_in_month y m ->
  1 <= _days_before_month y m + d <= days_in_year y.
Proof.
  intros Hm Hd. unfold _days_before_month, _days_in_month, days_in_year in *.
  each_month m Hm; destruct (_is_leap y); calc; lia.
Qed.

Lemma day_of_year_last y m d :
  1 <= m <= 12 -> 1 <= d <= _days_in_month y m ->
  _days_before_month y m + d = 366 -> m = 12 /\ d = 31 /\ _is_leap y = true.
Proof.
  intros Hm Hd. unfold _days_before_month, _days_in_month in *.
  each_month m Hm; destruct (_is_leap y); calc; lia.
Qed.

Lemma ord2ymd_ymd2ord y m d :
  1 <= m <= 12 -> 1 <= d <= _days_in_month y m ->
  _ord2ymd (_ymd2ord y m d) = (y, m, d).
Proof.
  intros Hm Hd. unfold _ymd2ord.
  pose proof (day_of_year_bounds y m d Hm Hd) as Hb.
  destruct (Z.eq_dec (_days_before_month y m + d) 366) as [E|E].
  - destruct (day_of_year_last y m d Hm Hd E) as (-> & -> & Hl).
    rewrite <- Z.add_assoc, E. now apply ord2ymd_last_leap_day.
  - replace (_days_before_year y + _days_before_month y m + d)
      with (_days_before_year y + (_days_before_month y m + d - 1) + 1) by lia.
    rewrite ord2ymd_in_year
      by (unfold days_in_year in Hb; destruct (_is_leap y); lia).
    unfold _days_before_month, _days_in_month in *.
    rewrite month_day_spec by assumption. reflexivity.
Qed.

Lemma days_before_year_succ y :
  _days_before_year (y + 1) = _days_before_year y + days_in_year y.
Proof.
  destruct (year_decompose y) as (a & b & c & e & Hy & Hb & Hc & He).
  unfold days_in_year.
  rewrite (is_leap_spec y a b c e Hy Hb Hc He).
  rewrite (days_before_year_spec y a b c e Hy Hb Hc He).
  destruct (Z.eqb_spec e 3) as [E|E]; cbn [andb].
  - subst e. destruct (Z.eqb_spec c 24) as [E'|E']; cbn [negb orb].
    + subst c. destruct (Z.eqb_spec b 3) as [E''|E''].
      * subst b.
        rewrite (days_before_year_spec (y + 1) (a + 1) 0 0 0); lia.
      * rewrite (days_before_year_spec (y + 1) a (b + 1) 0 0); lia.
    + rewrite (days_before_year_spec (y + 1) a b (c + 1) 0); lia.
  - rewrite (days_before_year_spec (y + 1) a b c (e + 1)); lia.
Qed.

Lemma days_before_year_mono y1 y2 :
  y1 <= y2 -> _days_before_year y1 <= _days_before_year y2.
Proof.
  intros H. replace y2 with (y1 + Z.of_nat (Z.to_nat (y2 - y1))) by lia.
  induction (Z.to_nat (y2 - y1)) as [|n IH].
  - rewrite Z.add_0_r. lia.
  - replace (y1 + Z.of_nat (S n)) with (y1 + Z.of_nat n + 1) by lia.
    rewrite days_before_year_succ. unfold days_in_year.
    destruct (_is_leap _); lia.
Qed.

Lemma days_before_month_succ y m :
  1 <= m < 12 ->
  _days_before_month y (m + 1) = _days_before_month y m + _days_in_month y m.
Proof.
  intros Hm. unfold _days_before_month, _days_in_month.
  assert (Hm' : 1 <= m <= 12) by lia.
  each_month m Hm'; try lia; destruct (_is_leap y); calc; reflexivity.
Qed.

Lemma days_in_month_pos y m : 1 <= m <= 12 -> 28 <= _days_in_month y m <= 31.
Proof.
  intros Hm. unfold _days_in_month.
  each_month m Hm; destruct (_is_leap y); calc; lia.
Qed.

Lemma days_before_month_mono y m1 m2 :
  1 <= m1 -> m1 < m2 -> m2 <= 12 ->
  _days_before_month y m1 + _days_in_month y m1 <= _days_before_month y m2.
Proof.
  intros H1 H H2.
  replace m2 with (m1 + 1 + Z.of_nat (Z.to_nat (m2 - m1 - 1))) in * by lia.
  induction (Z.to_nat (m2 - m1 - 1)) as [|n IH].
  - rewrite Z.add_0_r, days_before_month_succ; lia.
  - replace (m1 + 1 + Z.of_nat (S n)) with (m1 + 1 + Z.of_nat n + 1) by lia.
    rewrite days_before_month_succ by lia.
    pose proof (days_in_month_pos y (m1 + 1 + Z.of_nat n) ltac:(lia)). lia.
Qed.

Lemma days_in_year_december y : _days_before_month y 12 + 31 = days_in_year y.
Proof.
  unfold _days_before_month, days_in_year. destruct (_is_leap y); reflexivity.
Qed.

Lemma ymd2ord_onto n :
  1 <= n ->
  exists y m d, 1 <= y /\ 1 <= m <= 12 /\ 1 <= d <= _days_in_month y m /\
    _ymd2ord y m d = n.
Proof.
  intros Hn. replace n with (1 + Z.of_nat (Z.to_nat (n - 1))) by lia.
  clear Hn. induction (Z.to_nat (n - 1)) as [|k IH].
  - exists 1, 1, 1. change (_days_in_month 1 1) with 31.
    repeat split; lia || reflexivity.
  - destruct IH as (y & m & d & Hy & Hm & Hd & E).
    replace (1 + Z.of_nat (S k)) with (1 + Z.of_nat k + 1) by lia.
    rewrite <- E. unfold _ymd2ord.
    destruct (Z.eq_dec d (_days_in_month y m)) as [Hlast|Hmid].
    + destruct (Z.eq_dec m 12) as [Hdec|Hnd].
      * exists (y + 1), 1, 1.
        pose proof (days_in_month_pos (y + 1) 1 ltac:(lia)).
        repeat split; try lia.
        rewrite days_before_year_succ, <- days_in_year_december.
        subst m. subst d. unfold _days_in_month, _days_before_month. calc.
        destruct (_is_leap y); lia.
      * exists y, (m + 1), 1.
        pose proof (days_in_month_pos y (m + 1) ltac:(lia)).
        repeat split; try lia.
        rewrite days_before_month_succ by lia. lia.
    + exists y, m, (d + 1). repeat split; try lia.
Qed.

Lemma ymd2ord_year_bounds y m d :
  1 <= m <= 12 -> 1 <= d <= _days_in_month y m ->
  _days_before_year y < _ymd2ord y m d <= _days_before_year (y + 1).
Proof.
  intros Hm Hd. pose proof (day_of_year_bounds y m d Hm Hd).
  rewrite days_before_year_succ. unfold _ymd2ord. lia.
Qed.

Lemma ymd2ord_ord2ymd n :
  1 <= n <= _MAXORDINAL ->
  exists y m d, _ord2ymd n = (y, m, d) /\
    check_date_fields y m d = true /\ _ymd2ord y m d = n.
Proof.
  intros Hn. destruct (ymd2ord_onto n ltac:(lia)) as (y & m & d & Hy & Hm & Hd & E).
  exists y, m, d. split; [|split].
  - rewrite <- E. now apply ord2ymd_ymd2ord.
  - pose proof (ymd2ord_year_bounds y m d Hm Hd) as Hb.
    assert (y <= 9999).
    { destruct (Z_le_gt_dec y 9999) as [|Hgt]; [assumption|].
      pose proof (days_before_year_mono 10000 y ltac:(lia)) as Hmono.
      change (_days_before_year 10000) with 3652059 in Hmono.
      unfold _MAXORDINAL in Hn. lia. }
    unfold check_date_fields, MINYEAR, MAXYEAR.
    repeat (apply andb_true_intro; split); apply Z.leb_le; lia.
  - exact E.
Qed.

Lemma ymd2ord_range y m d :
  check_date_fields y m d = true -> 1 <= _ymd2ord y m d <= _MAXORDINAL.
Proof.
  unfold check_date_fields, MINYEAR, MAXYEAR. intros H.
  repeat (apply andb_true_iff in H as [H ?]).
  repeat match goal with H : (_ <=? _) = true |- _ => apply Z.leb_le in H end.
  pose proof (ymd2ord_year_bounds y m d ltac:(lia) ltac:(lia)) as Hb.
  pose proof (days_before_year_mono 1 y ltac:(lia)) as Hlo.
  pose proof (days_before_year_mono (y + 1) 10000 ltac:(lia)) as Hhi.
  change (_days_before_year 1) with 0 in Hlo.
  change (_days_before_year 10000) with 3652059 in Hhi.
  unfold _MAXORDINAL. lia.
Qed.

(** Lexicographic order on (year, month, day) agrees with the ordinal. *)
Lemma ymd2ord_lt_year y1 m1 d1 y2 m2 d2 :
  1 <= m1 <= 12 -> 1 <= d1 <= _days_in_month y1 m1 ->
  1 <= m2 <= 12 -> 1 <= d2 <= _days_in_month y2 m2 ->
  y1 < y2 -> _ymd2ord y1 m1 d1 < _ymd2ord y2 m2 d2.
Proof.
  intros Hm1 Hd1 Hm2 Hd2 Hy.
  pose proof (ymd2ord_year_bounds y1 m1 d1 Hm1 Hd1).
  pose proof (ymd2ord_year_bounds y2 m2 d2 Hm2 Hd2).
  pose proof (days_before_year_mono (y1 + 1) y2 ltac:(lia)). lia.
Qed.

Lemma ymd2ord_lt_month y m1 d1 m2 d2 :
  1 <= m1 <= 12 -> 1 <= d1 <= _days_in_month y m1 ->
  1 <= m2 <= 12 -> 1 <= d2 <= _days_in_month y m2 ->
  m1 < m2 -> _ymd2ord y m1 d1 < _ymd2ord y m2 d2.
Proof.
  intros Hm1 Hd1 Hm2 Hd2 Hm.
  pose proof (days_before_month_mono y m1 m2 ltac:(lia) Hm ltac:(lia)).
  unfold _ymd2ord. lia.
Qed.

(** ** Datetimes: validity, addition, comparison *)

Lemma valid_datetime_fields d :
  valid_datetime d = true ->
  (1 <= year d <= 9999 /\ 1 <= month d <= 12
   /\ 1 <= day d <= _days_in_month (year d) (month d))
  /\ (0 <= hour d <= 23 /\ 0 <= minute d <= 59 /\ 0 <= second d <= 59
      /\ 0 <= microsecond d <= 999999).
Proof.
  unfold valid_datetime, check_date_fields, check_time_fields, MINYEAR, MAXYEAR.
  intros H. repeat (apply andb_true_iff in H as [H ?]).
  repeat match goal with H : (_ <=? _) = true |- _ => apply Z.leb_le in H end.
  lia.
Qed.

Lemma timedelta_new_normal d s us :
  timedelta_new d s us
  = if 999999999 <? Z.abs (d + (s + us / 1000000) / 86400)
    then Err OverflowError
    else Ok (mktimedelta (d + (s + us / 1000000) / 86400)
               ((s + us / 1000000) mod 86400) (us mod 1000000)).
Proof.
  unfold timedelta_new. cbv zeta.
  assert (E0 : (us mod 1000000) / 1000000 = 0)
    by (apply Z.div_small, Z.mod_pos_bound; lia).
  assert (E1 : (us mod 1000000) mod 1000000 = us mod 1000000)
    by (apply Z.mod_mod; lia).
  rewrite E0, E1, Z.add_0_r.
  assert (E2 : (s mod 86400 + (us / 1000000) mod 86400) mod 86400
               = (s + us / 1000000) mod 86400)
    by (symmetry; apply Z.add_mod; lia).
  assert (E3 : d + s / 86400 + us / 1000000 / 86400
               + (s mod 86400 + (us / 1000000) mod 86400) / 86400
               = d + (s + us / 1000000) / 86400).
  { pose proof (Z.div_mod s 86400 ltac:(lia)) as Hs.
    pose proof (Z.div_mod (us / 1000000) 86400 ltac:(lia)) as Hu.
    set (q := us / 1000000) in *.
    replace (s + q)
      with ((s mod 86400 + q mod 86400) + (s / 86400 + q / 86400) * 86400)
      by lia.
    rewrite Z.div_add by lia. lia. }
  rewrite E2, E3. reflexivity.
Qed.

Lemma timedelta_new_small d s us :
  Z.abs d <= 999999999 -> 0 <= s < 86400 -> 0 <= us < 1000000 ->
  timedelta_new d s us = Ok (mktimedelta d s us).
Proof.
  intros Hd Hs Hus. rewrite timedelta_new_normal.
  rewrite (Z.div_small us), (Z.mod_small us), Z.add_0_r by lia.
  rewrite (Z.div_small s), (Z.mod_small s), Z.add_0_r by lia.
  destruct (Z.ltb_spec 999999999 (Z.abs d)); [lia|reflexivity].
Qed.

Lemma tod_seconds_range d :
  valid_datetime d = true -> 0 <= tod_seconds d < 86400.
Proof.
  intros H. apply valid_datetime_fields in H. unfold tod_seconds. lia.
Qed.

Lemma toordinal_range d :
  valid_datetime d = true -> 1 <= toordinal d <= _MAXORDINAL.
Proof.
  intros H. unfold valid_datetime in H. apply andb_true_iff in H as [H _].
  now apply ymd2ord_range.
Qed.

(** Splitting the seconds of the day gives back the clock fields. *)
Lemma tod_seconds_split h mi s :
  0 <= h -> 0 <= mi <= 59 -> 0 <= s <= 59 ->
  let t := s + mi * 60 + h * 3600 in
  t / 3600 = h /\ t mod 3600 / 60 = mi /\ (t mod 3600) mod 60 = s.
Proof.
  intros Hh Hmi Hs t. subst t.
  assert (E1 : (s + mi * 60 + h * 3600) / 3600 = h).
  { rewrite Z.div_add by lia. rewrite Z.div_small; lia. }
  assert (E2 : (s + mi * 60 + h * 3600) mod 3600 = s + mi * 60).
  { rewrite Z.mod_add by lia. apply Z.mod_small. lia. }
  rewrite E1, E2. split; [reflexivity|]. split.
  - rewrite Z.div_add by lia. rewrite Z.div_small; lia.
  - rewrite Z.mod_add by lia. apply Z.mod_small. lia.
Qed.

(** [add_dt] on a well-formed datetime: the day moves, the clock stays. *)
Lemma add_dt_spec d n :
  valid_datetime d = true ->
  add_dt d n
  = if (0 <? toordinal d + n) && (toordinal d + n <=? _MAXORDINAL)
    then Ok (plus_days d n)
    else Err OverflowError.
Proof.
  intros Hv.
  pose proof (toordinal_range d Hv) as Ho. unfold _MAXORDINAL in *.
  pose proof (tod_seconds_range d Hv) as Ht.
  pose proof (valid_datetime_fields d Hv) as [_ Hf].
  unfold add_dt. rewrite (timedelta_new_normal n 0 0).
  change (0 / 1000000) with 0. change ((0 + 0) / 86400) with 0.
  change ((0 + 0) mod 86400) with 0. change (0 mod 1000000) with 0.
  rewrite Z.add_0_r.
  destruct (Z.ltb_spec 999999999 (Z.abs n)) as [Hbig|Hn].
  - cbn. destruct (Z.ltb_spec 0 (toordinal d + n));
      destruct (Z.leb_spec (toordinal d + n) 3652059); cbn; try reflexivity.
    lia.
  - cbn [mbind result_bind]. unfold datetime_add, _MAXORDINAL.
    rewrite timedelta_new_small by lia. cbn [mbind result_bind].
    unfold timedelta_add. cbn [days seconds microseconds].
    rewrite !Z.add_0_r.
    destruct (Z.ltb_spec 0 (toordinal d + n)) as [Hlo|Hlo];
      destruct (Z.leb_spec (toordinal d + n) 3652059) as [Hhi|Hhi];
      cbn [andb].
    + rewrite timedelta_new_small by lia. cbn [mbind result_bind].
      cbn [days seconds microseconds].
      destruct (Z.ltb_spec 0 (toordinal d + n)); [|lia].
      destruct (Z.leb_spec (toordinal d + n) 3652059); [|lia]. cbn [andb].
      unfold plus_days. destruct (_ord2ymd (toordinal d + n)) as [[y m] dd].
      destruct (tod_seconds_split (hour d) (minute d) (second d))
        as (E1 & E2 & E3); try lia.
      unfold tod_seconds. rewrite E1, E2, E3. reflexivity.
    + rewrite timedelta_new_normal.
      destruct (_ <? _); [reflexivity|]. cbn [mbind result_bind].
      cbn [days]. rewrite (Z.div_small (microsecond d)) by lia.
      rewrite Z.add_0_r, (Z.div_small (tod_seconds d)) by lia.
      rewrite Z.add_0_r.
      destruct (Z.ltb_spec 0 (toordinal d + n)); [|lia].
      destruct (Z.leb_spec (toordinal d + n) 3652059); [lia|]. reflexivity.
    + rewrite timedelta_new_normal.
      destruct (_ <? _); [reflexivity|]. cbn [mbind result_bind].
      cbn [days]. rewrite (Z.div_small (microsecond d)) by lia.
      rewrite Z.add_0_r, (Z.div_small (tod_seconds d)) by lia.
      rewrite Z.add_0_r.
      destruct (Z.ltb_spec 0 (toordinal d + n)); [lia|]. reflexivity.
    + lia.
Qed.

Lemma sub_dt_add_dt d n : sub_dt d n = add_dt d (- n).
Proof.
  unfold sub_dt, add_dt. rewrite !timedelta_new_normal.
  change (0 / 1000000) with 0. change ((0 + 0) / 86400) with 0.
  change ((0 + 0) mod 86400) with 0. change (0 mod 1000000) with 0.
  rewrite !Z.add_0_r, Z.abs_opp.
  destruct (999999999 <? Z.abs n) eqn:E; [reflexivity|].
  cbn [mbind result_bind]. unfold datetime_sub_timedelta, timedelta_neg.
  cbn [days seconds microseconds]. change (- 0) with 0.
  rewrite timedelta_new_normal.
  change (0 / 1000000) with 0. change ((0 + 0) / 86400) with 0.
  change ((0 + 0) mod 86400) with 0. change (0 mod 1000000) with 0.
  rewrite !Z.add_0_r, Z.abs_opp, E. reflexivity.
Qed.

Lemma plus_days_clock d k :
  hour (plus_days d k) = hour d /\ minute (plus_days d k) = minute d
  /\ second (plus_days d k) = second d
  /\ microsecond (plus_days d k) = microsecond d.
Proof.
  unfold plus_days. destruct (_ord2ymd _) as [[y m] dd]. cbn. auto.
Qed.

Lemma plus_days_valid d k :
  valid_datetime d = true ->
  1 <= toordinal d + k <= _MAXORDINAL ->
  valid_datetime (plus_days d k) = true
  /\ toordinal (plus_days d k) = toordinal d + k.
Proof.
  intros Hv Hk.
  destruct (ymd2ord_ord2ymd _ Hk) as (y & m & dd & E & Hc & Ho).
  unfold plus_days. rewrite E. unfold valid_datetime, toordinal in *.
  cbn [year month day hour minute second microsecond].
  apply andb_true_iff in Hv as [_ Ht]. rewrite Hc, Ht. split; [reflexivity|].
  exact Ho.
Qed.

Lemma plus_days_0 d : valid_datetime d = true -> plus_days d 0 = d.
Proof.
  intros Hv. pose proof (valid_datetime_fields d Hv) as [(Hy & Hm & Hd) _].
  unfold plus_days, toordinal. rewrite Z.add_0_r.
  rewrite ord2ymd_ymd2ord by assumption. now destruct d.
Qed.

Lemma plus_days_plus_days d a b :
  valid_datetime d = true ->
  1 <= toordinal d + a <= _MAXORDINAL ->
  plus_days (plus_days d a) b = plus_days d (a + b).
Proof.
  intros Hv Ha. destruct (plus_days_valid d a Hv Ha) as [_ Ho].
  destruct (plus_days_clock d a) as (E1 & E2 & E3 & E4).
  unfold plus_days at 1. rewrite Ho, E1, E2, E3, E4.
  unfold plus_days. now rewrite Z.add_assoc.
Qed.

(** *** Comparison *)

Lemma cmp_then_date_first c1 c2 c3 rest :
  cmp_then c1 (cmp_then c2 (cmp_then c3 rest))
  = cmp_then (cmp_then c1 (cmp_then c2 c3)) rest.
Proof. destruct c1, c2; reflexivity. Qed.

Lemma date_cmp_ordinal y1 m1 d1 y2 m2 d2 :
  1 <= m1 <= 12 -> 1 <= d1 <= _days_in_month y1 m1 ->
  1 <= m2 <= 12 -> 1 <= d2 <= _days_in_month y2 m2 ->
  cmp_then (y1 ?= y2) (cmp_then (m1 ?= m2) (d1 ?= d2))
  = (_ymd2ord y1 m1 d1 ?= _ymd2ord y2 m2 d2).
Proof.
  intros Hm1 Hd1 Hm2 Hd2. symmetry.
  destruct (Z.compare_spec y1 y2) as [Ey|Hy|Hy]; cbn [cmp_then].
  - subst y2. destruct (Z.compare_spec m1 m2) as [Em|Hm|Hm]; cbn [cmp_then].
    + subst m2. unfold _ymd2ord.
      destruct (Z.compare_spec d1 d2);
        [apply Z.compare_eq_iff|apply Z.compare_lt_iff|apply Z.compare_gt_iff];
        lia.
    + apply Z.compare_lt_iff. now apply ymd2ord_lt_month.
    + apply Z.compare_gt_iff. now apply ymd2ord_lt_month.
  - apply Z.compare_lt_iff. now apply ymd2ord_lt_year.
  - apply Z.compare_gt_iff. now apply ymd2ord_lt_year.
Qed.

Lemma clock_cmp h1 mi1 s1 us1 h2 mi2 s2 us2 :
  0 <= mi1 <= 59 -> 0 <= s1 <= 59 -> 0 <= us1 <= 999999 ->
  0 <= mi2 <= 59 -> 0 <= s2 <= 59 -> 0 <= us2 <= 999999 ->
  cmp_then (h1 ?= h2) (cmp_then (mi1 ?= mi2) (cmp_then (s1 ?= s2) (us1 ?= us2)))
  = ((s1 + mi1 * 60 + h1 * 3600) * 1000000 + us1
     ?= (s2 + mi2 * 60 + h2 * 3600) * 1000000 + us2).
Proof.
  intros. symmetry.
  destruct (Z.compare_spec h1 h2); cbn [cmp_then];
    [destruct (Z.compare_spec mi1 mi2); cbn [cmp_then];
       [destruct (Z.compare_spec s1 s2); cbn [cmp_then];
          [destruct (Z.compare_spec us1 us2)|..]|..]|..];
    first [apply Z.compare_eq_iff|apply Z.compare_lt_iff|apply Z.compare_gt_iff];
    lia.
Qed.

Lemma tod_us_range d :
  valid_datetime d = true -> 0 <= tod_us d < US_PER_DAY.
Proof.
  intros H. apply valid_datetime_fields in H.
  unfold tod_us, tod_seconds, US_PER_DAY. lia.
Qed.

Lemma cmp_total_us a b :
  valid_datetime a = true -> valid_datetime b = true ->
  _cmp a b = (total_us a ?= total_us b).
Proof.
  intros Ha Hb.
  pose proof (valid_datetime_fields a Ha) as [(Hya & Hma & Hda) Hta].
  pose proof (valid_datetime_fields b Hb) as [(Hyb & Hmb & Hdb) Htb].
  pose proof (tod_us_range a Ha) as Ra. pose proof (tod_us_range b Hb) as Rb.
  unfold _cmp.
  rewrite cmp_then_date_first, date_cmp_ordinal by assumption.
  rewrite clock_cmp by lia.
  fold (toordinal a) (toordinal b) (tod_seconds a) (tod_seconds b).
  fold (tod_us a) (tod_us b). unfold total_us, US_PER_DAY in *. symmetry.
  destruct (Z.compare_spec (toordinal a) (toordinal b)); cbn [cmp_then];
    [destruct (Z.compare_spec (tod_us a) (tod_us b))|..];
    first [apply Z.compare_eq_iff|apply Z.compare_lt_iff|apply Z.compare_gt_iff];
    lia.
Qed.

Lemma floor_days_nonneg a b :
  0 <= floor_days a b <-> total_us a <= total_us b.
Proof.
  unfold floor_days, US_PER_DAY. split; intros H.
  - pose proof (Z.div_mod (total_us b - total_us a) 86400000000 ltac:(lia)).
    pose proof (Z.mod_pos_bound (total_us b - total_us a) 86400000000 ltac:(lia)).
    lia.
  - apply Z.div_pos; lia.
Qed.

Lemma datetime_le_floor_days a b :
  valid_datetime a = true -> valid_datetime b = true ->
  datetime_le a b = (0 <=? floor_days a b).
Proof.
  intros Ha Hb. unfold datetime_le. rewrite cmp_total_us by assumption.
  pose proof (floor_days_nonneg a b) as H.
  destruct (Z.compare_spec (total_us a) (total_us b));
    destruct (Z.leb_spec 0 (floor_days a b)); try reflexivity; lia.
Qed.

Lemma datetime_gt_floor_days a b :
  valid_datetime a = true -> valid_datetime b = true ->
  datetime_gt a b = (floor_days a b <? 0).
Proof.
  intros Ha Hb. unfold datetime_gt. rewrite cmp_total_us by assumption.
  pose proof (floor_days_nonneg a b) as H.
  destruct (Z.compare_spec (total_us a) (total_us b));
    destruct (Z.ltb_spec (floor_days a b) 0); try reflexivity; lia.
Qed.

Lemma datetime_gt_not_le a b : datetime_gt a b = negb (datetime_le a b).
Proof. unfold datetime_gt, datetime_le. now destruct (_cmp a b). Qed.

(** *** Differences *)

Lemma floor_days_split a b :
  floor_days a b
  = toordinal b - toordinal a
    + (tod_seconds b - tod_seconds a
       + (microsecond b - microsecond a) / 1000000) / 86400.
Proof.
  unfold floor_days, total_us, tod_us, US_PER_DAY.
  set (D := toordinal b - toordinal a).
  set (S := tod_seconds b - tod_seconds a).
  set (U := microsecond b - microsecond a).
  replace (toordinal b * 86400000000 + (tod_seconds b * 1000000 + microsecond b)
           - (toordinal a * 86400000000
              + (tod_seconds a * 1000000 + microsecond a)))
    with ((S * 1000000 + U) + D * 86400000000) by (subst D S U; lia).
  rewrite Z.div_add by lia.
  change 86400000000 with (1000000 * 86400).
  rewrite <- Z.div_div by lia.
  rewrite (Z.add_comm (S * 1000000)), Z.div_add by lia.
  rewrite (Z.add_comm (U / 1000000)). lia.
Qed.

Lemma get_days_spec from_date to_date :
  get_days from_date to_date
  = if 999999999 <? Z.abs (floor_days from_date to_date)
    then Err OverflowError
    else Ok (floor_days from_date to_date).
Proof.
  unfold get_days, datetime_sub. rewrite timedelta_new_normal.
  rewrite <- floor_days_split. now destruct (_ <? _).
Qed.

Lemma floor_days_bounds a b :
  valid_datetime a = true -> valid_datetime b = true ->
  - _MAXORDINAL <= floor_days a b < _MAXORDINAL.
Proof.
  intros Ha Hb.
  pose proof (toordinal_range a Ha). pose proof (toordinal_range b Hb).
  pose proof (tod_us_range a Ha). pose proof (tod_us_range b Hb).
  unfold floor_days, total_us, US_PER_DAY, _MAXORDINAL in *.
  pose proof (Z.div_mod (toordinal b * 86400000000 + tod_us b
     - (toordinal a * 86400000000 + tod_us a)) 86400000000 ltac:(lia)).
  pose proof (Z.mod_pos_bound (toordinal b * 86400000000 + tod_us b
     - (toordinal a * 86400000000 + tod_us a)) 86400000000 ltac:(lia)).
  lia.
Qed.

Lemma get_days_valid from_date to_date :
  valid_datetime from_date = true -> valid_datetime to_date = true ->
  get_days from_date to_date = Ok (floor_days from_date to_date).
Proof.
  intros Ha Hb. rewrite get_days_spec.
  pose proof (floor_days_bounds _ _ Ha Hb). unfold _MAXORDINAL in *.
  destruct (Z.ltb_spec 999999999 (Z.abs (floor_days from_date to_date)));
    [lia|reflexivity].
Qed.

(** *** The day-by-day loops *)

Lemma count_weekends_loop_day_loop fuel current_date to_date weekends :
  count_weekends_loop fuel current_date to_date weekends
  = day_loop is_weekend fuel current_date to_date weekends.
Proof.
  revert current_date weekends.
  induction fuel as [|fuel IH]; intros current_date weekends; [reflexivity|].
  cbn [count_weekends_loop day_loop]. unfold is_weekend at 1.
  destruct (datetime_le current_date to_date); [|reflexivity].
  fold (add_dt current_date 1).
  destruct (add_dt current_date 1); [apply IH|reflexivity].
Qed.

Lemma get_business_days_loop_day_loop holidays fuel current_date to_date n :
  get_business_days_loop holidays fuel current_date to_date n
  = day_loop (is_business_day holidays "US/Eastern") fuel current_date
      to_date n.
Proof.
  revert current_date n.
  induction fuel as [|fuel IH]; intros current_date n; [reflexivity|].
  cbn [get_business_days_loop day_loop]. unfold is_business_day at 1.
  destruct (datetime_le current_date to_date); [|reflexivity].
  fold (add_dt current_date 1).
  destruct (add_dt current_date 1); [apply IH|reflexivity].
Qed.

Lemma total_us_plus_days d k :
  valid_datetime d = true ->
  1 <= toordinal d + k <= _MAXORDINAL ->
  total_us (plus_days d k) = total_us d + k * US_PER_DAY.
Proof.
  intros Hv Hk. destruct (plus_days_valid d k Hv Hk) as [_ Ho].
  destruct (plus_days_clock d k) as (E1 & E2 & E3 & E4).
  unfold total_us, tod_us, tod_seconds. rewrite Ho, E1, E2, E3, E4. lia.
Qed.

Lemma floor_days_plus_days d k to_date :
  valid_datetime d = true ->
  1 <= toordinal d + k <= _MAXORDINAL ->
  floor_days (plus_days d k) to_date = floor_days d to_date - k.
Proof.
  intros Hv Hk. unfold floor_days. rewrite total_us_plus_days by assumption.
  replace (total_us to_date - (total_us d + k * US_PER_DAY))
    with (total_us to_date - total_us d + (- k) * US_PER_DAY) by lia.
  rewrite Z.div_add by (unfold US_PER_DAY; lia). lia.
Qed.

Lemma day_range_nil from_date to_date :
  floor_days from_date to_date < 0 -> day_range from_date to_date = [].
Proof.
  intros H. unfold day_range.
  replace (Z.to_nat (floor_days from_date to_date + 1)) with 0%nat by lia.
  reflexivity.
Qed.

Lemma day_range_cons from_date to_date :
  valid_datetime from_date = true ->
  0 <= floor_days from_date to_date ->
  toordinal from_date < _MAXORDINAL ->
  day_range from_date to_date
  = from_date :: day_range (plus_days from_date 1) to_date.
Proof.
  intros Hv Hfd Hmax. pose proof (toordinal_range _ Hv) as Ho.
  unfold day_range. rewrite floor_days_plus_days by (assumption || lia).
  replace (Z.to_nat (floor_days from_date to_date + 1))
    with (S (Z.to_nat (floor_days from_date to_date - 1 + 1))) by lia.
  cbn [seq map]. change (Z.of_nat 0) with 0. rewrite plus_days_0 by assumption.
  f_equal. rewrite <- seq_shift, map_map. apply map_ext. intros k.
  rewrite plus_days_plus_days by (assumption || lia). f_equal. lia.
Qed.

Lemma count_days_cons p d l :
  count_days p (d :: l) = (if p d then 1 else 0) + count_days p l.
Proof.
  unfold count_days. cbn [List.filter]. destruct (p d); cbn [length]; lia.
Qed.

(** Whatever a loop returns is the count over the days of the range. *)
Lemma day_loop_result p fuel current_date to_date count r :
  valid_datetime current_date = true -> valid_datetime to_date = true ->
  day_loop p fuel current_date to_date count = Some (Ok r) ->
  r = count + count_days p (day_range current_date to_date).
Proof.
  revert current_date count.
  induction fuel as [|fuel IH]; intros cur count Hc Ht; [discriminate|].
  cbn [day_loop]. rewrite datetime_le_floor_days by assumption.
  destruct (Z.leb_spec 0 (floor_days cur to_date)) as [Hfd|Hfd].
  - rewrite add_dt_spec by assumption.
    pose proof (toordinal_range _ Hc) as Ho.
    destruct (Z.ltb_spec 0 (toordinal cur + 1)); [|lia]. cbn [andb].
    destruct (Z.leb_spec (toordinal cur + 1) _MAXORDINAL) as [Hm|Hm];
      [|discriminate].
    intros Hrun.
    destruct (plus_days_valid cur 1 Hc ltac:(lia)) as [Hv' _].
    apply IH in Hrun; [|assumption..].
    rewrite day_range_cons by (assumption || lia).
    rewrite count_days_cons. destruct (p cur); lia.
  - intros [= <-]. rewrite day_range_nil by assumption.
    unfold count_days. cbn. lia.
Qed.

(** With enough fuel a loop leaves with the count, provided each day of
    the range has a next day. *)
Lemma day_loop_terminates p n :
  forall current_date to_date count fuel,
    valid_datetime current_date = true -> valid_datetime to_date = true ->
    range_fits current_date to_date ->
    Z.to_nat (floor_days current_date to_date + 1) = n ->
    (n < fuel)%nat ->
    day_loop p fuel current_date to_date count
    = Some (Ok (count + count_days p (day_range current_date to_date))).
Proof.
  induction n as [|n IH]; intros cur to_date count fuel Hc Ht Hfit Hn Hfuel;
    (destruct fuel as [|fuel]; [lia|]);
    cbn [day_loop]; rewrite datetime_le_floor_days by assumption.
  - destruct (Z.leb_spec 0 (floor_days cur to_date)); [lia|].
    rewrite day_range_nil by assumption. unfold count_days. cbn.
    now rewrite Z.add_0_r.
  - destruct (Z.leb_spec 0 (floor_days cur to_date)) as [Hfd|]; [|lia].
    destruct Hfit as [Hneg|Hfit]; [lia|].
    pose proof (toordinal_range _ Hc) as Ho.
    rewrite add_dt_spec by assumption.
    destruct (Z.ltb_spec 0 (toordinal cur + 1)); [|lia].
    destruct (Z.leb_spec (toordinal cur + 1) _MAXORDINAL); [|lia].
    cbn [andb].
    destruct (plus_days_valid cur 1 Hc ltac:(lia)) as [Hv' Ho'].
    rewrite (IH (plus_days cur 1) to_date); try assumption.
    + rewrite (day_range_cons cur) by (assumption || lia).
      rewrite count_days_cons. do 2 f_equal. destruct (p cur); lia.
    + right. rewrite Ho', floor_days_plus_days by (assumption || lia). lia.
    + rewrite floor_days_plus_days by (assumption || lia). lia.
    + lia.
Qed.

(** Otherwise the step from the last day of the calendar overflows. *)
Lemma day_loop_overflows p n :
  forall current_date to_date count fuel,
    valid_datetime current_date = true -> valid_datetime to_date = true ->
    0 <= floor_days current_date to_date ->
    toordinal current_date + floor_days current_date to_date = _MAXORDINAL ->
    Z.to_nat (floor_days current_date to_date) = n ->
    (n < fuel)%nat ->
    day_loop p fuel current_date to_date count = Some (Err OverflowError).
Proof.
  induction n as [|n IH]; intros cur to_date count fuel Hc Ht Hfd Hlast Hn Hfuel;
    (destruct fuel as [|fuel]; [lia|]);
    cbn [day_loop]; rewrite datetime_le_floor_days by assumption;
    (destruct (Z.leb_spec 0 (floor_days cur to_date)); [|lia]);
    rewrite add_dt_spec by assumption;
    pose proof (toordinal_range _ Hc) as Ho.
  - destruct (Z.leb_spec (toordinal cur + 1) _MAXORDINAL); [lia|].
    now rewrite andb_false_r.
  - destruct (Z.ltb_spec 0 (toordinal cur + 1)); [|lia].
    destruct (Z.leb_spec (toordinal cur + 1) _MAXORDINAL); [|lia].
    cbn [andb].
    destruct (plus_days_valid cur 1 Hc ltac:(lia)) as [Hv' Ho'].
    apply IH; try assumption;
      rewrite ?Ho', ?floor_days_plus_days by (assumption || lia); lia.
Qed.

(** ** Parsing the holiday file *)

Lemma strptime_Ymd_error s e : strptime_Ymd s = Err e -> e = ValueError.
Proof.
  unfold strptime_Ymd. destruct (Str.match_Ymd s) as [[[[y m] d] rest]|].
  - destruct rest; [destruct (check_date_fields y m d)|]; congruence.
  - congruence.
Qed.

Lemma load_lines_error lines : forall holidays e,
  load_lines lines holidays = Err e -> e = ValueError.
Proof.
  induction lines as [|line lines IH]; intros holidays e; cbn [load_lines].
  - discriminate.
  - destruct (Str.split (Str.strip line)) as [|tz [|ds [|label [|? ?]]]];
      try congruence.
    destruct (strptime_Ymd ds) as [dt|e'] eqn:E; cbn [mbind result_bind].
    + apply IH.
    + intros [= <-]. now apply strptime_Ymd_error in E.
Qed.

Lemma load_lines_rejected lines line : forall holidays,
  In line lines -> rejected line -> load_lines lines holidays = Err ValueError.
Proof.
  induction lines as [|l lines IH]; intros holidays Hin Hrej; [destruct Hin|].
  cbn [load_lines]. destruct Hin as [->|Hin].
  - unfold rejected in Hrej.
    destruct (Str.split (Str.strip line)) as [|tz [|ds [|label [|? ?]]]];
      try reflexivity.
    destruct (strptime_Ymd ds) as [dt|e] eqn:E.
    + now destruct (Hrej dt).
    + apply strptime_Ymd_error in E. now subst e.
  - destruct (Str.split (Str.strip l)) as [|tz [|ds [|label [|? ?]]]];
      try reflexivity.
    destruct (strptime_Ymd ds) as [dt|e] eqn:E; cbn [mbind result_bind].
    + now apply IH.
    + apply strptime_Ymd_error in E. now subst e.
Qed.

Lemma load_lines_accepted lines : forall holidays,
  forallb accepted lines = true ->
  exists loaded, load_lines lines holidays = Ok loaded.
Proof.
  induction lines as [|line lines IH]; intros holidays Hall;
    cbn [load_lines].
  - eauto.
  - cbn [forallb] in Hall. apply andb_true_iff in Hall as [Hline Hall].
    unfold accepted in Hline.
    destruct (Str.split (Str.strip line)) as [|tz [|ds [|label [|? ?]]]];
      try discriminate.
    destruct (strptime_Ymd ds) as [dt|e]; [|discriminate].
    cbn [mbind result_bind]. now apply IH.
Qed.

(** Each alternative of a group reads one or two characters. *)
Ltac one_alternative H :=
  repeat case_match; try (now apply elem_of_nil in H);
  apply list_elem_of_singleton in H; inversion H; subst; reflexivity.

Lemma alt2_length lo1 hi1 lo2 hi2 s v r :
  (v, r) ∈ Str.alt2 lo1 hi1 lo2 hi2 s ->
  String.length s = S (S (String.length r)).
Proof. unfold Str.alt2. intros H. one_alternative H. Qed.

Lemma alt1_length lo hi s v r :
  (v, r) ∈ Str.alt1 lo hi s -> String.length s = S (String.length r).
Proof. unfold Str.alt1. intros H. one_alternative H. Qed.

Lemma alt_space_length s v r :
  (v, r) ∈ Str.alt_space s -> String.length s = S (S (String.length r)).
Proof. unfold Str.alt_space. intros H. one_alternative H. Qed.

Lemma group_Y_length s v r :
  (v, r) ∈ Str.group_Y s -> String.length s = (4 + String.length r)%nat.
Proof. unfold Str.group_Y. intros H. one_alternative H. Qed.

Lemma group_m_length s v r :
  (v, r) ∈ Str.group_m s ->
  (1 + String.length r <= String.length s <= 2 + String.length r)%nat.
Proof.
  unfold Str.group_m. rewrite !elem_of_app.
  intros [H|[H|H]];
    [apply alt2_length in H|apply alt2_length in H|apply alt1_length in H];
    lia.
Qed.

Lemma group_d_length s v r :
  (v, r) ∈ Str.group_d s ->
  (1 + String.length r <= String.length s <= 2 + String.length r)%nat.
Proof.
  unfold Str.group_d. rewrite !elem_of_app.
  intros [H|[H|[H|[H|H]]]];
    [apply alt2_length in H|apply alt2_length in H|apply alt2_length in H
    |apply alt1_length in H|apply alt_space_length in H];
    lia.
Qed.

Lemma match_Ymd_length s y m d rest :
  Str.match_Ymd s = Some (y, m, d, rest) ->
  (6 + String.length rest <= String.length s <= 8 + String.length rest)%nat.
Proof.
  unfold Str.match_Ymd. intros H. apply head_Some_elem_of in H.
  apply list_elem_of_bind in H as ([y' s1] & H & HY).
  apply list_elem_of_bind in H as ([m' s2] & H & Hm).
  apply list_elem_of_bind in H as ([d' s3] & H & Hd).
  apply list_elem_of_singleton in H. inversion H; subst.
  apply group_Y_length in HY. apply group_m_length in Hm.
  apply group_d_length in Hd. lia.
Qed.

(** A date field that [strptime] accepts has six to eight characters. *)
Lemma strptime_Ymd_length s dt :
  strptime_Ymd s = Ok dt -> (6 <= String.length s <= 8)%nat.
Proof.
  unfold strptime_Ymd.
  destruct (Str.match_Ymd s) as [[[[y m] d] rest]|] eqn:E; [|discriminate].
  destruct rest; [|discriminate]. intros _.
  apply match_Ymd_length in E. cbn [String.length] in E. lia.
Qed.

(** *** The keys of a loaded calendar *)

Lemma date_keyed_empty : date_keyed ∅.
Proof. intros tz sub key H. now rewrite lookup_empty in H. Qed.

Lemma date_keyed_alter holidays timezone d holiday :
  date_keyed holidays ->
  date_keyed (alter (insert (KDate d) holiday) timezone holidays).
Proof.
  intros Hk tz sub key Hl Hs. rewrite lookup_alter in Hl.
  case_decide as Htz.
  - subst tz. destruct (holidays !! timezone) as [sub0|] eqn:E;
      [|discriminate].
    cbn in Hl. injection Hl as <-.
    destruct (decide (key = KDate d)) as [->|Hne]; [eauto|].
    rewrite lookup_insert_ne in Hs by congruence. eapply Hk; eauto.
  - eapply Hk; eauto.
Qed.

Lemma date_keyed_insert_empty holidays timezone :
  date_keyed holidays -> date_keyed (<[timezone := ∅]> holidays).
Proof.
  intros Hk tz sub key Hl Hs.
  destruct (decide (timezone = tz)) as [->|Hne].
  - rewrite lookup_insert_eq in Hl. injection Hl as <-.
    rewrite lookup_empty in Hs. now destruct Hs.
  - rewrite lookup_insert_ne in Hl by assumption. eapply Hk; eauto.
Qed.

Lemma load_lines_date_keyed lines : forall holidays loaded,
  date_keyed holidays ->
  load_lines lines holidays = Ok loaded -> date_keyed loaded.
Proof.
  induction lines as [|line lines IH]; intros holidays loaded Hk;
    cbn [load_lines].
  - now intros [= <-].
  - destruct (Str.split (Str.strip line)) as [|tz [|ds [|label [|? ?]]]];
      try discriminate.
    destruct (strptime_Ymd ds) as [dt|e]; [|discriminate].
    cbn [mbind result_bind]. apply IH. apply date_keyed_alter.
    destruct (negb (contains holidays tz));
      [now apply date_keyed_insert_empty|assumption].
Qed.

Lemma is_holiday_true holidays key timezone :
  is_holiday holidays key timezone = true
  <-> exists of_timezone,
        holidays !! timezone = Some of_timezone
        /\ is_Some (of_timezone !! key).
Proof.
  unfold is_holiday, contains.
  destruct (holidays !! timezone) as [sub|] eqn:E.
  - rewrite bool_decide_eq_true_2 by eauto. cbn [andb].
    destruct (bool_decide (is_Some (sub !! key))) eqn:B.
    + apply bool_decide_eq_true_1 in B. split; [eauto|reflexivity].
    + apply bool_decide_eq_false_1 in B. split; [discriminate|].
      intros (sub' & [= <-] & Hs). contradiction.
  - rewrite andb_false_r. split; [discriminate|].
    intros (sub' & [=] & _).
Qed.

Lemma is_holiday_datetime_key holidays d timezone :
  date_keyed holidays -> is_holiday holidays (KDatetime d) timezone = false.
Proof.
  intros Hk. apply not_true_is_false. intros H.
  apply is_holiday_true in H as (sub & Hl & Hs).
  destruct (Hk _ _ _ Hl Hs) as [d' [=]].
Qed.

(** ** Properties of the specification *)

(** C5.  On a reversed range ([a > b]) the loop of [count_weekends] is
    never entered and the call returns 0. *)
Theorem count_weekends_reversed_range a b fuel :
  datetime_gt a b = true -> (0 < fuel)%nat ->
  count_weekends fuel a b = Some (Ok 0).
Proof.
  intros Hgt Hfuel. destruct fuel as [|fuel]; [lia|].
  unfold count_weekends. cbn [count_weekends_loop].
  rewrite datetime_gt_not_le in Hgt. apply negb_true_iff in Hgt.
  now rewrite Hgt.
Qed.

Lemma count_weekends_reversed_range_witness :
  count_weekends 1 demo_to demo_from = Some (Ok 0).
Proof.
  apply count_weekends_reversed_range; [reflexivity|lia].
Defined.

(** C6.  [is_holiday] answers true exactly when the timezone is a key of
    the calendar and the day is a key of that timezone's dictionary; for a
    timezone that is not in the calendar it answers false. *)
Theorem is_holiday_membership holidays key timezone :
  (is_holiday holidays key timezone = true
   <-> exists of_timezone,
         holidays !! timezone = Some of_timezone
         /\ is_Some (of_timezone !! key))
  /\ (holidays !! timezone = None -> is_holiday holidays key timezone = false).
Proof.
  split; [apply is_holiday_true|].
  intros Hnone. apply not_true_is_false. intros H.
  apply is_holiday_true in H as (sub & Hl & _). congruence.
Qed.

Lemma is_holiday_membership_witness :
  is_holiday utc_calendar (KDatetime boxing_day) "US/Eastern" = false.
Proof.
  apply (proj2 (is_holiday_membership utc_calendar (KDatetime boxing_day)
                  "US/Eastern")).
  vm_compute. reflexivity.
Defined.

(** C2, as the code has it.  [get_days] is the duration [to - from] in
    whole days rounded towards minus infinity (the [days] field of a
    normalised timedelta), not towards zero; it is negative when [to]
    precedes [from], and rounding down and rounding towards zero agree
    when [to] is not before [from]. *)
Theorem get_days_is_floor from_date to_date :
  valid_datetime from_date = true -> valid_datetime to_date = true ->
  get_days from_date to_date = Ok (floor_days from_date to_date)
  /\ (datetime_gt from_date to_date = true ->
      floor_days from_date to_date < 0)
  /\ (datetime_le from_date to_date = true ->
      floor_days from_date to_date = trunc_days from_date to_date).
Proof.
  intros Hf Ht. split; [now apply get_days_valid|]. split.
  - rewrite datetime_gt_floor_days by assumption. apply Z.ltb_lt.
  - rewrite datetime_le_floor_days by assumption. intros H.
    apply Z.leb_le, floor_days_nonneg in H.
    unfold floor_days, trunc_days. symmetry.
    apply Z.quot_div_nonneg; unfold US_PER_DAY; lia.
Qed.

Lemma get_days_is_floor_witness :
  get_days demo_from demo_to = Ok (floor_days demo_from demo_to).
Proof.
  apply (get_days_is_floor demo_from demo_to); reflexivity.
Defined.

(** C2 as stated fails: from noon back to midnight of the same day the
    duration is minus twelve hours, which truncates to 0 days, and
    [get_days] returns -1. *)
Lemma get_days_not_truncation :
  get_days demo_noon demo_from = Ok (-1)
  /\ trunc_days demo_noon demo_from = 0.
Proof. split; reflexivity. Qed.

(** C3, as the code has it.  [get_days a b] is the opposite of
    [get_days b a] when the two datetimes have the same time of day, and
    one less than the opposite otherwise. *)
Theorem get_days_antisymmetry_up_to_remainder a b :
  valid_datetime a = true -> valid_datetime b = true ->
  exists x y,
    get_days a b = Ok x /\ get_days b a = Ok y
    /\ x = - y - (if tod_us a =? tod_us b then 0 else 1).
Proof.
  intros Ha Hb. exists (floor_days a b), (floor_days b a).
  rewrite !get_days_valid by assumption. repeat split.
  pose proof (tod_us_range a Ha) as Ra. pose proof (tod_us_range b Hb) as Rb.
  unfold floor_days, total_us, US_PER_DAY in *.
  set (oa := toordinal a) in *. set (ob := toordinal b) in *.
  set (ta := tod_us a) in *. set (tb := tod_us b) in *.
  pose proof (Z.div_mod (ob * 86400000000 + tb - (oa * 86400000000 + ta))
                86400000000 ltac:(lia)) as E1.
  pose proof (Z.mod_pos_bound (ob * 86400000000 + tb - (oa * 86400000000 + ta))
                86400000000 ltac:(lia)) as B1.
  pose proof (Z.div_mod (oa * 86400000000 + ta - (ob * 86400000000 + tb))
                86400000000 ltac:(lia)) as E2.
  pose proof (Z.mod_pos_bound (oa * 86400000000 + ta - (ob * 86400000000 + tb))
                86400000000 ltac:(lia)) as B2.
  destruct (Z.eqb_spec ta tb); lia.
Qed.

Lemma get_days_antisymmetry_up_to_remainder_witness :
  exists x y,
    get_days demo_from demo_noon = Ok x /\ get_days demo_noon demo_from = Ok y
    /\ x = - y - (if tod_us demo_from =? tod_us demo_noon then 0 else 1).
Proof.
  apply (get_days_antisymmetry_up_to_remainder demo_from demo_noon);
    reflexivity.
Defined.

(** C3 as stated fails on the same pair: 0 one way, -1 the other. *)
Lemma get_days_not_antisymmetric :
  get_days demo_from demo_noon = Ok 0
  /\ get_days demo_noon demo_from = Ok (-1)
  /\ 0 <> - (-1).
Proof. repeat split. lia. Qed.

(** C4, as the code has it.  When [add_dt d n] returns a datetime,
    [sub_dt] of that datetime and [n] returns [d]; [add_dt] raises
    [OverflowError] when the shifted day is outside years 1 to 9999, and
    then so does the round trip. *)
Theorem sub_dt_add_dt_round_trip d n :
  valid_datetime d = true ->
  (forall shifted, add_dt d n = Ok shifted -> sub_dt shifted n = Ok d)
  /\ round_trip d n
     = if (0 <? toordinal d + n) && (toordinal d + n <=? _MAXORDINAL)
       then Ok d
       else Err OverflowError.
Proof.
  intros Hv.
  assert (Hback : 1 <= toordinal d + n <= _MAXORDINAL ->
                  sub_dt (plus_days d n) n = Ok d).
  { intros Hr. destruct (plus_days_valid d n Hv Hr) as [Hv' Ho'].
    pose proof (toordinal_range d Hv) as Ho.
    rewrite sub_dt_add_dt, add_dt_spec, Ho' by assumption.
    destruct (Z.ltb_spec 0 (toordinal d + n + - n)); [|lia].
    destruct (Z.leb_spec (toordinal d + n + - n) _MAXORDINAL); [|lia].
    cbn [andb]. rewrite plus_days_plus_days by assumption.
    now rewrite Z.add_opp_diag_r, plus_days_0. }
  unfold round_trip. rewrite add_dt_spec by assumption.
  destruct (Z.ltb_spec 0 (toordinal d + n));
    destruct (Z.leb_spec (toordinal d + n) _MAXORDINAL); cbn [andb];
    (split; [intros shifted [= <-]|]); cbn [mbind result_bind];
    try reflexivity; apply Hback; lia.
Qed.

Lemma sub_dt_add_dt_round_trip_witness :
  add_dt demo_from 11 = Ok demo_to /\ sub_dt demo_to 11 = Ok demo_from.
Proof.
  split; [reflexivity|].
  apply (proj1 (sub_dt_add_dt_round_trip demo_from 11 eq_refl)).
  reflexivity.
Defined.

(** C4 as stated fails at the end of the calendar: one day after
    9999-12-31 there is no date, [add_dt] raises and nothing is returned. *)
Lemma round_trip_overflows :
  valid_datetime last_day = true
  /\ add_dt last_day 1 = Err OverflowError
  /\ round_trip last_day 1 <> Ok last_day.
Proof. repeat split. discriminate. Qed.

(** C7, as the code has it.  [convert_dt] raises [UnknownTimeZoneError]
    when either timezone name is unknown to the database, before anything
    is converted.  A holiday look-up does not consult the database: for
    any name it answers by membership in the calendar. *)
Theorem unknown_timezone_outcomes (tzinfo aware_datetime : Type)
  (pytz_timezone : string -> option tzinfo)
  (localize : tzinfo -> datetime -> result aware_datetime)
  (astimezone : aware_datetime -> tzinfo -> result aware_datetime)
  (holidays : calendar) (key : pykey) (d : datetime) (name other : string) :
  pytz_timezone name = None ->
  convert_dt tzinfo aware_datetime pytz_timezone localize astimezone
    d name other = Err UnknownTimeZoneError
  /\ convert_dt tzinfo aware_datetime pytz_timezone localize astimezone
       d other name = Err UnknownTimeZoneError
  /\ (holidays !! name = None -> is_holiday holidays key name = false)
  /\ (is_holiday holidays key name = true
      <-> exists of_timezone,
            holidays !! name = Some of_timezone
            /\ is_Some (of_timezone !! key)).
Proof.
  intros Hunknown. unfold convert_dt, timezone_lookup. rewrite Hunknown.
  split; [reflexivity|]. split.
  - destruct (pytz_timezone other); reflexivity.
  - split; [|apply is_holiday_true].
    intros Hnone. apply not_true_is_false. intros H.
    apply is_holiday_true in H as (sub & Hl & _). congruence.
Qed.

Lemma unknown_timezone_outcomes_witness :
  convert_dt unit datetime utc_only utc_localize utc_astimezone
    demo_from "Mars/Phobos" "UTC" = Err UnknownTimeZoneError.
Proof.
  apply (unknown_timezone_outcomes unit datetime utc_only utc_localize
           utc_astimezone utc_calendar (KDatetime boxing_day) demo_from
           "Mars/Phobos" "UTC").
  reflexivity.
Defined.

(** C7 as stated fails for holiday look-ups: a name the timezone database
    does not know is answered with False, nothing is raised. *)
Lemma is_holiday_unknown_timezone_returns_false :
  utc_only "Mars/Phobos" = None
  /\ is_holiday utc_calendar (KDatetime boxing_day) "Mars/Phobos" = false
  /\ get_business_days utc_calendar 2 boxing_day boxing_day = Some (Ok 1).
Proof. repeat split; vm_compute; reflexivity. Qed.

(** C8, as the code has it.  [load_holidays] raises [ValueError], and so
    yields no calendar at all, when some line after the header does not
    split into exactly three comma-space-separated fields, or when
    [strptime] rejects its date field; that is the case in particular of
    every date field shorter than six or longer than eight characters. *)
Theorem load_holidays_rejects lines line :
  In line (tail lines) ->
  (length (Str.split (Str.strip line)) <> 3%nat
   \/ exists timezone date_str holiday,
        Str.split (Str.strip line) = [timezone; date_str; holiday]
        /\ ((String.length date_str < 6)%nat
            \/ (8 < String.length date_str)%nat
            \/ forall dt, strptime_Ymd date_str <> Ok dt)) ->
  load_holidays lines = Err ValueError
  /\ forall holidays, load_holidays lines <> Ok holidays.
Proof.
  intros Hin Hbad.
  assert (E : load_holidays lines = Err ValueError).
  { unfold load_holidays. apply (load_lines_rejected _ line); [assumption|].
    unfold rejected. destruct Hbad as [Hlen|(tz & ds & label & Hs & Hds)].
    - destruct (Str.split (Str.strip line)) as [|? [|? [|? [|? ?]]]];
        try exact I.
      now destruct Hlen.
    - rewrite Hs. intros dt Hok.
      destruct Hds as [Hshort|[Hlong|Hno]]; [| |now apply (Hno dt)];
        apply strptime_Ymd_length in Hok; lia. }
  split; [exact E|]. intros holidays. rewrite E. discriminate.
Qed.

Lemma load_holidays_rejects_witness :
  load_holidays ["TimeZone, Date, Holiday"; "US/Eastern, 20221225"]%string
  = Err ValueError.
Proof.
  apply (load_holidays_rejects _ "US/Eastern, 20221225"%string).
  - cbn. left. reflexivity.
  - left. vm_compute. lia.
Defined.

(** C8 as stated fails: the date field "2022125" has seven characters and
    the file loads, with 5 December 2022 as a holiday. *)
Lemma load_holidays_accepts_short_date :
  (holidays ← load_holidays short_date_lines;
   Ok (is_holiday holidays (KDate (mkdate 2022 12 5)) "US/Eastern"))
  = Ok true.
Proof. vm_compute. reflexivity. Qed.

(** C10.  A calendar built by [load_holidays] has only [date] keys, so a
    look-up with a datetime answers false in every timezone, and
    [get_business_days] on datetimes excludes no holiday: whatever it
    returns is the number of Monday-to-Friday days of the inclusive range,
    and it returns that number as soon as the fuel exceeds the number of
    days of a range that fits in the calendar. *)
Theorem get_business_days_never_excludes_holidays lines holidays
  from_date to_date :
  load_holidays lines = Ok holidays ->
  valid_datetime from_date = true -> valid_datetime to_date = true ->
  date_keyed holidays
  /\ (forall d timezone, is_holiday holidays (KDatetime d) timezone = false)
  /\ (forall fuel r,
        get_business_days holidays fuel from_date to_date = Some (Ok r) ->
        r = count_days is_weekday (day_range from_date to_date))
  /\ (range_fits from_date to_date ->
      forall fuel,
        (Z.to_nat (floor_days from_date to_date + 1) < fuel)%nat ->
        get_business_days holidays fuel from_date to_date
        = Some (Ok (count_days is_weekday (day_range from_date to_date)))).
Proof.
  intros Hload Hf Ht.
  assert (Hk : date_keyed holidays)
    by (apply (load_lines_date_keyed _ _ _ date_keyed_empty Hload)).
  assert (Hp : forall l, count_days (is_business_day holidays "US/Eastern") l
                         = count_days is_weekday l).
  { intros l. unfold count_days. do 2 f_equal.
    induction l as [|d l IH]; [reflexivity|]. cbn [List.filter].
    unfold is_business_day at 1, is_weekday at 1.
    rewrite (is_holiday_datetime_key _ _ _ Hk), andb_true_r.
    now rewrite IH. }
  split; [exact Hk|].
  split; [intros d tz; now apply is_holiday_datetime_key|].
  unfold get_business_days. split.
  - intros fuel r. rewrite get_business_days_loop_day_loop. intros H.
    apply day_loop_result in H; [|assumption..]. rewrite Hp in H. lia.
  - intros Hfit fuel Hfuel. rewrite get_business_days_loop_day_loop.
    rewrite (day_loop_terminates _ _ _ _ _ _ Hf Ht Hfit eq_refl Hfuel).
    now rewrite Hp.
Qed.

Lemma get_business_days_never_excludes_holidays_witness :
  exists holidays,
    load_holidays demo_lines = Ok holidays
    /\ (forall d timezone,
          is_holiday holidays (KDatetime d) timezone = false)
    /\ get_business_days holidays 20 demo_from demo_to
       = Some (Ok (count_days is_weekday (day_range demo_from demo_to))).
Proof.
  destruct (load_lines_accepted (tail demo_lines) ∅ eq_refl)
    as [holidays Hload].
  exists holidays. split; [exact Hload|].
  destruct (get_business_days_never_excludes_holidays demo_lines holidays
              demo_from demo_to Hload eq_refl eq_refl)
    as (_ & Hlookup & _ & Hrun).
  split; [exact Hlookup|]. apply Hrun.
  - right. vm_compute. reflexivity.
  - vm_compute. lia.
Defined.

(** * Further properties of the code *)

(** ** More on the days of a range *)

Lemma day_range_length from_date to_date :
  length (day_range from_date to_date)
  = Z.to_nat (floor_days from_date to_date + 1).
Proof. unfold day_range. now rewrite length_map, length_seq. Qed.

Lemma count_days_partition (l : list datetime) :
  count_days is_weekend l + count_days is_weekday l = Z.of_nat (length l).
Proof.
  unfold count_days. induction l as [|d l IH]; [reflexivity|].
  cbn [List.filter length]. unfold is_weekend at 1, is_weekday at 1.
  destruct (Z.leb_spec 5 (weekday d)); destruct (Z.ltb_spec (weekday d) 5);
    cbn [length]; lia.
Qed.

Lemma count_days_bounds p (l : list datetime) :
  0 <= count_days p l <= Z.of_nat (length l).
Proof.
  unfold count_days. pose proof (List.filter_length_le p l). lia.
Qed.

Lemma count_days_business_le holidays timezone (l : list datetime) :
  count_days (is_business_day holidays timezone) l <= count_days is_weekday l.
Proof.
  unfold count_days. induction l as [|d l IH]; [reflexivity|].
  cbn [List.filter]. unfold is_business_day at 1, is_weekday at 1.
  destruct (weekday d <? 5); cbn [andb];
    [destruct (negb _)|]; cbn [length]; lia.
Qed.

(** The last day of the range is not after [to_date]. *)
Lemma floor_days_ordinal from_date to_date :
  valid_datetime from_date = true -> valid_datetime to_date = true ->
  toordinal from_date + floor_days from_date to_date <= toordinal to_date.
Proof.
  intros Hf Ht.
  pose proof (tod_us_range _ Hf). pose proof (tod_us_range _ Ht).
  unfold floor_days, total_us, US_PER_DAY in *.
  pose proof (Z.div_mod (toordinal to_date * 86400000000 + tod_us to_date
     - (toordinal from_date * 86400000000 + tod_us from_date))
     86400000000 ltac:(lia)).
  pose proof (Z.mod_pos_bound (toordinal to_date * 86400000000
     + tod_us to_date
     - (toordinal from_date * 86400000000 + tod_us from_date))
     86400000000 ltac:(lia)).
  lia.
Qed.

Lemma range_fits_or_last from_date to_date :
  valid_datetime from_date = true -> valid_datetime to_date = true ->
  range_fits from_date to_date
  \/ (0 <= floor_days from_date to_date
      /\ toordinal from_date + floor_days from_date to_date = _MAXORDINAL).
Proof.
  intros Hf Ht. pose proof (floor_days_ordinal _ _ Hf Ht).
  pose proof (toordinal_range _ Ht). unfold range_fits. lia.
Qed.

(** The outcome of a loop, once the fuel exceeds the days of the range. *)
Lemma day_loop_outcome p fuel from_date to_date :
  valid_datetime from_date = true -> valid_datetime to_date = true ->
  (Z.to_nat (floor_days from_date to_date + 1) < fuel)%nat ->
  (range_fits from_date to_date
   /\ day_loop p fuel from_date to_date 0
      = Some (Ok (count_days p (day_range from_date to_date))))
  \/ (~ range_fits from_date to_date
      /\ day_loop p fuel from_date to_date 0 = Some (Err OverflowError)).
Proof.
  intros Hf Ht Hfuel.
  destruct (range_fits_or_last _ _ Hf Ht) as [Hfit|[Hfd Hlast]].
  - left. split; [assumption|].
    now rewrite (day_loop_terminates _ _ _ _ _ _ Hf Ht Hfit eq_refl Hfuel).
  - right. split; [unfold range_fits; lia|].
    apply (day_loop_overflows p _ _ _ _ _ Hf Ht Hfd Hlast eq_refl). lia.
Qed.

Lemma count_days_business_date_keyed holidays timezone (l : list datetime) :
  date_keyed holidays ->
  count_days (is_business_day holidays timezone) l = count_days is_weekday l.
Proof.
  intros Hk. unfold count_days. do 2 f_equal.
  induction l as [|d l IH]; [reflexivity|]. cbn [List.filter].
  unfold is_business_day at 1, is_weekday at 1.
  rewrite (is_holiday_datetime_key _ _ _ Hk), andb_true_r. now rewrite IH.
Qed.

Lemma count_days_app p (l1 l2 : list datetime) :
  count_days p (l1 ++ l2) = count_days p l1 + count_days p l2.
Proof.
  unfold count_days. rewrite List.filter_app, length_app. lia.
Qed.

Lemma weekday_plus_days d k :
  valid_datetime d = true ->
  1 <= toordinal d + k <= _MAXORDINAL ->
  weekday (plus_days d k) = (weekday d + k) mod 7.
Proof.
  intros Hv Hk. unfold weekday.
  rewrite (proj2 (plus_days_valid d k Hv Hk)), Zplus_mod_idemp_l.
  f_equal. lia.
Qed.

(** Seven consecutive days hold two weekend days. *)
Lemma week_has_two_weekend_days d :
  valid_datetime d = true -> toordinal d + 6 <= _MAXORDINAL ->
  count_days is_weekend
    (map (fun k => plus_days d (Z.of_nat k)) (seq 0 7)) = 2.
Proof.
  intros Hv Hmax. pose proof (toordinal_range d Hv) as Ho.
  unfold count_days. cbn [seq map List.filter]. unfold is_weekend.
  rewrite !weekday_plus_days by (assumption || lia).
  assert (Hw : 0 <= weekday d < 7)
    by (unfold weekday; apply Z.mod_pos_bound; lia).
  assert (Hc : weekday d = 0 \/ weekday d = 1 \/ weekday d = 2
               \/ weekday d = 3 \/ weekday d = 4 \/ weekday d = 5
               \/ weekday d = 6) by lia.
  destruct Hc as [->|[->|[->|[->|[->|[->| ->]]]]]]; reflexivity.
Qed.

Lemma whole_weeks_weekend_days k : forall d,
  valid_datetime d = true ->
  toordinal d + 7 * Z.of_nat k - 1 <= _MAXORDINAL ->
  count_days is_weekend
    (map (fun i => plus_days d (Z.of_nat i)) (seq 0 (7 * k)))
  = 2 * Z.of_nat k.
Proof.
  induction k as [|k IH]; intros d Hv Hmax; [reflexivity|].
  pose proof (toordinal_range d Hv) as Ho.
  destruct (Nat.eq_dec k 0%nat) as [->|Hk].
  { apply week_has_two_weekend_days; [assumption|lia]. }
  replace (7 * S k)%nat with (7 + 7 * k)%nat by lia.
  rewrite seq_app, map_app, count_days_app.
  rewrite week_has_two_weekend_days by (assumption || lia).
  destruct (plus_days_valid d 7 Hv ltac:(lia)) as [Hv' Ho'].
  assert (E : map (fun i => plus_days d (Z.of_nat i)) (seq (0 + 7) (7 * k))
              = map (fun i => plus_days (plus_days d 7) (Z.of_nat i))
                  (seq 0 (7 * k))).
  { rewrite <- (fmap_add_seq 7 0). change fmap with (@map nat nat).
    rewrite map_map. apply map_ext. intros i.
    rewrite plus_days_plus_days by (assumption || lia). f_equal. lia. }
  rewrite E, IH by (assumption || lia). lia.
Qed.

(** ** More on loading *)

Lemma load_lines_cons_entry line lines holidays timezone day holiday :
  line_entry line = Some (timezone, day, holiday) ->
  load_lines (line :: lines) holidays
  = load_lines lines (add_entry holidays timezone day holiday).
Proof.
  unfold line_entry. cbn [load_lines].
  destruct (Str.split (Str.strip line)) as [|tz [|ds [|label [|? ?]]]];
    try discriminate.
  destruct (strptime_Ymd ds) as [dt|e]; [|discriminate].
  now intros [= <- <- <-].
Qed.

Lemma load_lines_cons_none line lines holidays :
  line_entry line = None ->
  load_lines (line :: lines) holidays = Err ValueError.
Proof.
  unfold line_entry. cbn [load_lines].
  destruct (Str.split (Str.strip line)) as [|tz [|ds [|label [|? ?]]]];
    try reflexivity.
  destruct (strptime_Ymd ds) as [dt|e] eqn:E; [discriminate|].
  intros _. apply strptime_Ymd_error in E. now subst e.
Qed.

Lemma accepted_line_entry line :
  accepted line = true <-> is_Some (line_entry line).
Proof.
  unfold accepted, line_entry.
  destruct (Str.split (Str.strip line)) as [|tz [|ds [|label [|? ?]]]];
    try (split; [discriminate|intros [? [=]]]).
  destruct (strptime_Ymd ds); split; eauto; try discriminate.
  intros [? [=]].
Qed.

Lemma load_lines_app lines1 : forall lines2 holidays,
  load_lines (lines1 ++ lines2) holidays
  = load_lines lines1 holidays ≫= load_lines lines2.
Proof.
  induction lines1 as [|line lines1 IH]; intros lines2 holidays;
    [reflexivity|].
  cbn [app]. destruct (line_entry line) as [[[tz d] label]|] eqn:E.
  - rewrite !(load_lines_cons_entry _ _ _ _ _ _ E). apply IH.
  - now rewrite !(load_lines_cons_none _ _ _ E).
Qed.

Lemma holiday_name_add_entry holidays timezone day holiday timezone' key :
  holiday_name (add_entry holidays timezone day holiday) timezone' key
  = if decide (timezone = timezone' /\ key = KDate day)
    then Some holiday
    else holiday_name holidays timezone' key.
Proof.
  unfold holiday_name, add_entry, contains.
  destruct (decide (timezone = timezone')) as [<-|Hne].
  - rewrite lookup_alter, decide_True by reflexivity.
    destruct (holidays !! timezone) as [sub|] eqn:E.
    + rewrite bool_decide_eq_true_2 by eauto. cbn [negb]. rewrite E.
      cbn. destruct (decide (key = KDate day)) as [->|Hk].
      * rewrite decide_True by auto. apply lookup_insert_eq.
      * rewrite decide_False by tauto. now apply lookup_insert_ne.
    + rewrite bool_decide_eq_false_2 by (intros [? [=]]). cbn [negb].
      rewrite lookup_insert_eq. cbn.
      destruct (decide (key = KDate day)) as [->|Hk].
      * rewrite decide_True by auto. apply lookup_insert_eq.
      * rewrite decide_False by tauto.
        rewrite lookup_insert_ne by congruence. apply lookup_empty.
  - rewrite decide_False by tauto. rewrite lookup_alter_ne by assumption.
    destruct (negb _); [|reflexivity].
    now rewrite lookup_insert_ne by assumption.
Qed.

Lemma is_holiday_holiday_name holidays key timezone :
  is_holiday holidays key timezone = true
  <-> is_Some (holiday_name holidays timezone key).
Proof.
  rewrite is_holiday_true. unfold holiday_name.
  destruct (holidays !! timezone) as [sub|]; cbn.
  - split; [intros (s & [= <-] & H); exact H|eauto].
  - split; [intros (s & [=] & _)|intros [? [=]]].
Qed.

Lemma lstrip_all_space s : all_space s = true -> Str.lstrip s = EmptyString.
Proof.
  induction s as [|c s IH]; [reflexivity|]. cbn [all_space Str.lstrip].
  intros H. apply andb_true_iff in H as [Hc Hs]. rewrite Hc. now apply IH.
Qed.

Lemma strip_all_space s : all_space s = true -> Str.strip s = EmptyString.
Proof.
  intros H. unfold Str.strip. now rewrite (lstrip_all_space s H).
Qed.

Lemma not_all_accepted lines :
  forallb accepted lines = false ->
  exists line, In line lines /\ accepted line = false.
Proof.
  induction lines as [|l ls IH]; [discriminate|]. cbn [forallb].
  destruct (accepted l) eqn:El; cbn [andb].
  - intros E. destruct (IH E) as (line & Hin & Hl).
    exists line. split; [now right|exact Hl].
  - intros _. exists l. split; [now left|exact El].
Qed.

Lemma load_lines_names timezone key : forall ls h0 h,
  load_lines ls h0 = Ok h ->
  (is_Some (holiday_name h timezone key)
   <-> is_Some (holiday_name h0 timezone key)
       \/ exists line day holiday,
            In line ls /\ line_entry line = Some (timezone, day, holiday)
            /\ key = KDate day).
Proof.
  induction ls as [|l ls IH]; intros h0 h Hl.
  - cbn in Hl. injection Hl as <-. split; [now left|].
    intros [H|(line & ? & ? & [] & _)]. exact H.
  - destruct (line_entry l) as [[[tz d] label]|] eqn:E.
    + rewrite (load_lines_cons_entry _ _ _ _ _ _ E) in Hl.
      rewrite (IH _ _ Hl), holiday_name_add_entry. split.
      * intros [H|(line & day & holiday & Hin & He & Hk)].
        -- case_decide as Hd; [|now left].
           destruct Hd as [-> ->]. right. exists l, d, label.
           split; [now left|]. split; [exact E|reflexivity].
        -- right. exists line, day, holiday. split; [now right|].
           split; assumption.
      * intros [H|(line & day & holiday & [->|Hin] & He & Hk)].
        -- left. case_decide; [eauto|exact H].
        -- left. rewrite E in He. injection He as -> -> ->.
           rewrite decide_True by (split; [reflexivity|assumption]). eauto.
        -- right. exists line, day, holiday. split; [exact Hin|].
           split; assumption.
    + rewrite (load_lines_cons_none _ _ _ E) in Hl. discriminate.
Qed.

Lemma load_holidays_keys lines holidays key timezone :
  load_holidays lines = Ok holidays ->
  (is_holiday holidays key timezone = true
   <-> exists line day holiday,
         In line (tail lines)
         /\ line_entry line = Some (timezone, day, holiday)
         /\ key = KDate day).
Proof.
  unfold load_holidays. intros Hload.
  rewrite is_holiday_holiday_name, (load_lines_names _ _ _ _ _ Hload).
  split.
  - intros [[x Hx]|H]; [|exact H]. unfold holiday_name in Hx.
    rewrite lookup_empty in Hx. discriminate.
  - intros H. now right.
Qed.

Lemma strptime_Ymd_valid s dt :
  strptime_Ymd s = Ok dt ->
  check_date_fields (year dt) (month dt) (day dt) = true
  /\ (hour dt, minute dt, second dt, microsecond dt) = (0, 0, 0, 0).
Proof.
  unfold strptime_Ymd.
  destruct (Str.match_Ymd s) as [[[[y m] d] rest]|]; [|discriminate].
  destruct rest; [|discriminate].
  destruct (check_date_fields y m d) eqn:E; [|discriminate].
  intros [= <-]. cbn. now rewrite E.
Qed.

Lemma line_entry_valid line timezone day holiday :
  line_entry line = Some (timezone, day, holiday) ->
  check_date_fields (date_year day) (date_month day) (date_day day) = true.
Proof.
  unfold line_entry.
  destruct (Str.split (Str.strip line)) as [|tz [|ds [|label [|? ?]]]];
    try discriminate.
  destruct (strptime_Ymd ds) as [dt|e] eqn:E; [|discriminate].
  intros [= <- <- <-]. now apply strptime_Ymd_valid in E.
Qed.

(** ** More on [strptime] *)

Lemma digit_digit_char v : 0 <= v <= 9 -> Str.digit (digit_char v) = Some v.
Proof.
  intros H.
  assert (Hc : v = 0 \/ v = 1 \/ v = 2 \/ v = 3 \/ v = 4 \/ v = 5 \/ v = 6
               \/ v = 7 \/ v = 8 \/ v = 9) by lia.
  destruct Hc as [->|[->|[->|[->|[->|[->|[->|[->|[->| ->]]]]]]]]];
    reflexivity.
Qed.

Lemma group_Y_format y rest :
  0 <= y <= 9999 ->
  Str.group_Y (two_digits (y / 100) (two_digits (y mod 100) rest))
  = [(y, rest)].
Proof.
  intros Hy. unfold two_digits, Str.group_Y.
  pose proof (Z.div_mod y 100 ltac:(lia)).
  pose proof (Z.mod_pos_bound y 100 ltac:(lia)).
  pose proof (Z.div_mod (y / 100) 10 ltac:(lia)).
  pose proof (Z.mod_pos_bound (y / 100) 10 ltac:(lia)).
  pose proof (Z.div_mod (y mod 100) 10 ltac:(lia)).
  pose proof (Z.mod_pos_bound (y mod 100) 10 ltac:(lia)).
  rewrite !digit_digit_char by lia. do 2 f_equal. lia.
Qed.

Lemma group_md_format (y m d : Z) :
  1 <= m <= 12 -> 1 <= d <= 31 ->
  head ('(m', s2) ← Str.group_m (two_digits m (two_digits d EmptyString));
        '(d', s3) ← Str.group_d s2;
        [(y, m', d', s3)])
  = Some (y, m, d, EmptyString).
Proof.
  intros Hm Hd.
  assert (Hc : d = 1 \/ d = 2 \/ d = 3 \/ d = 4 \/ d = 5 \/ d = 6 \/ d = 7
               \/ d = 8 \/ d = 9 \/ d = 10 \/ d = 11 \/ d = 12 \/ d = 13
               \/ d = 14 \/ d = 15 \/ d = 16 \/ d = 17 \/ d = 18 \/ d = 19
               \/ d = 20 \/ d = 21 \/ d = 22 \/ d = 23 \/ d = 24 \/ d = 25
               \/ d = 26 \/ d = 27 \/ d = 28 \/ d = 29 \/ d = 30 \/ d = 31)
    by lia.
  each_month m Hm;
    repeat (destruct Hc as [->|Hc]; [vm_compute; reflexivity|]);
    subst d; vm_compute; reflexivity.
Qed.

(** ** The properties *)

(** X1.  On a range with [from <= to] that fits in the calendar,
    [get_days_exclude_we] returns one less than the number of
    Monday-to-Friday days of the inclusive range: the day difference
    excludes the end day while the weekend count includes both ends.  In
    particular it is -1 on a range made of a single Saturday or Sunday. *)
Theorem get_days_exclude_we_weekdays_minus_one fuel from_date to_date :
  valid_datetime from_date = true -> valid_datetime to_date = true ->
  datetime_le from_date to_date = true ->
  range_fits from_date to_date ->
  (Z.to_nat (floor_days from_date to_date + 1) < fuel)%nat ->
  get_days_exclude_we fuel from_date to_date
  = Some (Ok (count_days is_weekday (day_range from_date to_date) - 1)).
Proof.
  intros Hf Ht Hle Hfit Hfuel. unfold get_days_exclude_we.
  pose proof (get_days_valid _ _ Hf Ht) as Hd. unfold get_days in Hd.
  destruct (datetime_sub to_date from_date) as [delta|e];
    cbn [mbind result_bind] in Hd; [|discriminate].
  injection Hd as Hd. unfold count_weekends.
  rewrite count_weekends_loop_day_loop.
  rewrite (day_loop_terminates _ _ _ _ _ _ Hf Ht Hfit eq_refl Hfuel).
  rewrite datetime_le_floor_days in Hle by assumption.
  apply Z.leb_le in Hle.
  pose proof (count_days_partition (day_range from_date to_date)) as Hp.
  rewrite day_range_length in Hp. do 2 f_equal. lia.
Qed.

Lemma get_days_exclude_we_weekdays_minus_one_witness :
  get_days_exclude_we 20 demo_from demo_to
  = Some (Ok (count_days is_weekday (day_range demo_from demo_to) - 1)).
Proof.
  apply get_days_exclude_we_weekdays_minus_one;
    [reflexivity|reflexivity|reflexivity| |vm_compute; lia].
  right. vm_compute. reflexivity.
Defined.

(** X2.  On a reversed range ([from > to]) [get_business_days] returns 0
    and [get_days_exclude_we] returns the negative day difference
    unchanged, since no weekend is counted. *)
Theorem reversed_range_results holidays fuel from_date to_date :
  valid_datetime from_date = true -> valid_datetime to_date = true ->
  datetime_gt from_date to_date = true -> (0 < fuel)%nat ->
  get_business_days holidays fuel from_date to_date = Some (Ok 0)
  /\ get_days_exclude_we fuel from_date to_date
     = Some (Ok (floor_days from_date to_date))
  /\ floor_days from_date to_date < 0.
Proof.
  intros Hf Ht Hgt Hfuel. destruct fuel as [|fuel]; [lia|].
  pose proof Hgt as Hle. rewrite datetime_gt_not_le in Hle.
  apply negb_true_iff in Hle. split; [|split].
  - unfold get_business_days. cbn [get_business_days_loop]. now rewrite Hle.
  - unfold get_days_exclude_we.
    pose proof (get_days_valid _ _ Hf Ht) as Hd. unfold get_days in Hd.
    destruct (datetime_sub to_date from_date) as [delta|e];
      cbn [mbind result_bind] in Hd; [|discriminate].
    injection Hd as Hd. unfold count_weekends. cbn [count_weekends_loop].
    rewrite Hle, Hd. do 2 f_equal. lia.
  - rewrite datetime_gt_floor_days in Hgt by assumption.
    now apply Z.ltb_lt.
Qed.

Lemma reversed_range_results_witness :
  get_business_days utc_calendar 1 demo_to demo_from = Some (Ok 0)
  /\ get_days_exclude_we 1 demo_to demo_from
     = Some (Ok (floor_days demo_to demo_from))
  /\ floor_days demo_to demo_from < 0.
Proof.
  apply reversed_range_results; [reflexivity|reflexivity|reflexivity|lia].
Defined.

(** X3.  Every day of a range is either counted by [count_weekends] or is
    a Monday-to-Friday day: on a range with [from <= to] the weekends and
    the business days returned by the two loops add up to at most the
    number of days of the inclusive range, with equality when the calendar
    was built by [load_holidays]. *)
Theorem weekends_and_business_days_add_up holidays fuel from_date to_date
  weekends business_days :
  valid_datetime from_date = true -> valid_datetime to_date = true ->
  datetime_le from_date to_date = true ->
  count_weekends fuel from_date to_date = Some (Ok weekends) ->
  get_business_days holidays fuel from_date to_date
  = Some (Ok business_days) ->
  0 <= weekends /\ 0 <= business_days
  /\ weekends + business_days <= floor_days from_date to_date + 1
  /\ (date_keyed holidays ->
      weekends + business_days = floor_days from_date to_date + 1).
Proof.
  intros Hf Ht Hle Hw Hb. unfold count_weekends in Hw.
  unfold get_business_days in Hb.
  rewrite count_weekends_loop_day_loop in Hw.
  rewrite get_business_days_loop_day_loop in Hb.
  apply day_loop_result in Hw; [|assumption..].
  apply day_loop_result in Hb; [|assumption..].
  rewrite datetime_le_floor_days in Hle by assumption.
  apply Z.leb_le in Hle.
  set (l := day_range from_date to_date) in *.
  pose proof (count_days_partition l) as Hp.
  pose proof (count_days_bounds is_weekend l).
  pose proof (count_days_bounds (is_business_day holidays "US/Eastern") l).
  pose proof (count_days_business_le holidays "US/Eastern" l).
  unfold l in Hp. rewrite day_range_length in Hp. fold l in Hp.
  clearbody l. repeat split; try lia.
  intros Hk.
  pose proof (count_days_business_date_keyed _ "US/Eastern" l Hk).
  lia.
Qed.

Lemma weekends_and_business_days_add_up_witness :
  0 <= 4 /\ 0 <= 8
  /\ 4 + 8 <= floor_days demo_from demo_to + 1
  /\ (date_keyed utc_calendar ->
      4 + 8 = floor_days demo_from demo_to + 1).
Proof.
  apply (weekends_and_business_days_add_up utc_calendar 20 demo_from demo_to);
    vm_compute; reflexivity.
Defined.

(** X5.  When [add_dt] returns, the result is a well-formed datetime with
    the same time of day, [n] days later in the calendar, and its weekday
    is the weekday of [d] advanced by [n] modulo 7. *)
Theorem add_dt_result d n shifted :
  valid_datetime d = true -> add_dt d n = Ok shifted ->
  valid_datetime shifted = true
  /\ toordinal shifted = toordinal d + n
  /\ (hour shifted, minute shifted, second shifted, microsecond shifted)
     = (hour d, minute d, second d, microsecond d)
  /\ weekday shifted = (weekday d + n) mod 7.
Proof.
  intros Hv. rewrite add_dt_spec by assumption.
  destruct (Z.ltb_spec 0 (toordinal d + n)); [|discriminate].
  destruct (Z.leb_spec (toordinal d + n) _MAXORDINAL); [|discriminate].
  cbn [andb]. intros Hok. injection Hok as <-.
  destruct (plus_days_valid d n Hv ltac:(lia)) as [Hv' Ho'].
  destruct (plus_days_clock d n) as (E1 & E2 & E3 & E4).
  rewrite E1, E2, E3, E4. repeat split; try assumption.
  unfold weekday. rewrite Ho', Zplus_mod_idemp_l. f_equal. lia.
Qed.

Lemma add_dt_result_witness :
  valid_datetime demo_to = true
  /\ toordinal demo_to = toordinal demo_from + 11
  /\ (hour demo_to, minute demo_to, second demo_to, microsecond demo_to)
     = (hour demo_from, minute demo_from, second demo_from,
        microsecond demo_from)
  /\ weekday demo_to = (weekday demo_from + 11) mod 7.
Proof.
  apply (add_dt_result demo_from 11 demo_to); reflexivity.
Defined.

(** X6.  Two additions compose: after [add_dt d a] has returned [d1],
    [add_dt d1 b] is [add_dt d (a + b)], whether that is a datetime or an
    [OverflowError]. *)
Theorem add_dt_add_dt d a b d1 :
  valid_datetime d = true -> add_dt d a = Ok d1 ->
  add_dt d1 b = add_dt d (a + b).
Proof.
  intros Hv. rewrite (add_dt_spec d a) by assumption.
  destruct (Z.ltb_spec 0 (toordinal d + a)); [|discriminate].
  destruct (Z.leb_spec (toordinal d + a) _MAXORDINAL); [|discriminate].
  cbn [andb]. intros Hok. injection Hok as <-.
  destruct (plus_days_valid d a Hv ltac:(lia)) as [Hv' Ho'].
  rewrite !add_dt_spec, Ho', Z.add_assoc by assumption.
  now rewrite plus_days_plus_days by (assumption || lia).
Qed.

Lemma add_dt_add_dt_witness :
  add_dt demo_to (-11) = add_dt demo_from (11 + -11).
Proof.
  apply (add_dt_add_dt demo_from 11 (-11) demo_to); reflexivity.
Defined.

(** X7.  [get_days] measures what [add_dt] added: if [add_dt d n] returns
    [shifted] then [get_days d shifted] is [n] and [get_days shifted d] is
    [-n]. *)
Theorem get_days_add_dt d n shifted :
  valid_datetime d = true -> add_dt d n = Ok shifted ->
  get_days d shifted = Ok n /\ get_days shifted d = Ok (- n).
Proof.
  intros Hv. rewrite add_dt_spec by assumption.
  destruct (Z.ltb_spec 0 (toordinal d + n)); [|discriminate].
  destruct (Z.leb_spec (toordinal d + n) _MAXORDINAL); [|discriminate].
  cbn [andb]. intros Hok. injection Hok as <-.
  destruct (plus_days_valid d n Hv ltac:(lia)) as [Hv' _].
  rewrite !get_days_valid by assumption.
  unfold floor_days. rewrite total_us_plus_days by (assumption || lia).
  split; f_equal.
  - replace (total_us d + n * US_PER_DAY - total_us d) with (n * US_PER_DAY)
      by lia.
    apply Z.div_mul. unfold US_PER_DAY. lia.
  - replace (total_us d - (total_us d + n * US_PER_DAY))
      with (- n * US_PER_DAY) by lia.
    apply Z.div_mul. unfold US_PER_DAY. lia.
Qed.

Lemma get_days_add_dt_witness :
  get_days demo_from demo_to = Ok 11 /\ get_days demo_to demo_from = Ok (- 11).
Proof.
  apply (get_days_add_dt demo_from 11 demo_to); reflexivity.
Defined.

(** X8.  Subtracting [n] days is adding [-n] days, for every datetime and
    every integer, including the cases where both raise [OverflowError]. *)
Theorem sub_dt_is_add_dt_of_opposite d n : sub_dt d n = add_dt d (- n).
Proof. apply sub_dt_add_dt. Qed.

(** X9.  The sign of [get_days]: it is non-negative exactly when
    [from_date <= to_date], it is 0 from a datetime to itself, and it is
    at most the difference of the calendar days. *)
Theorem get_days_sign from_date to_date :
  valid_datetime from_date = true -> valid_datetime to_date = true ->
  exists r,
    get_days from_date to_date = Ok r
    /\ (0 <= r <-> datetime_le from_date to_date = true)
    /\ r <= toordinal to_date - toordinal from_date
    /\ get_days from_date from_date = Ok 0.
Proof.
  intros Hf Ht. exists (floor_days from_date to_date).
  rewrite !get_days_valid by assumption.
  pose proof (floor_days_ordinal _ _ Hf Ht).
  rewrite datetime_le_floor_days by assumption.
  split; [reflexivity|]. split; [symmetry; apply Z.leb_le|].
  split; [lia|]. f_equal. unfold floor_days. now rewrite Z.sub_diag.
Qed.

Lemma get_days_sign_witness :
  exists r,
    get_days demo_from demo_to = Ok r
    /\ (0 <= r <-> datetime_le demo_from demo_to = true)
    /\ r <= toordinal demo_to - toordinal demo_from
    /\ get_days demo_from demo_from = Ok 0.
Proof.
  apply (get_days_sign demo_from demo_to); reflexivity.
Defined.

(** X10.  [get_days_since_epoch] is the number of calendar days since
    1970-01-01 whatever the time of day (the epoch is at midnight): the
    ordinal of the day minus 719163.  It is negative exactly for the
    datetimes of the years before 1970. *)
Theorem get_days_since_epoch_ordinal d :
  valid_datetime d = true ->
  get_days_since_epoch d = Ok (toordinal d - 719163)
  /\ (toordinal d - 719163 < 0 <-> year d < 1970).
Proof.
  intros Hv. split.
  - change (get_days_since_epoch d) with (get_days epoch d).
    rewrite get_days_valid by (assumption || reflexivity). f_equal.
    pose proof (tod_us_range d Hv) as Hr.
    unfold floor_days, total_us at 2. change (toordinal epoch) with 719163.
    change (tod_us epoch) with 0. unfold total_us, US_PER_DAY in *.
    replace (toordinal d * 86400000000 + tod_us d
             - (719163 * 86400000000 + 0))
      with (tod_us d + (toordinal d - 719163) * 86400000000) by lia.
    rewrite Z.div_add by lia. rewrite Z.div_small; lia.
  - pose proof (valid_datetime_fields d Hv) as [(Hy & Hm & Hd) _].
    pose proof (ymd2ord_year_bounds (year d) (month d) (day d) Hm Hd) as Hb.
    fold (toordinal d) in Hb.
    change 719163 with (_days_before_year 1970 + 1).
    split; intros H.
    + destruct (Z_lt_ge_dec (year d) 1970) as [|Hge]; [assumption|].
      pose proof (days_before_year_mono 1970 (year d) ltac:(lia)). lia.
    + pose proof (days_before_year_mono (year d + 1) 1970 ltac:(lia)). lia.
Qed.

Lemma get_days_since_epoch_ordinal_witness :
  get_days_since_epoch demo_noon = Ok (toordinal demo_noon - 719163)
  /\ (toordinal demo_noon - 719163 < 0 <-> year demo_noon < 1970).
Proof.
  apply (get_days_since_epoch_ordinal demo_noon). reflexivity.
Defined.

(** X11.  Day differences add up to within one day:
    [get_days a b + get_days b c] is [get_days a c] or one less. *)
Theorem get_days_triangle a b c :
  valid_datetime a = true -> valid_datetime b = true ->
  valid_datetime c = true ->
  exists x y z,
    get_days a b = Ok x /\ get_days b c = Ok y /\ get_days a c = Ok z
    /\ x + y <= z <= x + y + 1.
Proof.
  intros Ha Hb Hc.
  exists (floor_days a b), (floor_days b c), (floor_days a c).
  rewrite !get_days_valid by assumption. repeat split;
    unfold floor_days, US_PER_DAY;
    set (ta := total_us a); set (tb := total_us b); set (tc := total_us c);
    pose proof (Z.div_mod (tb - ta) 86400000000 ltac:(lia));
    pose proof (Z.mod_pos_bound (tb - ta) 86400000000 ltac:(lia));
    pose proof (Z.div_mod (tc - tb) 86400000000 ltac:(lia));
    pose proof (Z.mod_pos_bound (tc - tb) 86400000000 ltac:(lia));
    pose proof (Z.div_mod (tc - ta) 86400000000 ltac:(lia));
    pose proof (Z.mod_pos_bound (tc - ta) 86400000000 ltac:(lia));
    lia.
Qed.

Lemma get_days_triangle_witness :
  exists x y z,
    get_days demo_from demo_noon = Ok x /\ get_days demo_noon demo_to = Ok y
    /\ get_days demo_from demo_to = Ok z
    /\ x + y <= z <= x + y + 1.
Proof.
  apply (get_days_triangle demo_from demo_noon demo_to); reflexivity.
Defined.

(** X12.  Over a whole number of weeks (a range of [7 * k] days that fits
    in the calendar) [count_weekends] returns [2 * k], whatever the weekday
    of the first day, and with a calendar built by [load_holidays]
    [get_business_days] returns [5 * k]. *)
Theorem whole_weeks_counts holidays fuel from_date to_date k :
  valid_datetime from_date = true -> valid_datetime to_date = true ->
  range_fits from_date to_date ->
  floor_days from_date to_date + 1 = 7 * Z.of_nat k ->
  (7 * k < fuel)%nat ->
  count_weekends fuel from_date to_date = Some (Ok (2 * Z.of_nat k))
  /\ (date_keyed holidays ->
      get_business_days holidays fuel from_date to_date
      = Some (Ok (5 * Z.of_nat k))).
Proof.
  intros Hf Ht Hfit Hdays Hfuel.
  assert (Hfuel' : (Z.to_nat (floor_days from_date to_date + 1) < fuel)%nat)
    by lia.
  pose proof (floor_days_ordinal _ _ Hf Ht) as Hlast.
  pose proof (toordinal_range _ Ht) as Hto.
  assert (Hw : count_days is_weekend (day_range from_date to_date)
               = 2 * Z.of_nat k).
  { unfold day_range. rewrite Hdays.
    replace (Z.to_nat (7 * Z.of_nat k)) with (7 * k)%nat by lia.
    apply whole_weeks_weekend_days; [assumption|lia]. }
  unfold count_weekends, get_business_days.
  rewrite count_weekends_loop_day_loop, get_business_days_loop_day_loop.
  rewrite !(day_loop_terminates _ _ _ _ _ _ Hf Ht Hfit eq_refl Hfuel').
  split; [now rewrite Hw|]. intros Hk.
  rewrite count_days_business_date_keyed by assumption.
  pose proof (count_days_partition (day_range from_date to_date)) as Hp.
  rewrite day_range_length in Hp. do 2 f_equal. lia.
Qed.

Lemma whole_weeks_counts_witness :
  count_weekends 20 demo_from (mkdatetime 2023 1 4 0 0 0 0)
  = Some (Ok (2 * Z.of_nat 2)).
Proof.
  apply (proj1 (whole_weeks_counts utc_calendar 20 demo_from
                  (mkdatetime 2023 1 4 0 0 0 0) 2 eq_refl eq_refl
                  ltac:(right; vm_compute; reflexivity)
                  ltac:(vm_compute; reflexivity) ltac:(lia))).
Defined.

(** X13.  On a range with [from <= to], [get_business_days] is at most
    [get_days_exclude_we] plus one, and with a calendar built by
    [load_holidays] it is exactly [get_days_exclude_we] plus one: the
    business-day loop counts both ends of the range and, looking holidays
    up by datetime, leaves no day out. *)
Theorem business_days_vs_days_exclude_we holidays fuel from_date to_date
  business_days days_exclude_we :
  valid_datetime from_date = true -> valid_datetime to_date = true ->
  datetime_le from_date to_date = true ->
  get_business_days holidays fuel from_date to_date
  = Some (Ok business_days) ->
  get_days_exclude_we fuel from_date to_date = Some (Ok days_exclude_we) ->
  business_days <= days_exclude_we + 1
  /\ (date_keyed holidays -> business_days = days_exclude_we + 1).
Proof.
  intros Hf Ht Hle Hb He. unfold get_business_days in Hb.
  rewrite get_business_days_loop_day_loop in Hb.
  apply day_loop_result in Hb; [|assumption..].
  unfold get_days_exclude_we in He.
  pose proof (get_days_valid _ _ Hf Ht) as Hd. unfold get_days in Hd.
  destruct (datetime_sub to_date from_date) as [delta|e];
    cbn [mbind result_bind] in Hd; [|discriminate].
  injection Hd as Hd. unfold count_weekends in He.
  rewrite count_weekends_loop_day_loop in He.
  destruct (day_loop is_weekend fuel from_date to_date 0)
    as [[weekends|e]|] eqn:Hw; try discriminate.
  injection He as <-.
  apply day_loop_result in Hw; [|assumption..].
  rewrite datetime_le_floor_days in Hle by assumption.
  apply Z.leb_le in Hle.
  pose proof (count_days_partition (day_range from_date to_date)) as Hp.
  rewrite day_range_length in Hp.
  pose proof (count_days_business_le holidays "US/Eastern"
                (day_range from_date to_date)).
  split; [lia|]. intros Hk.
  pose proof (count_days_business_date_keyed _ "US/Eastern"
                (day_range from_date to_date) Hk).
  lia.
Qed.

Lemma business_days_vs_days_exclude_we_witness :
  8 <= 7 + 1 /\ (date_keyed utc_calendar -> 8 = 7 + 1).
Proof.
  apply (business_days_vs_days_exclude_we utc_calendar 20 demo_from demo_to);
    vm_compute; reflexivity.
Defined.

(** X14.  A later line overwrites an earlier one and disturbs nothing
    else: if the file loads and one more processable line is appended,
    the longer file loads too, the entry of that line's timezone and day
    is the line's holiday name, and every other entry is unchanged. *)
Theorem load_holidays_last_line_wins lines line holidays timezone day
  holiday :
  lines <> [] ->
  load_holidays lines = Ok holidays ->
  line_entry line = Some (timezone, day, holiday) ->
  exists longer,
    load_holidays (lines ++ [line]) = Ok longer
    /\ holiday_name longer timezone (KDate day) = Some holiday
    /\ is_holiday longer (KDate day) timezone = true
    /\ forall timezone' key,
         ~ (timezone = timezone' /\ key = KDate day) ->
         holiday_name longer timezone' key
         = holiday_name holidays timezone' key.
Proof.
  intros Hne Hload Hentry. destruct lines as [|header lines]; [easy|].
  unfold load_holidays in *. cbn [app tail] in *.
  exists (add_entry holidays timezone day holiday).
  assert (Hnew : holiday_name (add_entry holidays timezone day holiday)
                   timezone (KDate day) = Some holiday).
  { rewrite holiday_name_add_entry. now rewrite decide_True. }
  split; [|split; [exact Hnew|split]].
  - rewrite load_lines_app, Hload. cbn [mbind result_bind].
    now rewrite (load_lines_cons_entry _ _ _ _ _ _ Hentry).
  - apply is_holiday_holiday_name. rewrite Hnew. eauto.
  - intros tz' key Hother. rewrite holiday_name_add_entry.
    now rewrite decide_False.
Qed.

Lemma load_holidays_last_line_wins_witness :
  exists holidays longer,
    load_holidays demo_lines = Ok holidays
    /\ load_holidays (demo_lines ++ ["US/Eastern, 20221225, Xmas"%string])
       = Ok longer
    /\ holiday_name longer "US/Eastern" (KDate (mkdate 2022 12 25))
       = Some "Xmas"%string.
Proof.
  destruct (load_lines_accepted (tail demo_lines) ∅ eq_refl)
    as [holidays Hload].
  destruct (load_holidays_last_line_wins demo_lines
              "US/Eastern, 20221225, Xmas" holidays "US/Eastern"
              (mkdate 2022 12 25) "Xmas" ltac:(discriminate) Hload eq_refl)
    as (longer & Hlonger & Hname & _).
  exists holidays, longer. auto.
Defined.

(** X15.  [load_holidays] returns a calendar exactly when every line
    after the first is processable (three fields, the second a date that
    [strptime] accepts); otherwise it raises [ValueError], whichever line
    is at fault.  The first line is never looked at. *)
Theorem load_holidays_succeeds_iff lines :
  ((exists holidays, load_holidays lines = Ok holidays)
   <-> forallb accepted (tail lines) = true)
  /\ (load_holidays lines = Err ValueError
      <-> exists line, In line (tail lines) /\ accepted line = false).
Proof.
  unfold load_holidays.
  assert (Hbad : forall line, In line (tail lines) -> accepted line = false ->
                 load_lines (tail lines) ∅ = Err ValueError).
  { intros line Hin Hacc. apply (load_lines_rejected _ line); [assumption|].
    unfold accepted in Hacc. unfold rejected.
    destruct (Str.split (Str.strip line)) as [|tz [|ds [|label [|? ?]]]];
      try exact I.
    destruct (strptime_Ymd ds); [discriminate|]. intros dt [=]. }
  assert (Hcases : forallb accepted (tail lines) = true
                   \/ exists line, In line (tail lines)
                                   /\ accepted line = false).
  { destruct (forallb accepted (tail lines)) eqn:E; [now left|right].
    now apply not_all_accepted. }
  split; split.
  - intros [holidays Hok]. destruct Hcases as [|(line & Hin & Hl)];
      [assumption|]. rewrite (Hbad line Hin Hl) in Hok. discriminate.
  - apply load_lines_accepted.
  - intros Herr. destruct Hcases as [Hall|]; [|assumption].
    destruct (load_lines_accepted _ ∅ Hall) as [h Hh]. congruence.
  - intros (line & Hin & Hl). now apply (Hbad line).
Qed.

(** X16.  The days of a loaded calendar are exactly the days of the file:
    after [load_holidays], [is_holiday] answers true for a key and a
    timezone exactly when the key is a [date] and some line after the
    first files that day under that timezone. *)
Theorem load_holidays_membership lines holidays key timezone :
  load_holidays lines = Ok holidays ->
  (is_holiday holidays key timezone = true
   <-> exists line day holiday,
         In line (tail lines)
         /\ line_entry line = Some (timezone, day, holiday)
         /\ key = KDate day).
Proof.
  apply load_holidays_keys.
Qed.

Lemma load_holidays_membership_witness :
  exists holidays,
    load_holidays demo_lines = Ok holidays
    /\ is_holiday holidays (KDate (mkdate 2022 12 25)) "US/Eastern" = true.
Proof.
  destruct (load_lines_accepted (tail demo_lines) ∅ eq_refl)
    as [holidays Hload].
  exists holidays. split; [exact Hload|].
  apply (load_holidays_membership demo_lines holidays
           (KDate (mkdate 2022 12 25)) "US/Eastern" Hload).
  exists "US/Eastern, 20221225, Christmas
"%string, (mkdate 2022 12 25), "Christmas"%string.
  split; [left; reflexivity|]. split; reflexivity.
Defined.

(** X17.  A blank line after the header (an empty line or white space
    only, such as a trailing newline at the end of the file) makes
    [load_holidays] raise [ValueError]: stripped, it splits into one empty
    field. *)
Theorem load_holidays_blank_line lines line :
  In line (tail lines) -> all_space line = true ->
  load_holidays lines = Err ValueError.
Proof.
  intros Hin Hblank. unfold load_holidays.
  apply (load_lines_rejected _ line); [assumption|].
  unfold rejected. rewrite (strip_all_space line Hblank). exact I.
Qed.

Lemma load_holidays_blank_line_witness :
  load_holidays (demo_lines ++ ["
"%string]) = Err ValueError.
Proof.
  apply (load_holidays_blank_line _ "
"%string); [|reflexivity].
  cbn. right. right. left. reflexivity.
Defined.

(** X18.  Every day of a loaded calendar is a real date: a key for which
    [is_holiday] answers true after [load_holidays] is a [date] whose year
    is between 1 and 9999, whose month is between 1 and 12 and whose day
    exists in that month. *)
Theorem load_holidays_keys_are_dates lines holidays key timezone :
  load_holidays lines = Ok holidays ->
  is_holiday holidays key timezone = true ->
  exists day,
    key = KDate day
    /\ check_date_fields (date_year day) (date_month day) (date_day day)
       = true.
Proof.
  intros Hload Hh.
  apply (load_holidays_keys _ _ _ _ Hload) in Hh
    as (line & day & holiday & _ & Hentry & ->).
  exists day. split; [reflexivity|]. now apply line_entry_valid in Hentry.
Qed.

Lemma load_holidays_keys_are_dates_witness :
  exists holidays day,
    load_holidays demo_lines = Ok holidays
    /\ KDate (mkdate 2023 1 1) = KDate day
    /\ check_date_fields (date_year day) (date_month day) (date_day day)
       = true.
Proof.
  destruct (load_lines_accepted (tail demo_lines) ∅ eq_refl)
    as [holidays Hload].
  assert (Hh : is_holiday holidays (KDate (mkdate 2023 1 1)) "US/Eastern"
               = true).
  { apply (load_holidays_keys demo_lines holidays _ _ Hload).
    exists "US/Eastern, 20230101, New Year
"%string, (mkdate 2023 1 1), "New Year"%string.
    split; [right; left; reflexivity|]. split; reflexivity. }
  destruct (load_holidays_keys_are_dates demo_lines holidays _ _ Hload Hh)
    as (day & Hk & Hv).
  exists holidays, day. auto.
Defined.

(** X19.  Every date of the calendar, written with eight digits as
    [YYYYMMDD], is read back by [strptime(_, "%Y%m%d")] as that date at
    midnight. *)
Theorem strptime_Ymd_format y m d :
  check_date_fields y m d = true ->
  strptime_Ymd (format_Ymd y m d) = Ok (mkdatetime y m d 0 0 0 0).
Proof.
  intros Hc. pose proof Hc as Hf.
  unfold check_date_fields, MINYEAR, MAXYEAR in Hf.
  repeat (apply andb_true_iff in Hf as [Hf ?]).
  repeat match goal with H : (_ <=? _) = true |- _ => apply Z.leb_le in H end.
  pose proof (days_in_month_pos y m ltac:(lia)).
  unfold strptime_Ymd, Str.match_Ymd, format_Ymd.
  rewrite group_Y_format by lia. cbn [mbind list_bind app].
  rewrite app_nil_r, group_md_format by lia. now rewrite Hc.
Qed.

Lemma strptime_Ymd_format_witness :
  strptime_Ymd (format_Ymd 2022 12 25) = Ok (mkdatetime 2022 12 25 0 0 0 0).
Proof. apply strptime_Ymd_format. reflexivity. Defined.

(** X20.  [get_business_days] reads the calendar under "US/Eastern" only:
    two calendars with the same dictionary for that timezone give the same
    outcome on every range, whatever they hold for other timezones. *)
Theorem get_business_days_only_us_eastern holidays1 holidays2 fuel
  from_date to_date :
  holidays1 !! "US/Eastern"%string = holidays2 !! "US/Eastern"%string ->
  get_business_days holidays1 fuel from_date to_date
  = get_business_days holidays2 fuel from_date to_date.
Proof.
  intros Hsame. unfold get_business_days. generalize 0.
  revert from_date.
  induction fuel as [|fuel IH]; intros current_date n; [reflexivity|].
  cbn [get_business_days_loop].
  assert (E : is_holiday holidays1 (KDatetime current_date) "US/Eastern"
              = is_holiday holidays2 (KDatetime current_date) "US/Eastern")
    by (unfold is_holiday, contains; now rewrite Hsame).
  rewrite E. destruct (datetime_le current_date to_date); [|reflexivity].
  destruct (_ ≫= _); [apply IH|reflexivity].
Qed.

Lemma get_business_days_only_us_eastern_witness :
  get_business_days utc_calendar 20 demo_from demo_to
  = get_business_days ∅ 20 demo_from demo_to.
Proof.
  apply get_business_days_only_us_eastern. vm_compute. reflexivity.
Defined.

(** * Holidays, and datetime objects of either kind *)

(** ** Business days and holidays *)

(** The days from Monday to Friday are the business days and the holidays
    among them. *)
Lemma count_days_weekday_split holidays timezone (l : list datetime) :
  count_days is_weekday l
  = count_days (spec_business_day holidays timezone) l
    + count_days (weekday_holiday holidays timezone) l.
Proof.
  induction l as [|d l IH]; [reflexivity|]. rewrite !(count_days_cons _ d).
  unfold is_weekday at 1, spec_business_day at 1, weekday_holiday at 1.
  destruct (weekday d <? 5),
    (is_holiday holidays (KDate (datetime_date d)) timezone); cbn; lia.
Qed.

(** C1 fails in the code.  [businessDays] follows the claim: the days of
    the range from Monday to Friday whose date is not a holiday in the
    caller's timezone.  On a calendar that [load_holidays] built,
    [get_business_days] returns more whenever such a holiday falls in the
    range: its result is [businessDays] plus the number of days of the range
    from Monday to Friday that are holidays, for every timezone, because its
    look-up never finds a holiday.  The call returns that sum whenever the
    loop can step through the range. *)
Theorem get_business_days_counts_holidays lines holidays
  from_date to_date timezone :
  load_holidays lines = Ok holidays ->
  valid_datetime from_date = true -> valid_datetime to_date = true ->
  (forall fuel r,
     get_business_days holidays fuel from_date to_date = Some (Ok r) ->
     r = businessDays holidays from_date to_date timezone
         + count_days (weekday_holiday holidays timezone)
             (day_range from_date to_date))
  /\ (range_fits from_date to_date ->
      forall fuel,
        (Z.to_nat (floor_days from_date to_date + 1) < fuel)%nat ->
        get_business_days holidays fuel from_date to_date
        = Some (Ok (businessDays holidays from_date to_date timezone
                    + count_days (weekday_holiday holidays timezone)
                        (day_range from_date to_date)))).
Proof.
  intros Hload Hf Ht.
  assert (Hk : date_keyed holidays)
    by (apply (load_lines_date_keyed _ _ _ date_keyed_empty Hload)).
  unfold businessDays. rewrite <- count_days_weekday_split.
  rewrite <- (count_days_business_date_keyed holidays "US/Eastern" _ Hk).
  unfold get_business_days. split.
  - intros fuel r. rewrite get_business_days_loop_day_loop. intros H.
    apply day_loop_result in H; [|assumption..]. lia.
  - intros Hfit fuel Hfuel. rewrite get_business_days_loop_day_loop.
    now rewrite (day_loop_terminates _ _ _ _ _ _ Hf Ht Hfit eq_refl Hfuel).
Qed.

(** The failing input: the holiday file lists Monday 26 December 2022 under
    "US/Eastern", and the range is that day.  The claim gives 0 business
    days, the code returns 1. *)
Lemma get_business_days_counts_holidays_witness :
  exists holidays,
    load_holidays boxing_day_lines = Ok holidays
    /\ is_holiday holidays (KDate (datetime_date boxing_day)) "US/Eastern"
       = true
    /\ businessDays holidays boxing_day boxing_day "US/Eastern" = 0
    /\ get_business_days holidays 2 boxing_day boxing_day = Some (Ok 1).
Proof.
  destruct (load_lines_accepted (tail boxing_day_lines) ∅ eq_refl)
    as [holidays Hload].
  exists holidays. split; [exact Hload|].
  assert (Hh : is_holiday holidays (KDate (datetime_date boxing_day))
                 "US/Eastern" = true).
  { apply (load_holidays_keys _ _ _ _ Hload).
    exists (nth 1 boxing_day_lines ""%string), (mkdate 2022 12 26),
      "Boxing Day"%string.
    split; [now left|]. split; reflexivity. }
  split; [exact Hh|].
  assert (Hr : day_range boxing_day boxing_day = [boxing_day])
    by reflexivity.
  assert (Hb : businessDays holidays boxing_day boxing_day "US/Eastern" = 0).
  { unfold businessDays. rewrite Hr. unfold count_days. cbn [List.filter].
    unfold spec_business_day. rewrite Hh, andb_false_r. reflexivity. }
  split; [exact Hb|].
  destruct (get_business_days_counts_holidays boxing_day_lines holidays
              boxing_day boxing_day "US/Eastern" Hload eq_refl eq_refl)
    as [_ Hrun].
  rewrite (Hrun ltac:(right; vm_compute; reflexivity) 2%nat
             ltac:(vm_compute; lia)), Hb.
  rewrite Hr. unfold count_days. cbn [List.filter].
  unfold weekday_holiday. rewrite Hh. reflexivity.
Defined.

(** ** Durations in microseconds *)

Lemma td_us_of_us x : td_us (timedelta_of_us x) = x.
Proof.
  unfold td_us, timedelta_of_us, US_PER_DAY.
  cbn [days seconds microseconds].
  pose proof (Z.div_mod x 86400000000 ltac:(lia)).
  pose proof (Z.mod_pos_bound x 86400000000 ltac:(lia)).
  pose proof (Z.div_mod (x mod 86400000000) 1000000 ltac:(lia)).
  pose proof (Z.mod_pos_bound (x mod 86400000000) 1000000 ltac:(lia)).
  assert (E : (x mod 86400000000) mod 1000000 = x mod 1000000).
  { apply (Z.mod_unique _ _
      (x / 86400000000 * 86400 + x mod 86400000000 / 1000000)); lia. }
  lia.
Qed.

Lemma timedelta_of_us_td_us t :
  0 <= seconds t < 86400 -> 0 <= microseconds t < 1000000 ->
  timedelta_of_us (td_us t) = t.
Proof.
  intros Hs Hu. destruct t as [d s u]. cbn [seconds microseconds] in *.
  unfold timedelta_of_us, td_us, US_PER_DAY. cbn [days seconds microseconds].
  assert (Ed : ((d * 86400 + s) * 1000000 + u) / 86400000000 = d).
  { symmetry. apply (Z.div_unique _ _ _ (s * 1000000 + u)); lia. }
  assert (Em : ((d * 86400 + s) * 1000000 + u) mod 86400000000
               = s * 1000000 + u).
  { symmetry. apply (Z.mod_unique _ _ d); lia. }
  assert (Eu : ((d * 86400 + s) * 1000000 + u) mod 1000000 = u).
  { symmetry. apply (Z.mod_unique _ _ (d * 86400 + s)); lia. }
  rewrite Ed, Em, Eu. f_equal.
  symmetry. apply (Z.div_unique _ _ _ u); lia.
Qed.

Lemma timedelta_new_us d s u :
  timedelta_new d s u
  = if 999999999
       <? Z.abs (((d * 86400 + s) * 1000000 + u) / US_PER_DAY)
    then Err OverflowError
    else Ok (timedelta_of_us ((d * 86400 + s) * 1000000 + u)).
Proof.
  rewrite timedelta_new_normal. unfold timedelta_of_us, US_PER_DAY.
  set (x := (d * 86400 + s) * 1000000 + u).
  set (q := s + u / 1000000).
  pose proof (Z.div_mod u 1000000 ltac:(lia)) as Hu.
  pose proof (Z.mod_pos_bound u 1000000 ltac:(lia)) as Bu.
  pose proof (Z.div_mod q 86400 ltac:(lia)) as Hq.
  pose proof (Z.mod_pos_bound q 86400 ltac:(lia)) as Bq.
  assert (Ex : x = (d + q / 86400) * 86400000000
                   + (q mod 86400 * 1000000 + u mod 1000000))
    by (subst x q; lia).
  assert (Ed : x / 86400000000 = d + q / 86400).
  { symmetry.
    apply (Z.div_unique _ _ _ (q mod 86400 * 1000000 + u mod 1000000)); lia. }
  assert (Em : x mod 86400000000 = q mod 86400 * 1000000 + u mod 1000000).
  { symmetry. apply (Z.mod_unique _ _ (d + q / 86400)); lia. }
  assert (Es : x mod 86400000000 / 1000000 = q mod 86400).
  { rewrite Em. symmetry. apply (Z.div_unique _ _ _ (u mod 1000000)); lia. }
  assert (Eu : x mod 1000000 = u mod 1000000).
  { symmetry.
    apply (Z.mod_unique _ _ ((d + q / 86400) * 86400 + q mod 86400)); lia. }
  now rewrite Ed, Es, Eu.
Qed.

Lemma timedelta_new_us_small d s u :
  Z.abs ((d * 86400 + s) * 1000000 + u) <= 4000000 * US_PER_DAY ->
  timedelta_new d s u = Ok (timedelta_of_us ((d * 86400 + s) * 1000000 + u)).
Proof.
  intros H. rewrite timedelta_new_us.
  set (x := (d * 86400 + s) * 1000000 + u) in *.
  pose proof (Z.div_mod x US_PER_DAY ltac:(unfold US_PER_DAY; lia)).
  pose proof (Z.mod_pos_bound x US_PER_DAY ltac:(unfold US_PER_DAY; lia)).
  unfold US_PER_DAY in *.
  destruct (Z.ltb_spec 999999999 (Z.abs (x / 86400000000)));
    [lia|reflexivity].
Qed.

Lemma days_of_us_neg x : (days (timedelta_of_us x) <? 0) = (x <? 0).
Proof.
  unfold timedelta_of_us, US_PER_DAY. cbn [days].
  pose proof (Z.div_mod x 86400000000 ltac:(lia)).
  pose proof (Z.mod_pos_bound x 86400000000 ltac:(lia)).
  destruct (Z.ltb_spec (x / 86400000000) 0); destruct (Z.ltb_spec x 0);
    try reflexivity; lia.
Qed.

Lemma timedelta_bool_of_us x :
  timedelta_bool (timedelta_of_us x) = negb (x =? 0).
Proof.
  pose proof (td_us_of_us x) as E. unfold td_us in E.
  unfold timedelta_bool.
  destruct (Z.eqb_spec x 0) as [->|Hx]; [reflexivity|]. cbn [negb].
  destruct (Z.eqb_spec (days (timedelta_of_us x)) 0) as [E1|]; [|reflexivity].
  destruct (Z.eqb_spec (seconds (timedelta_of_us x)) 0) as [E2|];
    [|reflexivity].
  destruct (Z.eqb_spec (microseconds (timedelta_of_us x)) 0) as [E3|];
    [|reflexivity].
  lia.
Qed.

(** ** Datetime objects: subtraction and comparison *)

Lemma valid_pydatetime_fields a :
  valid_pydatetime a = true -> valid_datetime (fields a) = true.
Proof. unfold valid_pydatetime. intros H. now apply andb_true_iff in H. Qed.

Lemma valid_offset_bounds t :
  valid_offset t = true ->
  0 <= seconds t < 86400 /\ 0 <= microseconds t < 1000000
  /\ - US_PER_DAY < td_us t < US_PER_DAY.
Proof.
  unfold valid_offset. intros H. repeat (apply andb_true_iff in H as [H ?]).
  repeat match goal with
         | H : (_ <=? _) = true |- _ => apply Z.leb_le in H
         | H : (_ <? _) = true |- _ => apply Z.ltb_lt in H
         end.
  lia.
Qed.

Lemma valid_pydatetime_offset a offset :
  valid_pydatetime a = true -> utcoffset a = Some offset ->
  valid_offset offset = true.
Proof.
  unfold valid_pydatetime. intros H E. rewrite E in H.
  now apply andb_true_iff in H.
Qed.

Lemma total_us_bounds d :
  valid_datetime d = true -> 0 < total_us d < 3652060 * US_PER_DAY.
Proof.
  intros H. pose proof (toordinal_range d H). pose proof (tod_us_range d H).
  unfold total_us, US_PER_DAY, _MAXORDINAL in *. lia.
Qed.

Lemma datetime_sub_us a b :
  valid_datetime a = true -> valid_datetime b = true ->
  datetime_sub a b = Ok (timedelta_of_us (total_us a - total_us b)).
Proof.
  intros Ha Hb. pose proof (total_us_bounds a Ha).
  pose proof (total_us_bounds b Hb). unfold datetime_sub.
  replace (total_us a - total_us b)
    with (((toordinal a - toordinal b) * 86400
           + (tod_seconds a - tod_seconds b)) * 1000000
          + (microsecond a - microsecond b))
    in * by (unfold total_us, tod_us, US_PER_DAY; lia).
  apply timedelta_new_us_small.
  unfold total_us, tod_us, US_PER_DAY in *. lia.
Qed.

Lemma instant_bounds a :
  valid_pydatetime a = true ->
  - US_PER_DAY < instant a < 3652061 * US_PER_DAY.
Proof.
  intros H. pose proof (total_us_bounds _ (valid_pydatetime_fields a H)).
  unfold instant. destruct (utcoffset a) as [off|] eqn:E.
  - pose proof (valid_offset_bounds off (valid_pydatetime_offset a off H E)).
    unfold US_PER_DAY in *. lia.
  - unfold US_PER_DAY in *. lia.
Qed.

Lemma timedelta_add_us a b :
  Z.abs (td_us a + td_us b) <= 4000000 * US_PER_DAY ->
  timedelta_add a b = Ok (timedelta_of_us (td_us a + td_us b)).
Proof.
  intros H. unfold timedelta_add.
  replace (td_us a + td_us b)
    with (((days a + days b) * 86400 + (seconds a + seconds b)) * 1000000
          + (microseconds a + microseconds b)) in *
    by (unfold td_us; lia).
  now apply timedelta_new_us_small.
Qed.

Lemma timedelta_neg_us a :
  Z.abs (td_us a) <= 4000000 * US_PER_DAY ->
  timedelta_neg a = Ok (timedelta_of_us (- td_us a)).
Proof.
  intros H. unfold timedelta_neg.
  replace (- td_us a)
    with ((- days a * 86400 + - seconds a) * 1000000 + - microseconds a)
    by (unfold td_us; lia).
  apply timedelta_new_us_small. unfold td_us in H. lia.
Qed.

Lemma timedelta_sub_us a b :
  Z.abs (td_us a - td_us b) <= 4000000 * US_PER_DAY ->
  timedelta_sub a b = Ok (timedelta_of_us (td_us a - td_us b)).
Proof.
  intros H. unfold timedelta_sub.
  replace (td_us a - td_us b)
    with (((days a - days b) * 86400 + (seconds a - seconds b)) * 1000000
          + (microseconds a - microseconds b)) in *
    by (unfold td_us; lia).
  now apply timedelta_new_us_small.
Qed.

(** The difference of two datetimes of the same kind is the difference of
    their instants. *)
Lemma py_sub_same_kind a b :
  valid_pydatetime a = true -> valid_pydatetime b = true ->
  same_kind a b = true ->
  py_sub a b = Ok (timedelta_of_us (instant a - instant b)).
Proof.
  intros Ha Hb Hk. unfold py_sub.
  rewrite datetime_sub_us by now apply valid_pydatetime_fields.
  cbn [mbind result_bind]. unfold same_kind in Hk.
  pose proof (total_us_bounds _ (valid_pydatetime_fields a Ha)) as Ta.
  pose proof (total_us_bounds _ (valid_pydatetime_fields b Hb)) as Tb.
  unfold instant.
  destruct (utcoffset a) as [myoff|] eqn:Ea;
    destruct (utcoffset b) as [otoff|] eqn:Eb; try discriminate.
  - pose proof (valid_offset_bounds _ (valid_pydatetime_offset a _ Ha Ea))
      as (Hs1 & Hu1 & Hb1).
    pose proof (valid_offset_bounds _ (valid_pydatetime_offset b _ Hb Eb))
      as (Hs2 & Hu2 & Hb2).
    destruct (decide (myoff = otoff)) as [->|Hne].
    + do 2 f_equal. lia.
    + rewrite timedelta_add_us
        by (rewrite td_us_of_us; unfold US_PER_DAY in *; lia).
      cbn [mbind result_bind].
      rewrite timedelta_sub_us
        by (rewrite !td_us_of_us; unfold US_PER_DAY in *; lia).
      rewrite !td_us_of_us. do 2 f_equal. lia.
  - do 2 f_equal. lia.
Qed.

Lemma py_sub_mixed a b :
  valid_pydatetime a = true -> valid_pydatetime b = true ->
  same_kind a b = false -> py_sub a b = Err TypeError.
Proof.
  intros Ha Hb Hk. unfold py_sub.
  rewrite datetime_sub_us by now apply valid_pydatetime_fields.
  cbn [mbind result_bind]. unfold same_kind in Hk.
  destruct (utcoffset a), (utcoffset b); try discriminate; reflexivity.
Qed.

Lemma py_le_mixed a b : same_kind a b = false -> py_le a b = Err TypeError.
Proof.
  unfold same_kind, py_le, py_cmp.
  destruct (utcoffset a), (utcoffset b); try discriminate; reflexivity.
Qed.

Lemma py_floor_days_nonneg a b :
  0 <= py_floor_days a b <-> instant a <= instant b.
Proof.
  unfold py_floor_days, US_PER_DAY. split; intros H.
  - pose proof (Z.div_mod (instant b - instant a) 86400000000 ltac:(lia)).
    pose proof (Z.mod_pos_bound (instant b - instant a) 86400000000
                  ltac:(lia)).
    lia.
  - apply Z.div_pos; lia.
Qed.

Lemma py_le_same_kind a b :
  valid_pydatetime a = true -> valid_pydatetime b = true ->
  same_kind a b = true ->
  py_le a b = Ok (0 <=? py_floor_days a b).
Proof.
  intros Ha Hb Hk. pose proof (py_floor_days_nonneg a b) as Hn.
  assert (Hfields : (utcoffset a = utcoffset b) ->
                    py_le a b = Ok (0 <=? py_floor_days a b)).
  { intros Eoff. unfold py_le, py_cmp.
    assert (E : _cmp (fields a) (fields b)
                = (instant a ?= instant b)).
    { rewrite cmp_total_us by now apply valid_pydatetime_fields.
      unfold instant. rewrite Eoff.
      generalize (match utcoffset b with
                  | Some offset => td_us offset
                  | None => 0
                  end).
      intros o.
      destruct (Z.compare_spec (total_us (fields a)) (total_us (fields b)));
        symmetry;
        [apply Z.compare_eq_iff|apply Z.compare_lt_iff|apply Z.compare_gt_iff];
        lia. }
    assert (R : Ok (_cmp (fields a) (fields b)) ≫=
                  (fun c => Ok match c with Gt => false | _ => true end)
                = Ok (0 <=? py_floor_days a b)).
    { cbn [mbind result_bind]. rewrite E. f_equal.
      destruct (Z.compare_spec (instant a) (instant b));
        destruct (Z.leb_spec 0 (py_floor_days a b)); try reflexivity; lia. }
    destruct (utcoffset a) as [myoff|], (utcoffset b) as [otoff|];
      try discriminate; [|exact R].
    injection Eoff as ->. now rewrite decide_True. }
  unfold same_kind in Hk.
  destruct (utcoffset a) as [myoff|] eqn:Ea;
    destruct (utcoffset b) as [otoff|] eqn:Eb; try discriminate.
  - destruct (decide (myoff = otoff)) as [->|Hne]; [now apply Hfields|].
    unfold py_le, py_cmp. rewrite Ea, Eb, decide_False by assumption.
    rewrite py_sub_same_kind
      by (assumption || (unfold same_kind; now rewrite Ea, Eb)).
    cbn [mbind result_bind].
    rewrite days_of_us_neg, timedelta_bool_of_us. f_equal.
    destruct (Z.ltb_spec (instant a - instant b) 0);
      destruct (Z.eqb_spec (instant a - instant b) 0);
      destruct (Z.leb_spec 0 (py_floor_days a b)); cbn [negb];
      try reflexivity; lia.
  - now apply Hfields.
Qed.

(** ** Datetime objects: the loops *)

Lemma dynamic_add_dt a n :
  Dynamic.add_dt a n
  = d ← add_dt (fields a) n; Ok (mkpy d (utcoffset a)).
Proof.
  unfold Dynamic.add_dt, add_dt, py_add.
  now destruct (timedelta_new n 0 0).
Qed.

Lemma dynamic_sub_dt a n :
  Dynamic.sub_dt a n
  = d ← sub_dt (fields a) n; Ok (mkpy d (utcoffset a)).
Proof.
  unfold Dynamic.sub_dt, sub_dt, datetime_sub_timedelta, py_add.
  destruct (timedelta_new n 0 0) as [delta|]; [|reflexivity].
  cbn [mbind result_bind]. now destruct (timedelta_neg delta).
Qed.

Lemma dynamic_count_weekends_loop fuel current_date to_date weekends :
  Dynamic.count_weekends_loop fuel current_date to_date weekends
  = py_day_loop (fun d => is_weekend (fields d)) fuel current_date to_date
      weekends.
Proof.
  revert current_date weekends.
  induction fuel as [|fuel IH]; intros current_date weekends; [reflexivity|].
  cbn [Dynamic.count_weekends_loop py_day_loop]. unfold is_weekend at 1.
  destruct (py_le current_date to_date) as [[|]|]; try reflexivity.
  fold (Dynamic.add_dt current_date 1).
  destruct (Dynamic.add_dt current_date 1); [apply IH|reflexivity].
Qed.

(** The test of the business-day loop on a datetime object. *)
Lemma dynamic_get_business_days_loop holidays fuel current_date to_date n :
  Dynamic.get_business_days_loop holidays fuel current_date to_date n
  = py_day_loop
      (fun d => (weekday (fields d) <? 5)
                && negb (is_holiday holidays (py_key d) "US/Eastern"))
      fuel current_date to_date n.
Proof.
  revert current_date n.
  induction fuel as [|fuel IH]; intros current_date n; [reflexivity|].
  cbn [Dynamic.get_business_days_loop py_day_loop].
  destruct (py_le current_date to_date) as [[|]|]; try reflexivity.
  fold (Dynamic.add_dt current_date 1).
  destruct (Dynamic.add_dt current_date 1); [apply IH|reflexivity].
Qed.

Lemma py_step a :
  valid_pydatetime a = true -> toordinal (fields a) < _MAXORDINAL ->
  let next := mkpy (plus_days (fields a) 1) (utcoffset a) in
  Dynamic.add_dt a 1 = Ok next
  /\ valid_pydatetime next = true
  /\ toordinal (fields next) = toordinal (fields a) + 1
  /\ instant next = instant a + US_PER_DAY.
Proof.
  intros Hv Hmax next. pose proof (valid_pydatetime_fields a Hv) as Hf.
  pose proof (toordinal_range _ Hf) as Ho.
  destruct (plus_days_valid (fields a) 1 Hf ltac:(lia)) as [Hv' Ho'].
  split; [|split; [|split]].
  - rewrite dynamic_add_dt, add_dt_spec by assumption.
    destruct (Z.ltb_spec 0 (toordinal (fields a) + 1)); [|lia].
    destruct (Z.leb_spec (toordinal (fields a) + 1) _MAXORDINAL); [|lia].
    reflexivity.
  - unfold valid_pydatetime in *. subst next. cbn [fields utcoffset].
    apply andb_true_iff in Hv as [_ Hoff]. now rewrite Hv', Hoff.
  - exact Ho'.
  - unfold instant. subst next. cbn [fields utcoffset].
    rewrite total_us_plus_days by (assumption || lia). lia.
Qed.

Lemma py_step_overflow a :
  valid_pydatetime a = true -> toordinal (fields a) = _MAXORDINAL ->
  Dynamic.add_dt a 1 = Err OverflowError.
Proof.
  intros Hv Hmax. pose proof (valid_pydatetime_fields a Hv) as Hf.
  rewrite dynamic_add_dt, add_dt_spec by assumption.
  destruct (Z.leb_spec (toordinal (fields a) + 1) _MAXORDINAL); [lia|].
  now rewrite andb_false_r.
Qed.

Lemma py_day_range_nil a b : py_floor_days a b < 0 -> py_day_range a b = [].
Proof.
  intros H. unfold py_day_range.
  now replace (Z.to_nat (py_floor_days a b + 1)) with 0%nat by lia.
Qed.

Lemma py_day_range_cons a b :
  valid_pydatetime a = true -> 0 <= py_floor_days a b ->
  toordinal (fields a) < _MAXORDINAL ->
  py_day_range a b
  = a :: py_day_range (mkpy (plus_days (fields a) 1) (utcoffset a)) b.
Proof.
  intros Hv Hfd Hmax. pose proof (valid_pydatetime_fields a Hv) as Hf.
  pose proof (toordinal_range _ Hf) as Ho.
  destruct (py_step a Hv Hmax) as (_ & _ & _ & Hi).
  unfold py_day_range, py_floor_days. rewrite Hi.
  replace (instant b - (instant a + US_PER_DAY))
    with (instant b - instant a + (-1) * US_PER_DAY) by lia.
  rewrite Z.div_add by (unfold US_PER_DAY; lia).
  fold (py_floor_days a b). cbn [fields utcoffset].
  replace (Z.to_nat (py_floor_days a b + 1))
    with (S (Z.to_nat (py_floor_days a b + -1 + 1))) by lia.
  cbn [seq map]. change (Z.of_nat 0) with 0. rewrite plus_days_0 by assumption.
  f_equal; [now destruct a|].
  rewrite <- seq_shift, map_map. apply map_ext. intros k.
  rewrite plus_days_plus_days by (assumption || lia). do 2 f_equal. lia.
Qed.

Lemma py_count_cons p d l :
  py_count p (d :: l) = (if p d then 1 else 0) + py_count p l.
Proof.
  unfold py_count. cbn [List.filter]. destruct (p d); cbn [length]; lia.
Qed.

Lemma py_floor_days_step a b :
  valid_pydatetime a = true -> toordinal (fields a) < _MAXORDINAL ->
  py_floor_days (mkpy (plus_days (fields a) 1) (utcoffset a)) b
  = py_floor_days a b - 1.
Proof.
  intros Hv Hmax. destruct (py_step a Hv Hmax) as (_ & _ & _ & Hi).
  unfold py_floor_days. rewrite Hi.
  replace (instant b - (instant a + US_PER_DAY))
    with (instant b - instant a + (-1) * US_PER_DAY) by lia.
  rewrite Z.div_add by (unfold US_PER_DAY; lia). lia.
Qed.

Lemma py_day_loop_terminates p n :
  forall current_date to_date count fuel,
    valid_pydatetime current_date = true ->
    valid_pydatetime to_date = true ->
    same_kind current_date to_date = true ->
    py_range_fits current_date to_date ->
    Z.to_nat (py_floor_days current_date to_date + 1) = n ->
    (n < fuel)%nat ->
    py_day_loop p fuel current_date to_date count
    = Some (Ok (count + py_count p (py_day_range current_date to_date))).
Proof.
  induction n as [|n IH];
    intros cur to_date count fuel Hc Ht Hk Hfit Hn Hfuel;
    (destruct fuel as [|fuel]; [lia|]);
    cbn [py_day_loop]; rewrite py_le_same_kind by assumption.
  - destruct (Z.leb_spec 0 (py_floor_days cur to_date)); [lia|].
    rewrite py_day_range_nil by assumption. unfold py_count. cbn.
    now rewrite Z.add_0_r.
  - destruct (Z.leb_spec 0 (py_floor_days cur to_date)) as [Hfd|]; [|lia].
    destruct Hfit as [Hneg|Hfit]; [lia|].
    assert (Hmax : toordinal (fields cur) < _MAXORDINAL) by lia.
    destruct (py_step cur Hc Hmax) as (Hstep & Hv' & Ho' & _).
    rewrite Hstep.
    rewrite (IH (mkpy (plus_days (fields cur) 1) (utcoffset cur)) to_date);
      try assumption.
    + rewrite (py_day_range_cons cur) by assumption.
      rewrite py_count_cons. do 2 f_equal. destruct (p cur); lia.
    + right. rewrite Ho', py_floor_days_step by assumption. lia.
    + rewrite py_floor_days_step by assumption. lia.
    + lia.
Qed.

Lemma py_day_loop_overflows p n :
  forall current_date to_date count fuel,
    valid_pydatetime current_date = true ->
    valid_pydatetime to_date = true ->
    same_kind current_date to_date = true ->
    0 <= py_floor_days current_date to_date ->
    _MAXORDINAL
    <= toordinal (fields current_date) + py_floor_days current_date to_date ->
    Z.to_nat (_MAXORDINAL - toordinal (fields current_date)) = n ->
    (n < fuel)%nat ->
    py_day_loop p fuel current_date to_date count = Some (Err OverflowError).
Proof.
  induction n as [|n IH];
    intros cur to_date count fuel Hc Ht Hk Hfd Hlast Hn Hfuel;
    (destruct fuel as [|fuel]; [lia|]);
    cbn [py_day_loop]; rewrite py_le_same_kind by assumption;
    (destruct (Z.leb_spec 0 (py_floor_days cur to_date)); [|lia]);
    pose proof (toordinal_range _ (valid_pydatetime_fields cur Hc)) as Ho.
  - now rewrite py_step_overflow by (assumption || lia).
  - assert (Hmax : toordinal (fields cur) < _MAXORDINAL) by lia.
    destruct (py_step cur Hc Hmax) as (Hstep & Hv' & Ho' & _).
    rewrite Hstep. apply IH; try assumption;
      rewrite ?Ho', ?py_floor_days_step by assumption; lia.
Qed.

Lemma py_day_loop_mixed p fuel current_date to_date count :
  same_kind current_date to_date = false -> (0 < fuel)%nat ->
  py_day_loop p fuel current_date to_date count = Some (Err TypeError).
Proof.
  intros Hk Hfuel. destruct fuel as [|fuel]; [lia|].
  cbn [py_day_loop]. now rewrite py_le_mixed.
Qed.

(** The three outcomes of a loop once the fuel exceeds the days of the
    range. *)
Lemma py_day_loop_outcome p fuel from_date to_date :
  valid_pydatetime from_date = true -> valid_pydatetime to_date = true ->
  (Z.to_nat (py_floor_days from_date to_date + 1) < fuel)%nat ->
  (same_kind from_date to_date = false
   /\ py_day_loop p fuel from_date to_date 0 = Some (Err TypeError))
  \/ (same_kind from_date to_date = true
      /\ py_range_fits from_date to_date
      /\ py_day_loop p fuel from_date to_date 0
         = Some (Ok (py_count p (py_day_range from_date to_date))))
  \/ (same_kind from_date to_date = true
      /\ ~ py_range_fits from_date to_date
      /\ py_day_loop p fuel from_date to_date 0 = Some (Err OverflowError)).
Proof.
  intros Hf Ht Hfuel.
  destruct (same_kind from_date to_date) eqn:Hk.
  - right.
    pose proof (toordinal_range _ (valid_pydatetime_fields _ Hf)) as Ho.
    destruct (Z_lt_ge_dec (py_floor_days from_date to_date) 0) as [Hneg|Hpos].
    + left. split; [reflexivity|]. split; [now left|].
      now rewrite (py_day_loop_terminates p _ _ _ _ _ Hf Ht Hk
                     (or_introl Hneg) eq_refl Hfuel).
    + destruct (Z_lt_ge_dec (toordinal (fields from_date)
                             + py_floor_days from_date to_date)
                  _MAXORDINAL) as [Hfit|Hlast].
      * left. split; [reflexivity|]. split; [now right|].
        now rewrite (py_day_loop_terminates p _ _ _ _ _ Hf Ht Hk
                       (or_intror Hfit) eq_refl Hfuel).
      * right. split; [reflexivity|]. split.
        -- unfold py_range_fits. lia.
        -- apply (py_day_loop_overflows p _ _ _ _ _ Hf Ht Hk ltac:(lia)
                    ltac:(lia) eq_refl). lia.
  - left. split; [reflexivity|]. apply py_day_loop_mixed; [assumption|lia].
Qed.

(** On naive datetimes the methods on datetime objects are the methods on
    their fields. *)
Lemma py_sub_naive a b : py_sub (naive a) (naive b) = datetime_sub a b.
Proof. unfold py_sub. cbn. now destruct (datetime_sub a b). Qed.

Lemma py_le_naive a b : py_le (naive a) (naive b) = Ok (datetime_le a b).
Proof. reflexivity. Qed.

Lemma dynamic_get_days_naive a b :
  Dynamic.get_days (naive a) (naive b) = get_days a b.
Proof. unfold Dynamic.get_days, get_days. now rewrite py_sub_naive. Qed.

Lemma py_day_loop_naive q p fuel :
  (forall d, q (naive d) = p d) ->
  forall a b count,
    py_day_loop q fuel (naive a) (naive b) count = day_loop p fuel a b count.
Proof.
  intros Hq. induction fuel as [|fuel IH]; intros a b count; [reflexivity|].
  cbn [py_day_loop day_loop]. rewrite py_le_naive, dynamic_add_dt.
  cbn [fields naive utcoffset]. rewrite Hq.
  destruct (datetime_le a b); [|reflexivity].
  destruct (add_dt a 1) as [d|e]; [apply IH|reflexivity].
Qed.

Lemma dynamic_count_weekends_naive fuel a b :
  Dynamic.count_weekends fuel (naive a) (naive b) = count_weekends fuel a b.
Proof.
  unfold Dynamic.count_weekends, count_weekends.
  rewrite dynamic_count_weekends_loop, count_weekends_loop_day_loop.
  now apply py_day_loop_naive.
Qed.

Lemma dynamic_get_business_days_naive holidays fuel a b :
  Dynamic.get_business_days holidays fuel (naive a) (naive b)
  = get_business_days holidays fuel a b.
Proof.
  unfold Dynamic.get_business_days, get_business_days.
  rewrite dynamic_get_business_days_loop, get_business_days_loop_day_loop.
  now apply py_day_loop_naive.
Qed.

Lemma dynamic_get_days_same_kind from_date to_date :
  valid_pydatetime from_date = true -> valid_pydatetime to_date = true ->
  same_kind from_date to_date = true ->
  Dynamic.get_days from_date to_date = Ok (py_floor_days from_date to_date).
Proof.
  intros Hf Ht Hk. unfold Dynamic.get_days.
  rewrite py_sub_same_kind; try assumption.
  - reflexivity.
  - unfold same_kind in *. now destruct (utcoffset from_date),
      (utcoffset to_date).
Qed.

Lemma same_kind_sym a b : same_kind a b = same_kind b a.
Proof. unfold same_kind. now destruct (utcoffset a), (utcoffset b). Qed.

(** ** Which calls return *)

(** C9, as the code has it.  Apart from [load_holidays] and [convert_dt],
    the operations return a value rather than raise, and the loops
    terminate, on the inputs that neither mix a naive with an aware
    datetime nor leave the calendar: [is_holiday] answers for every
    datetime and timezone; [add_dt] and [sub_dt] return when the
    shifted day lies in years 1 to 9999; [get_days_since_epoch] returns for
    a naive datetime; [get_days] returns when the two datetimes are both
    naive or both aware; [count_weekends], [get_business_days] and
    [get_days_exclude_we] then terminate with a value when every day of the
    range has a next day in the calendar, which holds for every reversed
    range.  Mixing a naive and an aware datetime raises [TypeError], and so
    does [get_days_since_epoch] on every aware datetime. *)
Theorem operations_total_within_calendar holidays from_date to_date n
  timezone :
  valid_pydatetime from_date = true -> valid_pydatetime to_date = true ->
  (exists answer : bool,
     is_holiday holidays (py_key from_date) timezone = answer)
  /\ (1 <= toordinal (fields from_date) + n <= _MAXORDINAL ->
   Dynamic.add_dt from_date n
   = Ok (mkpy (plus_days (fields from_date) n) (utcoffset from_date)))
  /\ (1 <= toordinal (fields from_date) - n <= _MAXORDINAL ->
      Dynamic.sub_dt from_date n
      = Ok (mkpy (plus_days (fields from_date) (- n)) (utcoffset from_date)))
  /\ (utcoffset from_date = None ->
      Dynamic.get_days_since_epoch from_date
      = Ok (floor_days epoch (fields from_date)))
  /\ (utcoffset from_date <> None ->
      Dynamic.get_days_since_epoch from_date = Err TypeError)
  /\ (same_kind from_date to_date = true ->
      Dynamic.get_days from_date to_date
      = Ok (py_floor_days from_date to_date)
      /\ (py_le from_date to_date = Ok false ->
          py_range_fits from_date to_date)
      /\ (py_range_fits from_date to_date ->
          forall fuel,
            (Z.to_nat (py_floor_days from_date to_date + 1) < fuel)%nat ->
            exists weekends business_days,
              Dynamic.count_weekends fuel from_date to_date
              = Some (Ok weekends)
              /\ Dynamic.get_business_days holidays fuel from_date to_date
                 = Some (Ok business_days)
              /\ Dynamic.get_days_exclude_we fuel from_date to_date
                 = Some (Ok (py_floor_days from_date to_date - weekends))))
  /\ (same_kind from_date to_date = false ->
      Dynamic.get_days from_date to_date = Err TypeError
      /\ forall fuel, (0 < fuel)%nat ->
           Dynamic.count_weekends fuel from_date to_date
           = Some (Err TypeError)
           /\ Dynamic.get_business_days holidays fuel from_date to_date
              = Some (Err TypeError)
           /\ Dynamic.get_days_exclude_we fuel from_date to_date
              = Some (Err TypeError)).
Proof.
  intros Hf Ht. pose proof (valid_pydatetime_fields _ Hf) as Hff.
  assert (Hadd : forall k,
    1 <= toordinal (fields from_date) + k <= _MAXORDINAL ->
    add_dt (fields from_date) k = Ok (plus_days (fields from_date) k)).
  { intros k Hk. rewrite add_dt_spec by assumption.
    destruct (Z.ltb_spec 0 (toordinal (fields from_date) + k)); [|lia].
    destruct (Z.leb_spec (toordinal (fields from_date) + k) _MAXORDINAL);
      [|lia].
    reflexivity. }
  split; [now eexists|].
  split; [intros Hn; now rewrite dynamic_add_dt, Hadd|].
  split; [intros Hn; rewrite dynamic_sub_dt, sub_dt_add_dt, Hadd;
          [reflexivity|lia]|].
  split.
  { intros Hnaive. destruct from_date as [d off]. cbn in Hnaive. subst off.
    change (Dynamic.get_days_since_epoch (mkpy d None))
      with (Dynamic.get_days (naive epoch) (naive d)).
    rewrite dynamic_get_days_naive. now apply get_days_valid. }
  split.
  { intros Haware. unfold Dynamic.get_days_since_epoch.
    rewrite py_sub_mixed; [reflexivity|assumption|reflexivity|].
    unfold same_kind. cbn. now destruct (utcoffset from_date). }
  split.
  - intros Hk. split; [now apply dynamic_get_days_same_kind|]. split.
    + rewrite py_le_same_kind by assumption. intros [= H]. left.
      now apply Z.leb_gt.
    + intros Hfit fuel Hfuel.
      exists (py_count (fun d => is_weekend (fields d))
                (py_day_range from_date to_date)).
      eexists.
      assert (Ew : Dynamic.count_weekends fuel from_date to_date
                   = Some (Ok (py_count (fun d => is_weekend (fields d))
                                 (py_day_range from_date to_date)))).
      { unfold Dynamic.count_weekends. rewrite dynamic_count_weekends_loop.
        now rewrite (py_day_loop_terminates _ _ _ _ _ _ Hf Ht Hk Hfit
                       eq_refl Hfuel). }
      split; [exact Ew|]. split.
      * unfold Dynamic.get_business_days.
        rewrite dynamic_get_business_days_loop.
        now rewrite (py_day_loop_terminates _ _ _ _ _ _ Hf Ht Hk Hfit
                       eq_refl Hfuel).
      * unfold Dynamic.get_days_exclude_we.
        rewrite py_sub_same_kind, Ew, ?same_kind_sym by
          (assumption || now rewrite same_kind_sym).
        reflexivity.
  - intros Hk. split.
    + unfold Dynamic.get_days.
      rewrite py_sub_mixed; [reflexivity|assumption..|].
      now rewrite same_kind_sym.
    + intros fuel Hfuel.
      unfold Dynamic.count_weekends, Dynamic.get_business_days,
        Dynamic.get_days_exclude_we.
      rewrite dynamic_count_weekends_loop, dynamic_get_business_days_loop.
      rewrite !py_day_loop_mixed by assumption.
      rewrite py_sub_mixed; [auto|assumption..|].
      now rewrite same_kind_sym.
Qed.

Lemma operations_total_within_calendar_witness :
  exists weekends business_days,
    Dynamic.count_weekends 20 (naive demo_from) (naive demo_to)
    = Some (Ok weekends)
    /\ Dynamic.get_business_days utc_calendar 20 (naive demo_from)
         (naive demo_to)
       = Some (Ok business_days)
    /\ Dynamic.get_days_exclude_we 20 (naive demo_from) (naive demo_to)
       = Some (Ok (py_floor_days (naive demo_from) (naive demo_to)
                   - weekends)).
Proof.
  apply (operations_total_within_calendar utc_calendar (naive demo_from)
           (naive demo_to) 0 "US/Eastern" eq_refl eq_refl).
  - reflexivity.
  - right. vm_compute. reflexivity.
  - vm_compute. lia.
Defined.

(** C9 as stated fails in two ways.  At the end of the calendar: on the
    range made of the single day 9999-12-31 the loops count that day and
    then raise [OverflowError] when they step to the next day, whatever the
    fuel.  On aware datetimes, such as [convert_dt] returns:
    [get_days_since_epoch] subtracts the naive epoch and raises
    [TypeError], and so does [get_days] between a naive and an aware
    datetime. *)
Lemma totality_fails_at_calendar_end_and_on_aware_datetimes :
  (valid_pydatetime (naive last_day) = true
   /\ forall fuel, (0 < fuel)%nat ->
        Dynamic.count_weekends fuel (naive last_day) (naive last_day)
        = Some (Err OverflowError)
        /\ Dynamic.get_business_days ∅ fuel (naive last_day) (naive last_day)
           = Some (Err OverflowError)
        /\ Dynamic.get_days_exclude_we fuel (naive last_day) (naive last_day)
           = Some (Err OverflowError))
  /\ (valid_pydatetime demo_aware = true
      /\ Dynamic.get_days_since_epoch demo_aware = Err TypeError
      /\ Dynamic.get_days (naive demo_from) demo_aware = Err TypeError).
Proof.
  split; [|repeat split]. split; [reflexivity|]. intros fuel Hfuel.
  assert (Hany : forall p,
    py_day_loop p fuel (naive last_day) (naive last_day) 0
    = Some (Err OverflowError)).
  { intros p. apply (py_day_loop_overflows p 0);
      first [reflexivity | lia | (vm_compute; discriminate)]. }
  unfold Dynamic.count_weekends, Dynamic.get_business_days,
    Dynamic.get_days_exclude_we, Dynamic.count_weekends.
  rewrite dynamic_count_weekends_loop, dynamic_get_business_days_loop.
  rewrite !Hany. repeat split.
Qed.

Lemma py_day_loop_cases p fuel from_date to_date :
  valid_pydatetime from_date = true -> valid_pydatetime to_date = true ->
  (Z.to_nat (py_floor_days from_date to_date + 1) < fuel)%nat ->
  (py_day_loop p fuel from_date to_date 0 = Some (Err TypeError)
   <-> same_kind from_date to_date = false)
  /\ (py_day_loop p fuel from_date to_date 0 = Some (Err OverflowError)
      <-> same_kind from_date to_date = true
          /\ reaches_last_day from_date to_date)
  /\ (same_kind from_date to_date = true ->
      ~ reaches_last_day from_date to_date ->
      py_day_loop p fuel from_date to_date 0
      = Some (Ok (py_count p (py_day_range from_date to_date)))).
Proof.
  intros Hf Ht Hfuel. unfold reaches_last_day.
  destruct (py_day_loop_outcome p fuel _ _ Hf Ht Hfuel)
    as [[Hk ->]|[(Hk & Hfit & ->)|(Hk & Hno & ->)]];
    unfold py_range_fits in *; rewrite Hk.
  - repeat split; try discriminate; intros; try reflexivity.
    destruct H; discriminate.
  - repeat split; try discriminate; intros; try reflexivity. lia.
  - repeat split; try discriminate; intros; try lia.
Qed.

(** X4.  With enough fuel, [count_weekends] and [get_business_days] have
    three outcomes.  They raise [TypeError] exactly when one end of the
    range is naive and the other aware.  They raise [OverflowError] exactly
    when the ends are of the same kind, the range is not reversed and its
    last day has no next day in the calendar (for naive datetimes: the
    range reaches 9999-12-31).  On every other range they return a count:
    that of the weekend days of the range, and that of its days from Monday
    to Friday that the look-up does not find. *)
Theorem loops_overflow_exactly_at_calendar_end holidays fuel
  from_date to_date :
  valid_pydatetime from_date = true -> valid_pydatetime to_date = true ->
  (Z.to_nat (py_floor_days from_date to_date + 1) < fuel)%nat ->
  (Dynamic.count_weekends fuel from_date to_date = Some (Err TypeError)
   <-> same_kind from_date to_date = false)
  /\ (Dynamic.get_business_days holidays fuel from_date to_date
      = Some (Err TypeError)
      <-> same_kind from_date to_date = false)
  /\ (Dynamic.count_weekends fuel from_date to_date
      = Some (Err OverflowError)
      <-> same_kind from_date to_date = true
          /\ reaches_last_day from_date to_date)
  /\ (Dynamic.get_business_days holidays fuel from_date to_date
      = Some (Err OverflowError)
      <-> same_kind from_date to_date = true
          /\ reaches_last_day from_date to_date)
  /\ (same_kind from_date to_date = true ->
      ~ reaches_last_day from_date to_date ->
      Dynamic.count_weekends fuel from_date to_date
      = Some (Ok (py_count (fun d => is_weekend (fields d))
                    (py_day_range from_date to_date)))
      /\ Dynamic.get_business_days holidays fuel from_date to_date
         = Some (Ok (py_count
                       (fun d => is_weekday (fields d)
                                 && negb (is_holiday holidays (py_key d)
                                            "US/Eastern"))
                       (py_day_range from_date to_date)))).
Proof.
  intros Hf Ht Hfuel.
  unfold Dynamic.count_weekends, Dynamic.get_business_days.
  rewrite dynamic_count_weekends_loop, dynamic_get_business_days_loop.
  destruct (py_day_loop_cases (fun d => is_weekend (fields d)) fuel _ _
              Hf Ht Hfuel) as (Wt & Wo & Wc).
  destruct (py_day_loop_cases
              (fun d => (weekday (fields d) <? 5)
                        && negb (is_holiday holidays (py_key d) "US/Eastern"))
              fuel _ _ Hf Ht Hfuel) as (Bt & Bo & Bc).
  split; [exact Wt|]. split; [exact Bt|]. split; [exact Wo|].
  split; [exact Bo|]. intros Hk Hno. split.
  - now apply Wc.
  - now apply Bc.
Qed.

Lemma loops_overflow_exactly_at_calendar_end_witness :
  Dynamic.count_weekends 20 (naive demo_from) (naive demo_to)
  = Some (Ok 4)
  /\ Dynamic.get_business_days utc_calendar 20 (naive demo_from)
       (naive demo_to)
     = Some (Ok 8).
Proof.
  destruct (loops_overflow_exactly_at_calendar_end utc_calendar 20
              (naive demo_from) (naive demo_to) eq_refl eq_refl
              ltac:(vm_compute; lia)) as (_ & _ & _ & _ & Hcount).
  destruct Hcount as [Hw Hb].
  - reflexivity.
  - vm_compute. intros [_ H]. now apply H.
  - rewrite Hw, Hb. split; reflexivity.
Defined.
